(** * auto-daily-report: the cloud API adapter of [scripts/generate_report.py]

    A shallow embedding of the pure parts of the report generator: dotted-path
    extraction, placeholder templating, the default payload, response
    normalisation, think-block stripping and the section check.

    Conventions.
    - A Python [str] is a [string]; each [ascii] is one code point below 256.
      The character classes used below (whitespace, case mapping, decimal
      digits) are the ones CPython applies to these code points.
    - A decoded JSON document is a [json] tree; a [dict] is an association
      list in insertion order.
    - An exception is a value of [exn]; code that may raise returns a
      [result]. *)

From Stdlib Require Import String Ascii List ZArith NArith Lia Bool Arith.
From Stdlib Require Import Numbers.DecimalString.
Import ListNotations.
Set Warnings "-register-all".
Set Warnings "-notation-overridden".
Set Warnings "-notation-incompatible-prefix".
Open Scope list_scope.
Open Scope string_scope.

(** ** Python strings *)

Module Py.

(** Code point of a character. *)
Definition ord (c : ascii) : N := N_of_ascii c.

Definition newline : ascii := "010"%char.
Definition dquote : ascii := "034"%char.
Definition squote : ascii := "039"%char.
Definition backslash : ascii := "092"%char.

(** [str.isspace] and the regex class [\s] on code points below 256:
    TAB..CR, FS..US, space, NEL and NBSP. *)
Definition is_space (c : ascii) : bool :=
  let n := ord c in
  (((9 <=? n) && (n <=? 13)) || ((28 <=? n) && (n <=? 31)) ||
   (n =? 32) || (n =? 133) || (n =? 160))%N.

(** The simple lower-case mapping ([str.lower] and the case folding of
    [re.IGNORECASE]) on code points below 256. *)
Definition chr_lower (c : ascii) : ascii :=
  let n := ord c in
  if (((65 <=? n) && (n <=? 90)) ||
      ((192 <=? n) && (n <=? 222) && negb (n =? 215)))%N
  then ascii_of_N (n + 32) else c.

(** [s.lower()] *)
Fixpoint lower (s : string) : string :=
  match s with
  | "" => ""
  | String c s' => String (chr_lower c) (lower s')
  end.

(** [s.lstrip()], [s.rstrip()], [s.strip()] *)
Fixpoint lstrip (s : string) : string :=
  match s with
  | "" => ""
  | String c s' => if is_space c then lstrip s' else s
  end.

Fixpoint rstrip (s : string) : string :=
  match s with
  | "" => ""
  | String c s' =>
      match rstrip s' with
      | "" => if is_space c then "" else String c ""
      | r => String c r
      end
  end.

Definition strip (s : string) : string := lstrip (rstrip s).

(** Truth value of a [str]: [bool(s)]. *)
Definition nonempty (s : string) : bool :=
  match s with "" => false | _ => true end.

(** [s.split(sep)] for a one-character separator. *)
Fixpoint split (sep : ascii) (s : string) : list string :=
  match s with
  | "" => [""]
  | String c s' =>
      match split sep s' with
      | [] => [""]
      | h :: t => if Ascii.eqb c sep then "" :: h :: t else String c h :: t
      end
  end.

(** [sep.join(l)] *)
Definition join (sep : string) (l : list string) : string := String.concat sep l.

(** [s.startswith(p)] *)
Fixpoint startswith (p s : string) : bool :=
  match p, s with
  | "", _ => true
  | String a p', String b s' => Ascii.eqb a b && startswith p' s'
  | String _ _, "" => false
  end.

(** [p in s] *)
Fixpoint contains (p s : string) : bool :=
  startswith p s ||
  match s with
  | "" => false
  | String _ s' => contains p s'
  end.

(** [x in l] for a list of strings. *)
Definition mem (x : string) (l : list string) : bool :=
  existsb (String.eqb x) l.

(** [s.replace(old, new)] for a non-empty [old]: the occurrences of [old] are
    found from the left and do not overlap.  [skip] counts the characters of
    the occurrence under replacement that are still to be passed over. *)
Fixpoint replace_from (old new : string) (skip : nat) (s : string) : string :=
  match s with
  | "" => ""
  | String c s' =>
      match skip with
      | S k => replace_from old new k s'
      | O =>
          if startswith old s
          then new ++ replace_from old new (String.length old - 1) s'
          else String c (replace_from old new 0 s')
      end
  end.

(** With an empty [old], Python inserts [new] before every character and at
    the end. *)
Fixpoint intersperse (new s : string) : string :=
  match s with
  | "" => new
  | String c s' => new ++ String c (intersperse new s')
  end.

Definition replace (old new s : string) : string :=
  match old with
  | "" => intersperse new s
  | _ => replace_from old new 0 s
  end.

(** *** [int(s)] *)

(** The blanks [int] skips around the literal: the ASCII ones the C parser
    knows, and the non-ASCII white space CPython first rewrites to a space. *)
Definition is_int_space (c : ascii) : bool :=
  let n := ord c in
  (((9 <=? n) && (n <=? 13)) || (n =? 32) || (n =? 133) || (n =? 160))%N.

Fixpoint int_lstrip (s : string) : string :=
  match s with
  | "" => ""
  | String c s' => if is_int_space c then int_lstrip s' else s
  end.

Fixpoint int_rstrip (s : string) : string :=
  match s with
  | "" => ""
  | String c s' =>
      match int_rstrip s' with
      | "" => if is_int_space c then "" else String c ""
      | r => String c r
      end
  end.

Definition digit (c : ascii) : option Z :=
  let n := ord c in
  if ((48 <=? n) && (n <=? 57))%N then Some (Z.of_N n - 48)%Z else None.

(** The digits after the first one: a digit, or one underscore followed by a
    digit. *)
Fixpoint int_digits (acc : Z) (s : string) : option Z :=
  match s with
  | "" => Some acc
  | String c s' =>
      match digit c with
      | Some d => int_digits (10 * acc + d) s'
      | None =>
          if Ascii.eqb c "_" then
            match s' with
            | String c' s'' =>
                match digit c' with
                | Some d => int_digits (10 * acc + d) s''
                | None => None
                end
            | "" => None
            end
          else None
      end
  end.

Definition int_unsigned (s : string) : option Z :=
  match s with
  | String c s' =>
      match digit c with
      | Some d => int_digits d s'
      | None => None
      end
  | "" => None
  end.

(** [int(s)] in base ten; [None] stands for [ValueError].  (The interpreter's
    configurable bound on the number of digits is not modelled.) *)
Definition int (s : string) : option Z :=
  match int_lstrip (int_rstrip s) with
  | String "+" t => int_unsigned t
  | String "-" t => option_map Z.opp (int_unsigned t)
  | t => int_unsigned t
  end.

(** [l[i]] on a list: a negative index counts from the end; [None] stands
    for [IndexError]. *)
Definition getitem {A : Type} (l : list A) (i : Z) : option A :=
  let n := Z.of_nat (List.length l) in
  if (0 <=? i)%Z then nth_error l (Z.to_nat i)
  else if (- n <=? i)%Z then nth_error l (Z.to_nat (n + i))
  else None.

(** [str(z)] for an [int]. *)
Definition str_of_int (z : Z) : string := NilZero.string_of_int (Z.to_int z).

(** [s.endswith(p)] *)
Fixpoint endswith (p s : string) : bool :=
  String.eqb p s ||
  match s with
  | "" => false
  | String _ s' => endswith p s'
  end.

(** [s.lstrip(chars)], [s.rstrip(chars)], [s.strip(chars)]: the characters of
    [chars] are taken off the ends. *)
Fixpoint has (chars : string) (c : ascii) : bool :=
  match chars with
  | "" => false
  | String a chars' => Ascii.eqb a c || has chars' c
  end.

Fixpoint lstrip_chars (chars s : string) : string :=
  match s with
  | "" => ""
  | String c s' => if has chars c then lstrip_chars chars s' else s
  end.

Fixpoint rstrip_chars (chars s : string) : string :=
  match s with
  | "" => ""
  | String c s' =>
      match rstrip_chars chars s' with
      | "" => if has chars c then "" else String c ""
      | r => String c r
      end
  end.

Definition strip_chars (chars s : string) : string :=
  lstrip_chars chars (rstrip_chars chars s).

End Py.

(** ** JSON values, exceptions and results *)

(** What [json.loads] yields: [None], [bool], [int], [float], [str], [list]
    and [dict].  A [dict] is the list of its items in insertion order; its
    keys are strings and pairwise distinct, so a lookup may stop at the first
    item with the key.  The adapter never computes with a [float]: it passes
    it on, tests it against zero and prints it.  A [float] is therefore
    carried by the text [float.__repr__] gives it ([0.2], [1e-05], [nan],
    [-inf]). *)
Inductive json : Type :=
| JNull
| JBool (b : bool)
| JInt (z : Z)
| JFloat (repr : string)
| JStr (s : string)
| JList (items : list json)
| JDict (fields : list (string * json)).

(** The exceptions raised while a path is walked. *)
Inductive exn : Type :=
| ValueError (literal : string)      (* int(part) *)
| IndexError (index : Z)             (* cur[idx] on a list *)
| KeyError (key : string)            (* cur[part] on a dict *)
| KeyErrorNavigate (part : string).  (* "Cannot navigate part=... on type=..." *)

(** The failures of [call_cloud_api]: the [RuntimeError]s it raises, by
    message, and the exceptions it lets through. *)
Inductive error : Type :=
| MissingEnv (name : string)         (* Missing required env var: ... *)
| Uncaught (e : exn)                 (* int() on the time-out setting *)
| InvalidTemplate                    (* Invalid REPORT_API_REQUEST_TEMPLATE_JSON: ... *)
| ExchangeFailed (detail : string)   (* raised while headers are built, on the
                                        request, or on decoding the answer *)
| UnableToExtract (paths : list string) (last_err : exn)
                                     (* Unable to extract model output from
                                        response paths: ... Last error: ... *)
| NoResponsePaths                    (* No response paths configured. *)
| EmptyContent.                      (* Cloud API returned empty content after
                                        filtering. *)

Inductive result (E A : Type) : Type :=
| Ok (a : A)
| Err (e : E).
Arguments Ok {E A} a.
Arguments Err {E A} e.

Definition bind {E A B : Type} (r : result E A) (k : A -> result E B) : result E B :=
  match r with
  | Ok a => k a
  | Err e => Err e
  end.

Notation "x <- r ;; k" := (bind r (fun x => k))
  (at level 61, r at next level, right associativity).

Definition of_option {E A : Type} (o : option A) (e : E) : result E A :=
  match o with
  | Some a => Ok a
  | None => Err e
  end.

(** [d.get(k)] / [k in d] / [d[k]] on an association list. *)
Fixpoint dict_get (d : list (string * json)) (k : string) : option json :=
  match d with
  | [] => None
  | (k', v) :: d' => if String.eqb k' k then Some v else dict_get d' k
  end.

Definition dict_has (d : list (string * json)) (k : string) : bool :=
  match dict_get d k with Some _ => true | None => false end.

(** [d.pop(k)] for a key that is present. *)
Fixpoint dict_pop (d : list (string * json)) (k : string) : list (string * json) :=
  match d with
  | [] => []
  | (k', v) :: d' => if String.eqb k' k then d' else (k', v) :: dict_pop d' k
  end.

(** ** [extract_by_path] *)

(** One turn of the loop [for part in path.split(".")]. *)
Definition navigate (cur : json) (part : string) : result exn json :=
  match cur with
  | JList items =>
      idx <- of_option (Py.int part) (ValueError part) ;;
      of_option (Py.getitem items idx) (IndexError idx)
  | JDict fields => of_option (dict_get fields part) (KeyError part)
  | _ => Err (KeyErrorNavigate part)
  end.

Fixpoint walk (cur : json) (parts : list string) : result exn json :=
  match parts with
  | [] => Ok cur
  | part :: rest => cur' <- navigate cur part ;; walk cur' rest
  end.

Definition extract_by_path (data : json) (path : string) : result exn json :=
  if negb (Py.nonempty path) then Ok data
  else walk data (Py.split "." path).

(** ** [replace_placeholders] *)

(** The loop [for k, v in mapping.items(): out = out.replace("{{" + k + "}}", v)]. *)
Fixpoint replace_all (mapping : list (string * string)) (out : string) : string :=
  match mapping with
  | [] => out
  | (k, v) :: rest => replace_all rest (Py.replace ("{{" ++ k ++ "}}") v out)
  end.

Fixpoint replace_placeholders (obj : json) (mapping : list (string * string)) : json :=
  match obj with
  | JStr s => JStr (replace_all mapping s)
  | JList items =>
      JList ((fix each (l : list json) : list json :=
                match l with
                | [] => []
                | x :: l' => replace_placeholders x mapping :: each l'
                end) items)
  | JDict fields =>
      JDict ((fix each (l : list (string * json)) : list (string * json) :=
                match l with
                | [] => []
                | (k, v) :: l' => (k, replace_placeholders v mapping) :: each l'
                end) fields)
  | other => other
  end.

(** ** [build_default_payload] *)

Definition build_default_payload (model system_prompt user_prompt : string) : json :=
  let payload :=
    [ ("model", if Py.nonempty model then JStr model else JNull);
      ("messages",
        JList [ JDict [("role", JStr "system"); ("content", JStr system_prompt)];
                JDict [("role", JStr "user"); ("content", JStr user_prompt)] ]);
      ("temperature", JFloat "0.2");
      ("top_p", JFloat "0.9");
      ("stream", JBool false) ] in
  match dict_get payload "model" with
  | Some JNull => JDict (dict_pop payload "model")
  | _ => JDict payload
  end.

(** ** [str], [repr], [bool] and [json.dumps] on JSON values *)

Definition hex_digit (n : N) : ascii :=
  if (n <? 10)%N then ascii_of_N (48 + n) else ascii_of_N (87 + n).

Definition hex2 (c : ascii) : string :=
  String (hex_digit (Py.ord c / 16)) (String (hex_digit (Py.ord c mod 16)) "").

(** [str.isprintable] on code points below 256. *)
Definition is_printable (c : ascii) : bool :=
  let n := Py.ord c in
  (((32 <=? n) && (n <=? 126)) || ((161 <=? n) && negb (n =? 173)))%N.

Definition repr_char (quote c : ascii) : string :=
  if Ascii.eqb c quote || Ascii.eqb c Py.backslash then String Py.backslash (String c "")
  else if Ascii.eqb c "009" then String Py.backslash "t"
  else if Ascii.eqb c "010" then String Py.backslash "n"
  else if Ascii.eqb c "013" then String Py.backslash "r"
  else if is_printable c then String c ""
  else String Py.backslash (String "x" (hex2 c)).

Fixpoint repr_body (quote : ascii) (s : string) : string :=
  match s with
  | "" => ""
  | String c s' => repr_char quote c ++ repr_body quote s'
  end.

Fixpoint has_char (a : ascii) (s : string) : bool :=
  match s with
  | "" => false
  | String c s' => Ascii.eqb c a || has_char a s'
  end.

(** [repr(s)] for a [str]: single quotes, unless the text has a single quote
    and no double quote. *)
Definition repr_str (s : string) : string :=
  let quote :=
    if has_char Py.squote s && negb (has_char Py.dquote s) then Py.dquote else Py.squote in
  String quote (repr_body quote s ++ String quote "").

(** [repr(value)] *)
Fixpoint py_repr (value : json) : string :=
  match value with
  | JNull => "None"
  | JBool true => "True"
  | JBool false => "False"
  | JInt z => Py.str_of_int z
  | JFloat r => r
  | JStr s => repr_str s
  | JList items =>
      "[" ++ Py.join ", "
               ((fix each (l : list json) : list string :=
                   match l with
                   | [] => []
                   | x :: l' => py_repr x :: each l'
                   end) items) ++ "]"
  | JDict fields =>
      "{" ++ Py.join ", "
               ((fix each (l : list (string * json)) : list string :=
                   match l with
                   | [] => []
                   | (k, v) :: l' => (repr_str k ++ ": " ++ py_repr v) :: each l'
                   end) fields) ++ "}"
  end.

(** [str(value)] *)
Definition py_str (value : json) : string :=
  match value with
  | JStr s => s
  | other => py_repr other
  end.

(** [bool(value)] *)
Definition truthy (value : json) : bool :=
  match value with
  | JNull => false
  | JBool b => b
  | JInt z => negb (z =? 0)%Z
  | JFloat r => negb (String.eqb r "0.0" || String.eqb r "-0.0")
  | JStr s => Py.nonempty s
  | JList items => match items with [] => false | _ => true end
  | JDict fields => match fields with [] => false | _ => true end
  end.

(** The escapes of [json.dumps(..., ensure_ascii=False)] inside a string. *)
Definition json_escape_char (c : ascii) : string :=
  if Ascii.eqb c Py.dquote then String Py.backslash (String Py.dquote "")
  else if Ascii.eqb c Py.backslash then String Py.backslash (String Py.backslash "")
  else if Ascii.eqb c "010" then String Py.backslash "n"
  else if Ascii.eqb c "013" then String Py.backslash "r"
  else if Ascii.eqb c "009" then String Py.backslash "t"
  else if Ascii.eqb c "008" then String Py.backslash "b"
  else if Ascii.eqb c "012" then String Py.backslash "f"
  else if (Py.ord c <? 32)%N then String Py.backslash ("u00" ++ hex2 c)
  else String c "".

Fixpoint json_escape (s : string) : string :=
  match s with
  | "" => ""
  | String c s' => json_escape_char c ++ json_escape s'
  end.

Definition json_string (s : string) : string :=
  String Py.dquote (json_escape s ++ String Py.dquote "").

Definition json_float (r : string) : string :=
  if String.eqb r "nan" then "NaN"
  else if String.eqb r "inf" then "Infinity"
  else if String.eqb r "-inf" then "-Infinity"
  else r.

(** [json.dumps(value, ensure_ascii=False)]: one line, items separated by
    a comma and a space, keys from values by a colon and a space. *)
Fixpoint json_dumps (value : json) : string :=
  match value with
  | JNull => "null"
  | JBool true => "true"
  | JBool false => "false"
  | JInt z => Py.str_of_int z
  | JFloat r => json_float r
  | JStr s => json_string s
  | JList items =>
      "[" ++ Py.join ", "
               ((fix each (l : list json) : list string :=
                   match l with
                   | [] => []
                   | x :: l' => json_dumps x :: each l'
                   end) items) ++ "]"
  | JDict fields =>
      "{" ++ Py.join ", "
               ((fix each (l : list (string * json)) : list string :=
                   match l with
                   | [] => []
                   | (k, v) :: l' => (json_string k ++ ": " ++ json_dumps v) :: each l'
                   end) fields) ++ "}"
  end.

(** ** [getenv] *)

(** The process environment: [os.getenv]. *)
Definition environ : Type := string -> option string.

Definition getenv (env : environ) (name : string) (default : option string)
    (required : bool) : result error string :=
  let value :=
    match env name with
    | Some v =>
        if negb (Py.nonempty v) || String.eqb (Py.strip v) "" then default else Some v
    | None => default
    end in
  let missing :=
    match value with
    | None => true
    | Some v => String.eqb (Py.strip v) ""
    end in
  if required && missing then Err (MissingEnv name)
  else Ok (match value with Some v => v | None => "" end).

(** ** [_extract_first_available] *)

Definition fallback_paths : list string :=
  [ "choices.0.message.final";
    "choices.0.message.answer";
    "choices.0.message.content";
    "choices.0.text";
    "response.output_text";
    "output_text";
    "data.text";
    "text" ].

(** [[p.strip() for p in paths_csv.split(",") if p.strip()]] *)
Definition configured_paths (paths_csv : string) : list string :=
  filter Py.nonempty (map Py.strip (Py.split "," paths_csv)).

(** [for p in fallback_paths: if p not in paths: paths.append(p)] *)
Fixpoint add_fallbacks (fallbacks paths : list string) : list string :=
  match fallbacks with
  | [] => paths
  | p :: rest => add_fallbacks rest (if Py.mem p paths then paths else (paths ++ [p])%list)
  end.

Definition candidate_paths (paths_csv : string) : list string :=
  add_fallbacks fallback_paths (configured_paths paths_csv).

(** The loop over the candidate paths: it returns at the first path that
    resolves ([inl]) or runs to the end with the last exception ([inr]). *)
Fixpoint try_paths (data : json) (paths : list string) (last_err : option exn)
    : json + option exn :=
  match paths with
  | [] => inr last_err
  | p :: rest =>
      match extract_by_path data p with
      | Ok v => inl v
      | Err e => try_paths data rest (Some e)
      end
  end.

Definition _extract_first_available (data : json) (paths_csv : string) : result error json :=
  let paths := candidate_paths paths_csv in
  match try_paths data paths None with
  | inl v => Ok v
  | inr (Some last_err) => Err (UnableToExtract paths last_err)
  | inr None => Err NoResponsePaths
  end.

(** ** [_normalize_to_text] *)

(** [item.get(k, "")] *)
Definition dict_get_or_empty (d : list (string * json)) (k : string) : json :=
  match dict_get d k with
  | Some v => v
  | None => JStr ""
  end.

(** The body of [for item in value], on the chunks gathered so far. *)
Definition add_chunk (strip_think : bool) (chunks : list string) (item : json) : list string :=
  match item with
  | JDict d =>
      let item_type := Py.lower (py_str (dict_get_or_empty d "type")) in
      if strip_think && Py.mem item_type ["reasoning"; "thought"; "thinking"] then chunks
      else if String.eqb item_type "text" then
        let t := dict_get_or_empty d "text" in
        if truthy t then (chunks ++ [py_str t])%list else chunks
      else
        match dict_get d "text" with
        | Some t => (chunks ++ [py_str t])%list
        | None =>
            match dict_get d "content" with
            | Some c => (chunks ++ [py_str c])%list
            | None => chunks
            end
        end
  | _ => (chunks ++ [py_str item])%list
  end.

(** [value[k] not in (None, "")] *)
Definition not_none_or_empty (v : json) : bool :=
  match v with
  | JNull => false
  | JStr "" => false
  | _ => true
  end.

Definition answer_keys : list string :=
  ["final"; "answer"; "output_text"; "text"; "content"].

(** [k in value and value[k] not in (None, "")], and then [norm(value[k])]. *)
Fixpoint field_text (norm : json -> string) (d : list (string * json)) (k : string)
    : option string :=
  match d with
  | [] => None
  | (k', v) :: d' =>
      if String.eqb k' k
      then if not_none_or_empty v then Some (norm v) else None
      else field_text norm d' k
  end.

(** The loop [for k in (...)] with its early [return]. *)
Fixpoint first_text (norm : json -> string) (d : list (string * json)) (keys : list string)
    : option string :=
  match keys with
  | [] => None
  | k :: keys' =>
      match field_text norm d k with
      | Some text => Some text
      | None => first_text norm d keys'
      end
  end.

Fixpoint _normalize_to_text (strip_think : bool) (value : json) : string :=
  match value with
  | JList items =>
      Py.strip (Py.join (String Py.newline "")
                  (filter Py.nonempty (fold_left (add_chunk strip_think) items [])))
  | JDict fields =>
      match first_text (_normalize_to_text strip_think) fields answer_keys with
      | Some text => text
      | None =>
          match field_text (_normalize_to_text strip_think) fields "message" with
          | Some text => text
          | None => json_dumps value
          end
      end
  | other => Py.strip (py_str other)
  end.

(** ** Regular expressions *)

(** The fragment of Python's [re] the adapter uses: literals, character
    classes, greedy and lazy repetition of a class, alternation, and the
    line anchors of [re.MULTILINE].  Matching is the backtracking search of
    [re]: alternatives in order, a greedy repetition longest first, a lazy one
    shortest first. *)
Module Re.

Inductive regex : Type :=
| Chr (c : ascii)                        (* a literal character *)
| Class (p : ascii -> bool)              (* one character of a class *)
| AtLeast (n : nat) (p : ascii -> bool)  (* [p{n,}], greedy; [p*] is [AtLeast 0 p] *)
| LazyStar (p : ascii -> bool)           (* [p*?] *)
| Bol                                    (* [^] *)
| Eol                                    (* [$] *)
| Seq (r1 r2 : regex)
| Alt (r1 r2 : regex).

(** A continuation receives the character before the current position and
    the rest of the text, and answers with the text left after the whole
    match. *)
Definition cont : Type := option ascii -> string -> option string.

Definition chr_eq (ignorecase : bool) (c a : ascii) : bool :=
  if ignorecase then Ascii.eqb (Py.chr_lower a) (Py.chr_lower c) else Ascii.eqb a c.

Definition or_else {A : Type} (x y : option A) : option A :=
  match x with
  | Some _ => x
  | None => y
  end.

Fixpoint greedy (p : ascii -> bool) (n : nat) (prev : option ascii) (s : string) (k : cont)
    : option string :=
  let stop := match n with O => k prev s | S _ => None end in
  match s with
  | "" => stop
  | String a s' =>
      if p a then or_else (greedy p (Nat.pred n) (Some a) s' k) stop else stop
  end.

Fixpoint lazy (p : ascii -> bool) (prev : option ascii) (s : string) (k : cont)
    : option string :=
  or_else (k prev s)
    match s with
    | "" => None
    | String a s' => if p a then lazy p (Some a) s' k else None
    end.

Fixpoint exec (ignorecase : bool) (r : regex) (prev : option ascii) (s : string) (k : cont)
    : option string :=
  match r with
  | Chr c =>
      match s with
      | String a s' => if chr_eq ignorecase c a then k (Some a) s' else None
      | "" => None
      end
  | Class p =>
      match s with
      | String a s' => if p a then k (Some a) s' else None
      | "" => None
      end
  | AtLeast n p => greedy p n prev s k
  | LazyStar p => lazy p prev s k
  | Bol =>
      match prev with
      | None => k prev s
      | Some a => if Ascii.eqb a Py.newline then k prev s else None
      end
  | Eol =>
      match s with
      | "" => k prev s
      | String a _ => if Ascii.eqb a Py.newline then k prev s else None
      end
  | Seq r1 r2 => exec ignorecase r1 prev s (fun prev' s' => exec ignorecase r2 prev' s' k)
  | Alt r1 r2 => or_else (exec ignorecase r1 prev s k) (exec ignorecase r2 prev s k)
  end.

(** The length of the match of [r] at the current position, if there is one. *)
Definition match_at (ignorecase : bool) (r : regex) (prev : option ascii) (s : string)
    : option nat :=
  match exec ignorecase r prev s (fun _ rest => Some rest) with
  | Some rest => Some (String.length s - String.length rest)
  | None => None
  end.

(** [re.sub(r, repl, s)] for a pattern that never matches the empty string
    and a replacement without group references: the matches are searched
    from the left and do not overlap.  [skip] counts the characters of the
    current match that are still to be passed over, [prev] is the character
    before the current position. *)
Fixpoint sub_from (ignorecase : bool) (r : regex) (repl : string)
    (prev : option ascii) (skip : nat) (s : string) : string :=
  match s with
  | "" => ""
  | String c s' =>
      match skip with
      | S n => sub_from ignorecase r repl (Some c) n s'
      | O =>
          match match_at ignorecase r prev s with
          | Some (S n) => repl ++ sub_from ignorecase r repl (Some c) n s'
          | _ => String c (sub_from ignorecase r repl (Some c) 0 s')
          end
      end
  end.

Definition sub (ignorecase : bool) (r : regex) (repl s : string) : string :=
  sub_from ignorecase r repl None 0 s.

(** A literal text. *)
Fixpoint lit (s : string) : regex :=
  match s with
  | "" => AtLeast 0 (fun _ => false)
  | String c "" => Chr c
  | String c s' => Seq (Chr c) (lit s')
  end.

Definition any_char : ascii -> bool := fun c => Py.is_space c || negb (Py.is_space c).
Definition not_newline : ascii -> bool := fun c => negb (Ascii.eqb c Py.newline).
Definition is_newline : ascii -> bool := fun c => Ascii.eqb c Py.newline.

End Re.

(** ** [_strip_think_blocks] *)

(** [<think>[\s\S]*?</think>] *)
Definition think_span : Re.regex :=
  Re.Seq (Re.lit "<think>") (Re.Seq (Re.LazyStar Re.any_char) (Re.lit "</think>")).

(** [<reasoning>[\s\S]*?</reasoning>] *)
Definition reasoning_span : Re.regex :=
  Re.Seq (Re.lit "<reasoning>") (Re.Seq (Re.LazyStar Re.any_char) (Re.lit "</reasoning>")).

(** [```(?:think|thinking|reasoning)[\s\S]*?```] *)
Definition fenced_block : Re.regex :=
  Re.Seq (Re.lit "```")
    (Re.Seq (Re.Alt (Re.lit "think") (Re.Alt (Re.lit "thinking") (Re.lit "reasoning")))
       (Re.Seq (Re.LazyStar Re.any_char) (Re.lit "```"))).

(** [(?im)^\s*(reasoning|thought|thinking)\s*:\s*.*$] *)
Definition reasoning_line : Re.regex :=
  Re.Seq Re.Bol
    (Re.Seq (Re.AtLeast 0 Py.is_space)
       (Re.Seq (Re.Alt (Re.lit "reasoning") (Re.Alt (Re.lit "thought") (Re.lit "thinking")))
          (Re.Seq (Re.AtLeast 0 Py.is_space)
             (Re.Seq (Re.Chr ":")
                (Re.Seq (Re.AtLeast 0 Py.is_space)
                   (Re.Seq (Re.AtLeast 0 Re.not_newline) Re.Eol)))))).

(** [\n{3,}] *)
Definition blank_lines : Re.regex := Re.AtLeast 3 Re.is_newline.

Definition patterns : list Re.regex := [think_span; reasoning_span; fenced_block].

(** The removals: the three patterns in turn, then the reasoning lines. *)
Definition remove_think (text : string) : string :=
  let out := fold_left (fun out pat => Re.sub true pat "" out) patterns text in
  Re.sub true reasoning_line "" out.

(** The tidying up: [re.sub(r"\n{3,}", "\n\n", out).strip()]. *)
Definition collapse_blank_lines (out : string) : string :=
  Py.strip (Re.sub false blank_lines (String Py.newline (String Py.newline "")) out).

Definition _strip_think_blocks (text : string) : string :=
  collapse_blank_lines (remove_think text).

(** ** [call_cloud_api] *)

(** What is handed to [urllib]: the URL, the pieces the headers are built
    from, the time-out and the body. *)
Record request : Type := {
  req_url : string;
  req_api_key : string;
  req_auth_header : string;
  req_auth_scheme : string;
  req_extra_headers_json : string;
  req_timeout : Z;
  req_payload : json
}.

(** Lines 110-115: the comma-separated paths, or the legacy single setting. *)
Definition response_paths (env : environ) : result error string :=
  paths_text <- getenv env "REPORT_API_RESPONSE_PATHS" (Some "") false ;;
  let response_paths_csv := Py.strip paths_text in
  legacy_text <- getenv env "REPORT_API_RESPONSE_PATH" (Some "choices.0.message.content") false ;;
  let legacy_response_path := Py.strip legacy_text in
  Ok (if negb (Py.nonempty response_paths_csv) then legacy_response_path
      else response_paths_csv).

(** Lines 123-128: [getenv("REPORT_STRIP_THINK", "true").lower() in (...)]. *)
Definition strip_think_flag (env : environ) : result error bool :=
  strip_text <- getenv env "REPORT_STRIP_THINK" (Some "true") false ;;
  Ok (Py.mem (Py.lower strip_text) ["1"; "true"; "yes"; "on"]).

(** Lines 271-279: extract, normalise, strip, refuse an empty text. *)
Definition finish (strip_think : bool) (response : json) (response_paths_csv : string)
    : result error string :=
  value <- _extract_first_available response response_paths_csv ;;
  let text := _normalize_to_text strip_think value in
  let text := if strip_think then _strip_think_blocks text else text in
  if negb (Py.nonempty text) then Err EmptyContent else Ok text.

Section CloudApi.

(** [json.loads] on the request template; [None] stands for
    [json.JSONDecodeError]. *)
Variable json_loads : string -> option json.

(** The exchange with the remote end (lines 235-269): the headers are built,
    the request is posted and the body of the answer is decoded.  It yields
    the decoded document, or the [RuntimeError] raised on the way. *)
Variable exchange : request -> result error json.

(** Lines 220-233: the custom template when one is set, the default body
    otherwise. *)
Definition build_payload (request_template_json api_model system_prompt user_prompt : string)
    : result error json :=
  let mapping :=
    [("model", api_model); ("system_prompt", system_prompt); ("user_prompt", user_prompt)] in
  if Py.nonempty (Py.strip request_template_json)
  then template <- of_option (json_loads request_template_json) InvalidTemplate ;;
       Ok (replace_placeholders template mapping)
  else Ok (build_default_payload api_model system_prompt user_prompt).

(** Lines 102-233: the settings are read and the request is made ready.  The
    result is the request, the [strip_think] flag and the response paths. *)
Definition prepare (env : environ) (user_prompt system_prompt : string)
    : result error (request * bool * string) :=
  api_url <- getenv env "REPORT_API_URL" None true ;;
  api_key <- getenv env "REPORT_API_KEY" (Some "") false ;;
  api_model <- getenv env "REPORT_API_MODEL" (Some "") false ;;
  timeout_text <- getenv env "REPORT_API_TIMEOUT" (Some "120") false ;;
  timeout <- of_option (Py.int timeout_text) (Uncaught (ValueError timeout_text)) ;;
  response_paths_csv <- response_paths env ;;
  auth_header <- getenv env "REPORT_API_AUTH_HEADER" (Some "Authorization") false ;;
  auth_scheme <- getenv env "REPORT_API_AUTH_SCHEME" (Some "Bearer") false ;;
  extra_headers_json <- getenv env "REPORT_API_EXTRA_HEADERS_JSON" (Some "") false ;;
  request_template_json <- getenv env "REPORT_API_REQUEST_TEMPLATE_JSON" (Some "") false ;;
  strip_think <- strip_think_flag env ;;
  payload <- build_payload request_template_json api_model system_prompt user_prompt ;;
  Ok ({| req_url := api_url;
         req_api_key := api_key;
         req_auth_header := auth_header;
         req_auth_scheme := auth_scheme;
         req_extra_headers_json := extra_headers_json;
         req_timeout := timeout;
         req_payload := payload |}, strip_think, response_paths_csv).

Definition call_cloud_api (env : environ) (user_prompt system_prompt : string)
    : result error string :=
  prepared <- prepare env user_prompt system_prompt ;;
  let '(req, strip_think, response_paths_csv) := prepared in
  response <- exchange req ;;
  finish strip_think response response_paths_csv.

End CloudApi.

(** ** [ensure_minimum_sections] *)

Definition required : list string :=
  [ "## What I Did Today";
    "## Problems / Blockers";
    "## Root Cause";
    "## Attempts & Fixes";
    "## Key Learnings";
    "## Metrics";
    "## Next Steps (Tomorrow)" ].

Definition skeleton_head : string := "# Daily Report - ".

Definition skeleton_body : string := "

## What I Did Today
- N/A

## Problems / Blockers
- N/A

## Root Cause
- N/A

## Attempts & Fixes
- N/A

## Key Learnings
- N/A

## Metrics
- N/A

## Next Steps (Tomorrow)
- [ ] N/A

---

### Raw Model Output
".

Definition ensure_minimum_sections (text date_str : string) : string :=
  if forallb (fun sec => Py.contains sec text) required then text
  else skeleton_head ++ date_str ++ skeleton_body ++ text ++ String Py.newline "".

(** ** [replace_placeholders] on the object store *)

(** Whether rendering leaves its input alone is a question about objects,
    not values.  Here a list or a dict is an object in a store and is known
    by its address; strings and the other scalars are immutable values. *)
Module Heap.

Definition loc : Type := nat.

Inductive value : Type :=
| VNull
| VBool (b : bool)
| VInt (z : Z)
| VFloat (repr : string)
| VStr (s : string)
| VRef (l : loc).

Inductive object : Type :=
| OList (items : list value)
| ODict (fields : list (string * value)).

(** The object at address [l] is the [l]-th of the store; a new object is
    put at the end. *)
Definition heap : Type := list object.

Definition alloc (h : heap) (o : object) : heap * value :=
  ((h ++ [o])%list, VRef (List.length h)).

(** The comprehensions: the elements are rendered from left to right, each
    in the store the previous ones left. *)
Fixpoint each_item (render : heap -> value -> option (heap * value))
    (h : heap) (items : list value) : option (heap * list value) :=
  match items with
  | [] => Some (h, [])
  | x :: rest =>
      match render h x with
      | Some (h1, x') =>
          match each_item render h1 rest with
          | Some (h2, rest') => Some (h2, x' :: rest')
          | None => None
          end
      | None => None
      end
  end.

Fixpoint each_field (render : heap -> value -> option (heap * value))
    (h : heap) (fields : list (string * value)) : option (heap * list (string * value)) :=
  match fields with
  | [] => Some (h, [])
  | (k, x) :: rest =>
      match render h x with
      | Some (h1, x') =>
          match each_field render h1 rest with
          | Some (h2, rest') => Some (h2, (k, x') :: rest')
          | None => None
          end
      | None => None
      end
  end.

(** [replace_placeholders(obj, mapping)] on the store.  The only thing it
    does to the store is to allocate the new list or dict.  [fuel] bounds
    the depth of the calls; [None] stands for running out of it (or for an
    address with no object). *)
Fixpoint replace_placeholders (fuel : nat) (mapping : list (string * string))
    (h : heap) (obj : value) : option (heap * value) :=
  match fuel with
  | O => None
  | S fuel' =>
      match obj with
      | VStr s => Some (h, VStr (replace_all mapping s))
      | VRef l =>
          match nth_error h l with
          | Some (OList items) =>
              match each_item (replace_placeholders fuel' mapping) h items with
              | Some (h1, items') => Some (alloc h1 (OList items'))
              | None => None
              end
          | Some (ODict fields) =>
              match each_field (replace_placeholders fuel' mapping) h fields with
              | Some (h1, fields') => Some (alloc h1 (ODict fields'))
              | None => None
              end
          | None => None
          end
      | other => Some (h, other)
      end
  end.

(** Two lists related element by element. *)
Fixpoint all2 {A B : Type} (R : A -> B -> Prop) (vs : list A) (js : list B) {struct js} : Prop :=
  match js, vs with
  | [], [] => True
  | j :: js', v :: vs' => R v j /\ all2 R vs' js'
  | _, _ => False
  end.

(** [denotes h v j]: in the store [h] the value [v] is the JSON tree [j]. *)
Fixpoint denotes (h : heap) (v : value) (j : json) {struct j} : Prop :=
  match j with
  | JNull => v = VNull
  | JBool b => v = VBool b
  | JInt z => v = VInt z
  | JFloat r => v = VFloat r
  | JStr s => v = VStr s
  | JList js =>
      exists l items,
        v = VRef l /\ nth_error h l = Some (OList items) /\
        all2 (fun v' j' => denotes h v' j') items js
  | JDict jfs =>
      exists l fields,
        v = VRef l /\ nth_error h l = Some (ODict fields) /\
        all2 (fun f jf => fst f = fst jf /\ denotes h (snd f) (snd jf)) fields jfs
  end.

(** The depth of a tree: the number of nested calls rendering it takes. *)
Fixpoint depth (j : json) : nat :=
  match j with
  | JList js =>
      S ((fix deepest (l : list json) : nat :=
            match l with
            | [] => 0
            | x :: l' => Nat.max (depth x) (deepest l')
            end) js)
  | JDict jfs =>
      S ((fix deepest (l : list (string * json)) : nat :=
            match l with
            | [] => 0
            | (_, x) :: l' => Nat.max (depth x) (deepest l')
            end) jfs)
  | _ => 1
  end.

End Heap.

(** * The rest of [generate_report.py] *)

(** ** [slugify] *)

(** The characters the first pattern of [slugify] leaves alone:
    [a-z0-9\-_] (its range of CJK ideographs lies above the code points of a
    [string]). *)
Definition slug_char (c : ascii) : bool :=
  let n := Py.ord c in
  (((97 <=? n) && (n <=? 122)) || ((48 <=? n) && (n <=? 57)) || (n =? 45) || (n =? 95))%N.

Definition is_dash (c : ascii) : bool := Ascii.eqb c "-".

(** [[^a-z0-9\-_\u4e00-\u9fff]+] *)
Definition not_slug_run : Re.regex := Re.AtLeast 1 (fun c => negb (slug_char c)).

(** [-{2,}] *)
Definition dash_run : Re.regex := Re.AtLeast 2 is_dash.

Definition slugify (s : string) : string :=
  let s := Py.strip (Py.lower s) in
  let s := Re.sub false not_slug_run "-" s in
  let s := Py.strip_chars "-" (Re.sub false dash_run "-" s) in
  if Py.nonempty s then s else "note".

(** ** The request headers *)

(** [headers[k] = v] on a dict of strings: the value of an existing key is
    replaced in place, a new key is put at the end. *)
Fixpoint dict_set (d : list (string * string)) (k v : string) : list (string * string) :=
  match d with
  | [] => [(k, v)]
  | (k', v') :: d' => if String.eqb k' k then (k', v) :: d' else (k', v') :: dict_set d' k v
  end.

Fixpoint headers_get (d : list (string * string)) (k : string) : option string :=
  match d with
  | [] => None
  | (k', v) :: d' => if String.eqb k' k then Some v else headers_get d' k
  end.

(** Lines 235-238 of [call_cloud_api]: the content type, and the authorisation
    header when a key is set. *)
Definition request_headers (api_key auth_header auth_scheme : string)
    : list (string * string) :=
  let headers := [("Content-Type", "application/json")] in
  if Py.nonempty api_key then
    let token_val :=
      if Py.nonempty auth_scheme then Py.strip (auth_scheme ++ " " ++ api_key)
      else api_key in
    dict_set headers auth_header token_val
  else headers.

(** ** [build_user_prompt] *)

Definition DEFAULT_SYSTEM_PROMPT : string :=
  "You are a rigorous technical writing assistant.
Turn rough notes into ONE structured daily report in Markdown.

Output requirements:
1) Use this exact section order:
   - ## What I Did Today
   - ## Problems / Blockers
   - ## Root Cause
   - ## Attempts & Fixes
   - ## Key Learnings
   - ## Metrics
   - ## Next Steps (Tomorrow)
2) Keep it concise and factual.
3) If information is missing, write " ++ String Py.dquote "N/A" ++ String Py.dquote " for that bullet.
4) Keep language in the same language as input notes when possible.
5) Return only final answer. Do not include reasoning or thinking process.
".

Definition build_user_prompt (raw_notes source_type source_id date_str : string) : string :=
  "Date: " ++ date_str ++ "
Source: " ++ source_type ++ ":" ++ source_id ++ "

Raw notes:
" ++ raw_notes ++ "

Please generate a structured daily report in Markdown.
Add a title line at top: '# Daily Report - " ++ date_str ++ "'.
Use the required section order exactly.
Use bullet lists in each section.
".

(** ** [main] *)

(** The parsed command line, once [argparse] has accepted it.  A path is the
    text [pathlib] prints for it. *)
Record args : Type := {
  arg_input : string;
  arg_output : string;
  arg_date : string;
  arg_source_type : string;
  arg_source_id : string
}.

(** An exception of the file system or of the decoding of a file, by the
    name of its class: [IsADirectoryError], [PermissionError],
    [UnicodeDecodeError], ... *)
Inductive os_error : Type :=
| OsError (class_name : string).

(** The four calls [main] makes on the file system, for a type [world] of
    its states.  None of them is guarded in [main], so each can raise; the
    two that write also give the state they leave behind when they raise
    (directories made so far, a file cut short). *)
Record Os (world : Type) : Type := {
  (* [pathlib.Path(p).exists()] *)
  path_exists : world -> string -> result os_error bool;
  (* [pathlib.Path(p).read_text(encoding="utf-8")] *)
  read_text : world -> string -> result os_error string;
  (* [pathlib.Path(p).parent.mkdir(parents=True, exist_ok=True)] *)
  mkdir_parent : world -> string -> world * option os_error;
  (* [pathlib.Path(p).write_text(text, encoding="utf-8")] *)
  write_text : world -> string -> string -> world * option os_error
}.

Arguments path_exists {world} _ _ _.
Arguments read_text {world} _ _ _.
Arguments mkdir_parent {world} _ _ _.
Arguments write_text {world} _ _ _ _.

(** What can pass through [main]: an exception of [call_cloud_api] or one
    of the file system. *)
Inductive failure : Type :=
| ApiFailure (e : error)
| OsFailure (e : os_error).

(** How [main] ends, and the state of the file system it leaves: it returns
    an exit code, having printed one line (on [sys.stderr] for the code 2),
    or an exception passes through it.  The two calls of [print] are taken
    to succeed. *)
Inductive ended (world : Type) : Type :=
| Returned (code : Z) (w : world) (printed : string)
| Raised (e : failure) (w : world).

Arguments Returned {world} code w printed.
Arguments Raised {world} e w.

(** [text + ("\n" if not text.endswith("\n") else "")] *)
Definition with_final_newline (text : string) : string :=
  text ++ (if negb (Py.endswith (String Py.newline "") text) then String Py.newline "" else "").

Section Main.

Variable world : Type.
Variable os : Os world.
Variable json_loads : string -> option json.
Variable exchange : request -> result error json.

Definition main (env : environ) (w : world) (a : args) : ended world :=
  match path_exists os w (arg_input a) with
  | Err e => Raised (OsFailure e) w
  | Ok false => Returned 2 w ("Input not found: " ++ arg_input a)
  | Ok true =>
      match read_text os w (arg_input a) with
      | Err e => Raised (OsFailure e) w
      | Ok raw_notes =>
          match getenv env "REPORT_SYSTEM_PROMPT" (Some DEFAULT_SYSTEM_PROMPT) false with
          | Err e => Raised (ApiFailure e) w
          | Ok system_prompt =>
              let user_prompt :=
                build_user_prompt raw_notes (arg_source_type a) (arg_source_id a)
                  (arg_date a) in
              match call_cloud_api json_loads exchange env user_prompt system_prompt with
              | Err e => Raised (ApiFailure e) w
              | Ok text =>
                  let text := ensure_minimum_sections text (arg_date a) in
                  match mkdir_parent os w (arg_output a) with
                  | (w1, Some e) => Raised (OsFailure e) w1
                  | (w1, None) =>
                      match write_text os w1 (arg_output a) (with_final_newline text) with
                      | (w2, Some e) => Raised (OsFailure e) w2
                      | (w2, None) => Returned 0 w2 ("Wrote report: " ++ arg_output a)
                      end
                  end
              end
          end
      end
  end.

End Main.

Arguments main {world} os json_loads exchange env w a.

(** * Notions used in the statements *)

(** ** Settings and candidate paths *)

(** A setting read from the environment, as the specification words it: an
    empty or blank value counts as unset. *)
Definition setting (env : environ) (name default : string) : string :=
  match env name with
  | Some v => if String.eqb (Py.strip v) "" then default else v
  | None => default
  end.

(** The legacy single setting and the text the candidate paths are read from. *)
Definition legacy_path (env : environ) : string :=
  Py.strip (setting env "REPORT_API_RESPONSE_PATH" "choices.0.message.content").

Definition selected_paths_csv (env : environ) : string :=
  let paths := Py.strip (setting env "REPORT_API_RESPONSE_PATHS" "") in
  if String.eqb paths "" then legacy_path env else paths.

(** The candidate list as the claim words it: the legacy setting taken as a
    single path. *)
Definition candidate_paths_claimed (env : environ) : list string :=
  let paths := Py.strip (setting env "REPORT_API_RESPONSE_PATHS" "") in
  let configured :=
    if String.eqb paths "" then [legacy_path env] else configured_paths paths in
  (configured ++ filter (fun p => negb (Py.mem p configured)) fallback_paths)%list.

(** The first candidate that resolves, in the specification's words. *)
Fixpoint first_resolved (data : json) (paths : list string) : option json :=
  match paths with
  | [] => None
  | p :: rest =>
      match extract_by_path data p with
      | Ok v => Some v
      | Err _ => first_resolved data rest
      end
  end.

(** The text handed back for an extracted value: normalised, and stripped
    when stripping is on. *)
Definition final_text (strip_think : bool) (value : json) : string :=
  let text := _normalize_to_text strip_think value in
  if strip_think then _strip_think_blocks text else text.

(** ** The default payload *)

(** The default chat-completion body as the specification words it: the
    [model] entry only when a model is configured. *)
Definition default_body (model system_prompt user_prompt : string) : list (string * json) :=
  ((if String.eqb model "" then [] else [("model", JStr model)]) ++
   [ ("messages",
       JList [ JDict [("role", JStr "system"); ("content", JStr system_prompt)];
               JDict [("role", JStr "user"); ("content", JStr user_prompt)] ]);
     ("temperature", JFloat "0.2");
     ("top_p", JFloat "0.9");
     ("stream", JBool false) ])%list.

(** ** Content blocks and mappings *)

(** A field that is present and neither null nor the empty string. *)
Definition usable (fields : list (string * json)) (k : string) : bool :=
  match dict_get fields k with
  | Some v => not_none_or_empty v
  | None => false
  end.

Definition reasoning_types : list string := ["reasoning"; "thought"; "thinking"].

(** The lower-cased [type] of a block. *)
Definition block_type (d : list (string * json)) : string :=
  Py.lower (py_str (dict_get_or_empty d "type")).

(** The chunk a content block contributes, as the claim words it: a
    reasoning block is skipped when stripping is on; any other mapping gives
    its [text], else its [content]; anything else is stringified. *)
Definition block_chunk_claimed (strip_think : bool) (item : json) : list string :=
  match item with
  | JDict d =>
      if strip_think && Py.mem (block_type d) reasoning_types then []
      else match dict_get d "text" with
           | Some t => [py_str t]
           | None =>
               match dict_get d "content" with
               | Some c => [py_str c]
               | None => []
               end
           end
  | _ => [py_str item]
  end.

(** The chunk a content block contributes, with the rule for a block of
    type [text] stated apart: it gives its [text] only, and only when that
    is truthy. *)
Definition block_chunk (strip_think : bool) (item : json) : list string :=
  match item with
  | JDict d =>
      if strip_think && Py.mem (block_type d) reasoning_types then []
      else if String.eqb (block_type d) "text" then
        if truthy (dict_get_or_empty d "text") then [py_str (dict_get_or_empty d "text")] else []
      else match dict_get d "text" with
           | Some t => [py_str t]
           | None =>
               match dict_get d "content" with
               | Some c => [py_str c]
               | None => []
               end
           end
  | _ => [py_str item]
  end.

Definition join_chunks (chunks : list string) : string :=
  Py.strip (Py.join (String Py.newline "") (filter Py.nonempty chunks)).

(** ** Templates *)

(** The substitution the claim words: one scan of the template, in which
    every placeholder of a binding is replaced by the value of that binding. *)
Fixpoint placeholder_here (mapping : list (string * string)) (s : string)
    : option (string * nat) :=
  match mapping with
  | [] => None
  | (k, v) :: rest =>
      if Py.startswith ("{{" ++ k ++ "}}") s then Some (v, String.length k + 4)
      else placeholder_here rest s
  end.

Fixpoint substitute_claimed (mapping : list (string * string)) (skip : nat) (s : string)
    : string :=
  match s with
  | "" => ""
  | String c s' =>
      match skip with
      | S n => substitute_claimed mapping n s'
      | O =>
          match placeholder_here mapping s with
          | Some (v, len) => v ++ substitute_claimed mapping (len - 1) s'
          | None => String c (substitute_claimed mapping 0 s')
          end
      end
  end.

Section JsonInduction.

Variable P : json -> Prop.
Hypothesis P_null : P JNull.
Hypothesis P_bool : forall b, P (JBool b).
Hypothesis P_int : forall z, P (JInt z).
Hypothesis P_float : forall r, P (JFloat r).
Hypothesis P_str : forall s, P (JStr s).
Hypothesis P_list : forall items, Forall P items -> P (JList items).
Hypothesis P_dict : forall fields, Forall (fun kv => P (snd kv)) fields -> P (JDict fields).

Fixpoint json_tree_ind (j : json) : P j :=
  match j with
  | JNull => P_null
  | JBool b => P_bool b
  | JInt z => P_int z
  | JFloat r => P_float r
  | JStr s => P_str s
  | JList items =>
      P_list items
        ((fix all (l : list json) : Forall P l :=
            match l with
            | [] => Forall_nil P
            | x :: l' => Forall_cons x (json_tree_ind x) (all l')
            end) items)
  | JDict fields =>
      P_dict fields
        ((fix all (l : list (string * json)) : Forall (fun kv => P (snd kv)) l :=
            match l with
            | [] => Forall_nil _
            | kv :: l' => Forall_cons kv (json_tree_ind (snd kv)) (all l')
            end) fields)
  end.

End JsonInduction.

Definition field_denotes (h : Heap.heap) (f : string * Heap.value) (jf : string * json) : Prop :=
  fst f = fst jf /\ Heap.denotes h (snd f) (snd jf).

(** What it takes of a renderer [r] to render the tree [j] as [f j]: it
    succeeds, it only allocates, and its result stands for [f j]. *)
Definition renders (r : Heap.heap -> Heap.value -> option (Heap.heap * Heap.value))
    (f : json -> json) (j : json) : Prop :=
  forall h v, Heap.denotes h v j ->
    exists new v', r h v = Some ((h ++ new)%list, v') /\ Heap.denotes (h ++ new)%list v' (f j).

(** The template of the specification's example in a store: the list at
    address 0, the dict at address 1. *)
Definition example_store : Heap.heap :=
  [ Heap.OList [Heap.VStr "{{y}}"; Heap.VInt 1];
    Heap.ODict [("a", Heap.VStr "{{x}}"); ("b", Heap.VRef 0)] ].

Definition example_template : json :=
  JDict [("a", JStr "{{x}}"); ("b", JList [JStr "{{y}}"; JInt 1])].

(** ** Blank lines and matches *)

(** The number of newlines a text starts with, and the text after them. *)
Fixpoint lead_nl (s : string) : nat :=
  match s with
  | "" => 0
  | String c s' => if Re.is_newline c then S (lead_nl s') else 0
  end.

Fixpoint skip_nl (s : string) : string :=
  match s with
  | "" => ""
  | String c s' => if Re.is_newline c then skip_nl s' else s
  end.

(** No run of three newlines anywhere in the text. *)
Fixpoint no_blank_run (s : string) : bool :=
  match s with
  | "" => true
  | String _ s' => (lead_nl s <? 3)%nat && no_blank_run s'
  end.

Fixpoint drop (n : nat) (s : string) : string :=
  match n, s with
  | S n', String _ s' => drop n' s'
  | _, _ => s
  end.

Definition two_newlines : string := String Py.newline (String Py.newline "").

(** A function on texts that leaves a text as it is or makes it shorter. *)
Definition shrinking (f : string -> string) : Prop :=
  forall s, f s = s \/ String.length (f s) < String.length s.

(** A pattern that cannot match without passing over a character. *)
Fixpoint consumes (r : Re.regex) : bool :=
  match r with
  | Re.Chr _ | Re.Class _ => true
  | Re.AtLeast n _ => negb (n =? 0)%nat
  | Re.LazyStar _ | Re.Bol | Re.Eol => false
  | Re.Seq r1 r2 => consumes r1 || consumes r2
  | Re.Alt r1 r2 => consumes r1 && consumes r2
  end.

(** [reaches k s n out]: the continuation [k] answers [out] on the text left
    when [n] characters of [s] have been passed over. *)
Definition reaches (k : Re.cont) (s : string) (n : nat) (out : string) : Prop :=
  exists prev' s', k prev' s' = Some out /\ String.length s' + n = String.length s.

(** ** Sections *)

Definition has_all_sections (text : string) : bool :=
  forallb (fun sec => Py.contains sec text) required.

(** ** Test doubles *)

(** The environment given by a list of bindings. *)
Fixpoint env_of (bindings : list (string * string)) : environ :=
  fun name =>
    match bindings with
    | [] => None
    | (k, v) :: rest => if String.eqb k name then Some v else env_of rest name
    end.

(** The two settings of the repository's tests, with [json.loads] and the
    exchange replaced by mocks. *)
Definition test_template : json :=
  JDict [("model", JStr "{{model}}"); ("input", JStr "{{user_prompt}}");
         ("system", JStr "{{system_prompt}}")].

Definition custom_env : environ :=
  env_of [ ("REPORT_API_URL", "https://api.example.com/generate");
           ("REPORT_API_KEY", "k");
           ("REPORT_API_AUTH_SCHEME", "");
           ("REPORT_API_RESPONSE_PATH", "data.text");
           ("REPORT_API_REQUEST_TEMPLATE_JSON", json_dumps test_template);
           ("REPORT_API_MODEL", "m1") ].

Definition openai_env : environ :=
  env_of [ ("REPORT_API_URL", "https://api.example.com/v1/chat/completions");
           ("REPORT_API_KEY", "k");
           ("REPORT_API_MODEL", "demo");
           ("REPORT_API_RESPONSE_PATH", "choices.0.message.content") ].

Definition mock_loads (text : string) : option json :=
  if String.eqb text (json_dumps test_template) then Some test_template else None.

Definition mock_exchange (response : json) : request -> result error json :=
  fun _ => Ok response.

Definition custom_request : request :=
  {| req_url := "https://api.example.com/generate";
     req_api_key := "k";
     req_auth_header := "Authorization";
     req_auth_scheme := "Bearer";
     req_extra_headers_json := "";
     req_timeout := 120;
     req_payload :=
       JDict [("model", JStr "m1"); ("input", JStr "hello"); ("system", JStr "world")] |}.

(** ** Notions for the further properties *)

(** A template no string of which holds the opening of a placeholder. *)
Fixpoint no_placeholder (obj : json) : bool :=
  match obj with
  | JStr s => negb (Py.contains "{{" s)
  | JList items =>
      (fix all (l : list json) : bool :=
         match l with
         | [] => true
         | x :: l' => no_placeholder x && all l'
         end) items
  | JDict fields =>
      (fix all (l : list (string * json)) : bool :=
         match l with
         | [] => true
         | (_, v) :: l' => no_placeholder v && all l'
         end) fields
  | _ => true
  end.

(** The shape of a tree: the tree with every string emptied. *)
Fixpoint shape (obj : json) : json :=
  match obj with
  | JStr _ => JStr ""
  | JList items =>
      JList ((fix each (l : list json) : list json :=
                match l with
                | [] => []
                | x :: l' => shape x :: each l'
                end) items)
  | JDict fields =>
      JDict ((fix each (l : list (string * json)) : list (string * json) :=
                match l with
                | [] => []
                | (k, v) :: l' => (k, shape v) :: each l'
                end) fields)
  | other => other
  end.

(** Every character of a text passes a test. *)
Fixpoint all_chars (q : ascii -> bool) (s : string) : bool :=
  match s with
  | "" => true
  | String c s' => q c && all_chars q s'
  end.

(** A pattern every match of which passes over the character [c]. *)
Fixpoint needs (c : ascii) (r : Re.regex) : bool :=
  match r with
  | Re.Chr a => Ascii.eqb a c
  | Re.Seq r1 r2 => needs c r1 || needs c r2
  | Re.Alt r1 r2 => needs c r1 && needs c r2
  | _ => false
  end.

(** A character that [re.IGNORECASE] identifies with no other one. *)
Definition uncased (c : ascii) : Prop :=
  forall x, Py.chr_lower x = Py.chr_lower c -> x = c.

(** A continuation that fails on every text without the character [c]. *)
Definition dead_without (c : ascii) (k : Re.cont) : Prop :=
  forall prev s, has_char c s = false -> k prev s = None.

(** The length of the run of characters of a class a text starts with, the
    text after that run, and the texts without a run of [n] such characters. *)
Fixpoint lead (p : ascii -> bool) (s : string) : nat :=
  match s with
  | "" => 0
  | String c s' => if p c then S (lead p s') else 0
  end.

Fixpoint skip_run (p : ascii -> bool) (s : string) : string :=
  match s with
  | "" => ""
  | String c s' => if p c then skip_run p s' else s
  end.

Fixpoint no_run (p : ascii -> bool) (n : nat) (s : string) : bool :=
  match s with
  | "" => true
  | String _ s' => (lead p s <? n)%nat && no_run p n s'
  end.

(** A slug: a non-empty text of the characters [a-z0-9_-] without two
    dashes in a row and without a dash at either end. *)
Definition is_slug (r : string) : bool :=
  Py.nonempty r && all_chars slug_char r && no_run is_dash 2 r &&
  negb (Py.startswith "-" r) && negb (Py.endswith "-" r).

(** The flag and the request as the settings fix them, given the URL, the
    time-out and the body. *)
Definition strip_think_setting (env : environ) : bool :=
  Py.mem (Py.lower (setting env "REPORT_STRIP_THINK" "true")) ["1"; "true"; "yes"; "on"].

Definition request_of (env : environ) (api_url : string) (timeout : Z) (payload : json)
    : request :=
  {| req_url := api_url;
     req_api_key := setting env "REPORT_API_KEY" "";
     req_auth_header := setting env "REPORT_API_AUTH_HEADER" "Authorization";
     req_auth_scheme := setting env "REPORT_API_AUTH_SCHEME" "Bearer";
     req_extra_headers_json := setting env "REPORT_API_EXTRA_HEADERS_JSON" "";
     req_timeout := timeout;
     req_payload := payload |}.

(** A file system for the runs of [main] against the mocks: a table of
    paths, each a file with its text or a directory.  Making the parent
    directory changes nothing in it. *)
Inductive node : Type :=
| File (text : string)
| Dir.

Definition files : Type := string -> option node.

Definition put (fs : files) (path : string) (n : node) : files :=
  fun p => if String.eqb p path then Some n else fs p.

Definition files_os : Os files :=
  {| path_exists := fun fs p => Ok (match fs p with Some _ => true | None => false end);
     read_text := fun fs p =>
       match fs p with
       | Some (File text) => Ok text
       | Some Dir => Err (OsError "IsADirectoryError")
       | None => Err (OsError "FileNotFoundError")
       end;
     mkdir_parent := fun fs _ => (fs, None);
     write_text := fun fs p text =>
       match fs p with
       | Some Dir => (fs, Some (OsError "IsADirectoryError"))
       | _ => (put fs p (File text), None)
       end |}.

(** The files and the command line of a run of [main] against the mocks. *)
Definition example_files : files :=
  put (put (fun _ => None) "notes/today.txt" (File "fixed the parser")) "notes" Dir.

Definition example_args : args :=
  {| arg_input := "notes/today.txt";
     arg_output := "reports/2026-02-17.md";
     arg_date := "2026-02-17";
     arg_source_type := "manual";
     arg_source_id := "local" |}.

Definition example_response : json :=
  JDict [("choices", JList [JDict [("message", JDict [("content", JStr "- parser fixed")])]])].

(** The report [main] writes for an answer: the answer with its sections,
    ended by a newline. *)
Definition report_of (text date_str : string) : string :=
  with_final_newline (ensure_minimum_sections text date_str).


(** A successful write can be read back. *)
Definition reads_back {world : Type} (os : Os world) : Prop :=
  forall w p text w', write_text os w p text = (w', None) -> read_text os w' p = Ok text.

(** * Properties *)

(** ** Sanity checks of the Python primitives *)

Example int_samples :
  Py.int "0" = Some 0%Z /\ Py.int " 12 " = Some 12%Z /\ Py.int "-1" = Some (-1)%Z /\
  Py.int "+1_0" = Some 10%Z /\ Py.int "007" = Some 7%Z /\ Py.int "1__0" = None /\
  Py.int "_1" = None /\ Py.int "1_" = None /\ Py.int "" = None /\ Py.int "-" = None /\
  Py.int "- 1" = None /\ Py.int "1 2" = None /\ Py.int "x" = None.
Proof. repeat split. Qed.

Example split_samples :
  Py.split "," "" = [""] /\ Py.split "," "a" = ["a"] /\
  Py.split "," ",a,,b," = [""; "a"; ""; "b"; ""].
Proof. repeat split. Qed.

Example replace_samples :
  Py.replace "aa" "b" "aaaaa" = "bba" /\ Py.replace "{{x}}" "1" "a{{x}}b{{x}}" = "a1b1" /\
  Py.replace "ab" "" "aabb" = "ab".
Proof. repeat split. Qed.

Example strip_samples :
  Py.strip "  a b  " = "a b" /\ Py.strip "   " = "" /\ Py.strip "" = "".
Proof. repeat split. Qed.
(** ** Strings *)

Lemma startswith_app (p s t : string) :
  Py.startswith p s = true -> Py.startswith p (s ++ t) = true.
Proof.
  revert s; induction p as [|a p IH]; intros s H; [reflexivity|].
  destruct s as [|b s]; simpl in *; [discriminate|].
  apply andb_true_iff in H as [Hab Hps].
  now rewrite Hab, (IH _ Hps).
Qed.

Lemma contains_cons (p : string) (c : ascii) (s : string) :
  Py.contains p (String c s) = Py.startswith p (String c s) || Py.contains p s.
Proof. reflexivity. Qed.

Lemma contains_app_l (p s t : string) :
  Py.contains p s = true -> Py.contains p (s ++ t) = true.
Proof.
  induction s as [|c s IH]; intros H.
  - destruct p; simpl in H; [|discriminate].
    destruct t; reflexivity.
  - rewrite contains_cons in H.
    change (String c s ++ t) with (String c (s ++ t)).
    rewrite contains_cons.
    apply orb_true_iff in H as [H|H]; apply orb_true_iff.
    + left. exact (startswith_app _ (String c s) t H).
    + right. exact (IH H).
Qed.

Lemma contains_app_r (p s t : string) :
  Py.contains p s = true -> Py.contains p (t ++ s) = true.
Proof.
  intros H; induction t as [|c t IH]; [exact H|].
  change (String c t ++ s) with (String c (t ++ s)).
  rewrite contains_cons, IH. apply orb_true_r.
Qed.

(** ** [ensure_minimum_sections] *)

Lemma skeleton_has_all_sections (text date_str : string) :
  has_all_sections
    (skeleton_head ++ date_str ++ skeleton_body ++ text ++ String Py.newline "") = true.
Proof.
  unfold has_all_sections.
  apply forallb_forall; intros sec Hsec.
  apply contains_app_r, contains_app_r, contains_app_l.
  revert sec Hsec. apply forallb_forall. vm_compute. reflexivity.
Qed.

Lemma ensure_minimum_sections_keeps (text date_str : string) :
  has_all_sections text = true -> ensure_minimum_sections text date_str = text.
Proof. unfold ensure_minimum_sections, has_all_sections; now intros ->. Qed.

(** C9. A text that holds all seven required section headers is returned
    unchanged; in every case the result holds all seven headers, and applying
    [ensure_minimum_sections] a second time (with the same date) changes
    nothing. *)
Theorem ensure_minimum_sections_idempotent (text date_str : string) :
  (forallb (fun sec => Py.contains sec text) required = true ->
   ensure_minimum_sections text date_str = text) /\
  forallb (fun sec => Py.contains sec (ensure_minimum_sections text date_str)) required = true /\
  ensure_minimum_sections (ensure_minimum_sections text date_str) date_str =
    ensure_minimum_sections text date_str.
Proof.
  assert (H : has_all_sections (ensure_minimum_sections text date_str) = true).
  { unfold ensure_minimum_sections.
    destruct (forallb _ required) eqn:E; [exact E|].
    apply skeleton_has_all_sections. }
  split; [apply ensure_minimum_sections_keeps|].
  split; [exact H|].
  now apply ensure_minimum_sections_keeps.
Qed.

(** A text that already has the seven sections comes back as it is. *)
Lemma ensure_minimum_sections_witness :
  ensure_minimum_sections skeleton_body "2026-02-17" = skeleton_body.
Proof.
  apply (proj1 (ensure_minimum_sections_idempotent skeleton_body "2026-02-17")).
  reflexivity.
Defined.

Example ensure_minimum_sections_sample :
  Py.contains "## What I Did Today" (ensure_minimum_sections "plain text" "2026-02-17") = true /\
  Py.contains ("### Raw Model Output" ++ String Py.newline "plain text")
    (ensure_minimum_sections "plain text" "2026-02-17") = true /\
  Py.startswith "# Daily Report - 2026-02-17"
    (ensure_minimum_sections "plain text" "2026-02-17") = true.
Proof. repeat split. Qed.

(** ** [build_default_payload] *)

(** C8. With no request template, the payload is the default body: the two
    messages, [temperature] 0.2, [top_p] 0.9, [stream] false, and a [model]
    key exactly when a model is configured; with no model the key is absent,
    it is not bound to null. *)
Theorem build_default_payload_model_key
    (json_loads : string -> option json) (model system_prompt user_prompt : string) :
  build_payload json_loads "" model system_prompt user_prompt =
    Ok (build_default_payload model system_prompt user_prompt) /\
  build_default_payload model system_prompt user_prompt =
    JDict (default_body model system_prompt user_prompt) /\
  dict_has (default_body model system_prompt user_prompt) "model" = Py.nonempty model /\
  dict_get (default_body model system_prompt user_prompt) "model" =
    (if Py.nonempty model then Some (JStr model) else None).
Proof.
  destruct model as [|c model]; repeat split.
Qed.

(** ** The candidate paths *)

Lemma mem_app (x : string) (l1 l2 : list string) :
  Py.mem x (l1 ++ l2) = Py.mem x l1 || Py.mem x l2.
Proof. apply existsb_app. Qed.

Lemma mem_In (x : string) (l : list string) : Py.mem x l = true <-> In x l.
Proof.
  unfold Py.mem. rewrite existsb_exists. split.
  - intros [y [Hy Heq]]. apply String.eqb_eq in Heq. now subst.
  - intros H. exists x. split; [exact H | apply String.eqb_refl].
Qed.

(** The loop that appends the fallbacks is a filter, as long as the
    fallbacks are pairwise distinct. *)
Lemma add_fallbacks_filter (fallbacks : list string) :
  NoDup fallbacks ->
  forall paths,
    add_fallbacks fallbacks paths =
      (paths ++ filter (fun p => negb (Py.mem p paths)) fallbacks)%list.
Proof.
  induction 1 as [|p rest Hp Hnd IH]; intros paths; simpl.
  - now rewrite app_nil_r.
  - destruct (Py.mem p paths) eqn:Hmem; simpl.
    + apply IH.
    + rewrite IH, <- app_assoc. simpl. do 2 f_equal.
      apply filter_ext_in. intros q Hq.
      rewrite mem_app. simpl. rewrite orb_false_r.
      destruct (String.eqb q p) eqn:E; [|now rewrite orb_false_r].
      apply String.eqb_eq in E. subst q. contradiction.
Qed.

Lemma fallback_paths_NoDup : NoDup fallback_paths.
Proof.
  unfold fallback_paths.
  repeat (constructor; [simpl; intuition discriminate|]). constructor.
Qed.

Lemma candidate_paths_eq (paths_csv : string) :
  candidate_paths paths_csv =
    (configured_paths paths_csv ++
     filter (fun p => negb (Py.mem p (configured_paths paths_csv))) fallback_paths)%list.
Proof. apply add_fallbacks_filter, fallback_paths_NoDup. Qed.

Lemma candidate_paths_has_text (paths_csv : string) : In "text" (candidate_paths paths_csv).
Proof.
  rewrite candidate_paths_eq. apply in_or_app.
  destruct (Py.mem "text" (configured_paths paths_csv)) eqn:E.
  - left. now apply mem_In.
  - right. apply filter_In. split; [|now rewrite E].
    unfold fallback_paths. simpl. intuition.
Qed.

Lemma candidate_paths_nonempty (paths_csv : string) : candidate_paths paths_csv <> [].
Proof.
  intros H. pose proof (candidate_paths_has_text paths_csv) as Hin.
  rewrite H in Hin. exact Hin.
Qed.

Lemma try_paths_inl (data : json) (paths : list string) (last_err : option exn) (v : json) :
  try_paths data paths last_err = inl v <-> first_resolved data paths = Some v.
Proof.
  revert last_err; induction paths as [|p rest IH]; intros last_err; simpl.
  - split; discriminate.
  - destruct (extract_by_path data p); [|apply IH].
    split; intros H; inversion H; reflexivity.
Qed.

Lemma try_paths_inr (data : json) (paths : list string) (last_err r : option exn) :
  try_paths data paths last_err = inr r ->
  first_resolved data paths = None /\
  match paths with
  | [] => r = last_err
  | _ => exists e, r = Some e /\ extract_by_path data (List.last paths "") = Err e
  end.
Proof.
  revert last_err; induction paths as [|p rest IH]; intros last_err; simpl.
  - intros H; inversion H; auto.
  - destruct (extract_by_path data p) as [v|e] eqn:Hp; [discriminate|].
    intros H. destruct (IH _ H) as [Hnone Hlast]. split; [exact Hnone|].
    destruct rest as [|q rest']; [|exact Hlast].
    exists e. now subst r.
Qed.

(** C10. The candidate list is never empty, whatever is configured; the
    branch raising [No response paths configured] is never taken; and when
    extraction fails, the failure lists the candidates and carries the
    exception raised for the last of them. *)
Theorem no_response_paths_unreachable (data : json) (paths_csv : string) :
  candidate_paths paths_csv <> [] /\
  _extract_first_available data paths_csv <> Err NoResponsePaths /\
  match _extract_first_available data paths_csv with
  | Ok _ => True
  | Err e =>
      exists last_err,
        e = UnableToExtract (candidate_paths paths_csv) last_err /\
        extract_by_path data (List.last (candidate_paths paths_csv) "") = Err last_err
  end.
Proof.
  pose proof (candidate_paths_nonempty paths_csv) as Hne.
  split; [exact Hne|].
  unfold _extract_first_available.
  destruct (try_paths data (candidate_paths paths_csv) None) as [v|r] eqn:Htry.
  - split; [discriminate | exact I].
  - apply try_paths_inr in Htry as [_ Hlast].
    destruct (candidate_paths paths_csv) as [|p rest] eqn:Hc; [contradiction|].
    destruct Hlast as [e [-> He]].
    split; [discriminate|]. now exists e.
Qed.

(** ** [call_cloud_api] *)

Lemma nonempty_false (s : string) : Py.nonempty s = false <-> s = "".
Proof. destruct s; simpl; split; congruence. Qed.

Lemma extract_first_available_spec (data : json) (paths_csv : string) :
  match first_resolved data (candidate_paths paths_csv) with
  | Some value => _extract_first_available data paths_csv = Ok value
  | None =>
      exists last_err,
        _extract_first_available data paths_csv =
          Err (UnableToExtract (candidate_paths paths_csv) last_err) /\
        extract_by_path data (List.last (candidate_paths paths_csv) "") = Err last_err
  end.
Proof.
  pose proof (candidate_paths_nonempty paths_csv) as Hne.
  unfold _extract_first_available.
  destruct (try_paths data (candidate_paths paths_csv) None) as [v|r] eqn:Htry.
  - apply try_paths_inl in Htry. now rewrite Htry.
  - apply try_paths_inr in Htry as [Hnone Hlast]. rewrite Hnone.
    destruct (candidate_paths paths_csv) as [|p rest]; [contradiction|].
    destruct Hlast as [e [-> He]]. now exists e.
Qed.

Lemma finish_spec (strip_think : bool) (response : json) (paths_csv : string) :
  match first_resolved response (candidate_paths paths_csv) with
  | Some value =>
      finish strip_think response paths_csv =
        if Py.nonempty (final_text strip_think value)
        then Ok (final_text strip_think value) else Err EmptyContent
  | None =>
      exists last_err,
        finish strip_think response paths_csv =
          Err (UnableToExtract (candidate_paths paths_csv) last_err) /\
        extract_by_path response (List.last (candidate_paths paths_csv) "") = Err last_err
  end.
Proof.
  pose proof (extract_first_available_spec response paths_csv) as H.
  unfold finish.
  destruct (first_resolved response (candidate_paths paths_csv)) as [value|].
  - rewrite H. simpl. fold (final_text strip_think value).
    now destruct (Py.nonempty (final_text strip_think value)).
  - destruct H as [last_err [-> Hlast]]. now exists last_err.
Qed.

Lemma finish_nonempty (strip_think : bool) (response : json) (paths_csv : string) :
  finish strip_think response paths_csv <> Ok "".
Proof.
  pose proof (finish_spec strip_think response paths_csv) as H.
  destruct (first_resolved response (candidate_paths paths_csv)) as [value|].
  - rewrite H. destruct (final_text strip_think value); simpl; discriminate.
  - destruct H as [e [-> _]]. discriminate.
Qed.

(** C4. [call_cloud_api] never returns the empty string.  Once the request
    is ready and the exchange has produced a decoded response: if no
    candidate path resolves, the call fails with the extraction error, which
    lists the candidate paths and carries the exception of the last one; if
    one resolves and the final text is empty, it fails with the empty-content
    error; otherwise it returns that non-empty text. *)
Theorem call_cloud_api_never_empty
    (json_loads : string -> option json) (exchange : request -> result error json)
    (env : environ) (user_prompt system_prompt : string) :
  call_cloud_api json_loads exchange env user_prompt system_prompt <> Ok "" /\
  forall req strip_think paths_csv response,
    prepare json_loads env user_prompt system_prompt = Ok (req, strip_think, paths_csv) ->
    exchange req = Ok response ->
    match first_resolved response (candidate_paths paths_csv) with
    | None =>
        exists last_err,
          call_cloud_api json_loads exchange env user_prompt system_prompt =
            Err (UnableToExtract (candidate_paths paths_csv) last_err) /\
          extract_by_path response (List.last (candidate_paths paths_csv) "") = Err last_err
    | Some value =>
        call_cloud_api json_loads exchange env user_prompt system_prompt =
          (if Py.nonempty (final_text strip_think value)
           then Ok (final_text strip_think value) else Err EmptyContent) /\
        (final_text strip_think value = "" ->
         call_cloud_api json_loads exchange env user_prompt system_prompt = Err EmptyContent)
    end.
Proof.
  split.
  - unfold call_cloud_api.
    destruct (prepare json_loads env user_prompt system_prompt) as [[[req st] csv]|e];
      simpl; [|discriminate].
    destruct (exchange req) as [response|e]; simpl; [|discriminate].
    apply finish_nonempty.
  - intros req strip_think paths_csv response Hprep Hex.
    unfold call_cloud_api. rewrite Hprep. simpl. rewrite Hex. simpl.
    pose proof (finish_spec strip_think response paths_csv) as H.
    destruct (first_resolved response (candidate_paths paths_csv)) as [value|]; [|exact H].
    split; [exact H|].
    intros Hempty. rewrite H, Hempty. reflexivity.
Qed.

(** ** [str.strip] *)

Lemma rstrip_cons (c : ascii) (s : string) :
  Py.rstrip (String c s) =
    if negb (Py.nonempty (Py.rstrip s)) && Py.is_space c then ""
    else String c (Py.rstrip s).
Proof. simpl. destruct (Py.rstrip s); simpl; [destruct (Py.is_space c)|]; reflexivity. Qed.

Lemma rstrip_idempotent (s : string) : Py.rstrip (Py.rstrip s) = Py.rstrip s.
Proof.
  induction s as [|c s IH]; [reflexivity|].
  rewrite rstrip_cons.
  destruct (Py.nonempty (Py.rstrip s)) eqn:Hn; destruct (Py.is_space c) eqn:Hc;
    cbn [negb andb]; try reflexivity;
    rewrite rstrip_cons, IH, Hn, ?Hc; reflexivity.
Qed.

Lemma lstrip_idempotent (s : string) : Py.lstrip (Py.lstrip s) = Py.lstrip s.
Proof.
  induction s as [|c s IH]; [reflexivity|]. simpl.
  destruct (Py.is_space c) eqn:Hc; [exact IH|]. simpl. now rewrite Hc.
Qed.

(** Stripping on the left keeps a text free of trailing blanks. *)
Lemma rstrip_lstrip (s : string) :
  Py.rstrip s = s -> Py.rstrip (Py.lstrip s) = Py.lstrip s.
Proof.
  induction s as [|c s IH]; [reflexivity|]. intros H. simpl.
  destruct (Py.is_space c) eqn:Hc; [|exact H].
  apply IH. rewrite rstrip_cons in H. rewrite Hc, andb_true_r in H.
  destruct (Py.nonempty (Py.rstrip s)); simpl in H; [congruence | discriminate].
Qed.

Lemma strip_idempotent (s : string) : Py.strip (Py.strip s) = Py.strip s.
Proof.
  unfold Py.strip.
  rewrite (rstrip_lstrip (Py.rstrip s) (rstrip_idempotent s)).
  apply lstrip_idempotent.
Qed.

Lemma split_no_sep (sep : ascii) (s : string) :
  has_char sep s = false -> Py.split sep s = [s].
Proof.
  induction s as [|c s IH]; [reflexivity|]. simpl. intros H.
  apply orb_false_iff in H as [Hc Hs]. now rewrite (IH Hs), Hc.
Qed.

(** ** The response paths *)

Lemma strip_empty : Py.strip "" = "".
Proof. reflexivity. Qed.

Lemma getenv_optional (env : environ) (name default : string) :
  getenv env name (Some default) false = Ok (setting env name default).
Proof.
  unfold getenv, setting. simpl.
  destruct (env name) as [v|]; [|reflexivity].
  destruct (String.eqb (Py.strip v) "") eqn:E.
  - now rewrite orb_true_r.
  - destruct v; [discriminate E|reflexivity].
Qed.

Lemma response_paths_eq (env : environ) : response_paths env = Ok (selected_paths_csv env).
Proof.
  unfold response_paths, selected_paths_csv, legacy_path.
  rewrite !getenv_optional. simpl.
  destruct (Py.strip (setting env "REPORT_API_RESPONSE_PATHS" "")); reflexivity.
Qed.

Lemma setting_not_blank (env : environ) (name default : string) :
  Py.strip default <> "" -> Py.strip (setting env name default) <> "".
Proof.
  intros Hd. unfold setting.
  destruct (env name) as [v|]; [|exact Hd].
  destruct (String.eqb (Py.strip v) "") eqn:E; [exact Hd|].
  now apply String.eqb_neq.
Qed.

Lemma selected_paths_csv_stripped (env : environ) :
  Py.strip (selected_paths_csv env) = selected_paths_csv env /\ selected_paths_csv env <> "".
Proof.
  unfold selected_paths_csv, legacy_path.
  destruct (String.eqb (Py.strip (setting env "REPORT_API_RESPONSE_PATHS" "")) "") eqn:E.
  - split; [apply strip_idempotent|].
    apply setting_not_blank. discriminate.
  - split; [apply strip_idempotent|]. now apply String.eqb_neq.
Qed.

(** The pieces [str.split] cuts a text into hold no separator, and trimming
    adds none. *)
Lemma split_pieces_no_sep (sep : ascii) (s : string) :
  Forall (fun p => has_char sep p = false) (Py.split sep s).
Proof.
  induction s as [|c s IH]; [repeat constructor|].
  cbn [Py.split]. destruct (Py.split sep s) as [|h t]; [repeat constructor|].
  inversion IH as [|h' t' Hh Ht]; subst.
  destruct (Ascii.eqb c sep) eqn:E.
  - constructor; [reflexivity | now constructor].
  - constructor; [|exact Ht]. cbn [has_char]. now rewrite E.
Qed.

Lemma has_char_lstrip (c : ascii) (s : string) :
  has_char c s = false -> has_char c (Py.lstrip s) = false.
Proof.
  induction s as [|a s IH]; [reflexivity|]. intros H. cbn [Py.lstrip].
  destruct (Py.is_space a); [|exact H].
  apply IH. cbn [has_char] in H. now apply orb_false_iff in H.
Qed.

Lemma has_char_rstrip (c : ascii) (s : string) :
  has_char c s = false -> has_char c (Py.rstrip s) = false.
Proof.
  induction s as [|a s IH]; [reflexivity|]. intros H.
  cbn [has_char] in H. apply orb_false_iff in H as [Ha Hs].
  rewrite rstrip_cons.
  destruct (negb (Py.nonempty (Py.rstrip s)) && Py.is_space a); [reflexivity|].
  cbn [has_char]. now rewrite Ha, (IH Hs).
Qed.

Lemma configured_paths_no_comma (paths_csv : string) :
  Forall (fun p => has_char "," p = false) (configured_paths paths_csv).
Proof.
  unfold configured_paths.
  pose proof (split_pieces_no_sep "," paths_csv) as H.
  induction H as [|p ps Hp _ IH]; [constructor|].
  cbn [map filter]. destruct (Py.nonempty (Py.strip p)); [|exact IH].
  constructor; [|exact IH].
  unfold Py.strip. now apply has_char_lstrip, has_char_rstrip.
Qed.

(** C3, as stated, fails: a legacy setting with a comma in it is split like
    the new setting, so it is not used as a one-element list, and the value
    extracted differs from the one the claimed candidate order gives. *)
Lemma legacy_path_is_comma_split :
  candidate_paths (selected_paths_csv (env_of [("REPORT_API_RESPONSE_PATH", "a,b")])) <>
    candidate_paths_claimed (env_of [("REPORT_API_RESPONSE_PATH", "a,b")]) /\
  _extract_first_available (JDict [("a", JStr "x")])
    (selected_paths_csv (env_of [("REPORT_API_RESPONSE_PATH", "a,b")])) = Ok (JStr "x") /\
  first_resolved (JDict [("a", JStr "x")])
    (candidate_paths_claimed (env_of [("REPORT_API_RESPONSE_PATH", "a,b")])) = None.
Proof. repeat split. vm_compute. discriminate. Qed.

(** C3 (amended). The text the paths are read from is
    [REPORT_API_RESPONSE_PATHS], or, when that is unset or blank, the legacy
    [REPORT_API_RESPONSE_PATH] (default [choices.0.message.content]); either
    is split at commas, each entry trimmed and the empty ones dropped, so no
    configured path holds a comma, and the text is used as the single path
    it spells exactly when it has no comma.  The candidates are these paths
    followed by the fallbacks not among them, in the fixed order, and
    extraction returns the value of the first candidate that resolves. *)
Theorem candidate_paths_order (env : environ) (data : json) :
  response_paths env = Ok (selected_paths_csv env) /\
  configured_paths (selected_paths_csv env) =
    filter Py.nonempty (map Py.strip (Py.split "," (selected_paths_csv env))) /\
  candidate_paths (selected_paths_csv env) =
    (configured_paths (selected_paths_csv env) ++
     filter (fun p => negb (Py.mem p (configured_paths (selected_paths_csv env))))
       [ "choices.0.message.final"; "choices.0.message.answer"; "choices.0.message.content";
         "choices.0.text"; "response.output_text"; "output_text"; "data.text"; "text" ])%list /\
  Forall (fun p => has_char "," p = false) (configured_paths (selected_paths_csv env)) /\
  (configured_paths (selected_paths_csv env) = [selected_paths_csv env] <->
   has_char "," (selected_paths_csv env) = false) /\
  (env "REPORT_API_RESPONSE_PATHS" = None -> env "REPORT_API_RESPONSE_PATH" = None ->
   selected_paths_csv env = "choices.0.message.content") /\
  match first_resolved data (candidate_paths (selected_paths_csv env)) with
  | Some value => _extract_first_available data (selected_paths_csv env) = Ok value
  | None => exists paths last_err,
      _extract_first_available data (selected_paths_csv env) =
        Err (UnableToExtract paths last_err)
  end.
Proof.
  split; [apply response_paths_eq|].
  split; [reflexivity|].
  split; [apply candidate_paths_eq|].
  split; [apply configured_paths_no_comma|].
  split; [|split].
  - split.
    + intros E. pose proof (configured_paths_no_comma (selected_paths_csv env)) as H.
      rewrite E in H. now inversion H.
    + intros Hcomma. unfold configured_paths.
      rewrite (split_no_sep _ _ Hcomma). simpl.
      destruct (selected_paths_csv_stripped env) as [-> Hne].
      destruct (selected_paths_csv env); [contradiction|reflexivity].
  - intros H1 H2. unfold selected_paths_csv, legacy_path, setting. now rewrite H1, H2.
  - pose proof (extract_first_available_spec data (selected_paths_csv env)) as H.
    destruct (first_resolved data (candidate_paths (selected_paths_csv env))); [exact H|].
    destruct H as [last_err [H _]]. eauto.
Qed.

(** The legacy setting of the repository's tests has no comma and gives a
    single configured path. *)
Lemma candidate_paths_order_witness :
  configured_paths (selected_paths_csv (env_of [("REPORT_API_RESPONSE_PATH", "data.text")])) =
    [selected_paths_csv (env_of [("REPORT_API_RESPONSE_PATH", "data.text")])].
Proof.
  destruct (candidate_paths_order (env_of [("REPORT_API_RESPONSE_PATH", "data.text")]) JNull)
    as [_ [_ [_ [_ [H _]]]]].
  apply (proj2 H). reflexivity.
Defined.

(** With a comma the text is split: two paths, or one that is not the text. *)
Example configured_paths_with_comma :
  configured_paths "a,b" = ["a"; "b"] /\ configured_paths "a," = ["a"].
Proof. split; reflexivity. Qed.

Example candidate_paths_samples :
  candidate_paths "data.text" =
    [ "data.text"; "choices.0.message.final"; "choices.0.message.answer";
      "choices.0.message.content"; "choices.0.text"; "response.output_text";
      "output_text"; "text" ] /\
  candidate_paths " text , a.b ,, text " =
    [ "text"; "a.b"; "text"; "choices.0.message.final"; "choices.0.message.answer";
      "choices.0.message.content"; "choices.0.text"; "response.output_text";
      "output_text"; "data.text" ] /\
  selected_paths_csv (env_of []) = "choices.0.message.content" /\
  selected_paths_csv (env_of [("REPORT_API_RESPONSE_PATHS", " "); ("REPORT_API_RESPONSE_PATH", "x.y")]) = "x.y" /\
  selected_paths_csv (env_of [("REPORT_API_RESPONSE_PATHS", "a,b"); ("REPORT_API_RESPONSE_PATH", "x.y")]) = "a,b".
Proof. repeat split. Qed.

(** ** [extract_by_path] *)

Lemma getitem_spec {A : Type} (l : list A) (i : Z) (d : A) :
  Py.getitem l i =
    if ((0 <=? i) && (i <? Z.of_nat (List.length l)))%Z then Some (nth (Z.to_nat i) l d)
    else if ((- Z.of_nat (List.length l) <=? i) && (i <? 0))%Z
         then Some (nth (Z.to_nat (Z.of_nat (List.length l) + i)) l d)
         else None.
Proof.
  unfold Py.getitem.
  destruct (Z.leb_spec 0 i) as [Hi|Hi]; simpl.
  - destruct (Z.ltb_spec i (Z.of_nat (List.length l))) as [Hlt|Hge].
    + apply nth_error_nth'. lia.
    + destruct (Z.leb_spec (- Z.of_nat (List.length l)) i); simpl;
        [destruct (Z.ltb_spec i 0); [lia|]|]; apply nth_error_None; lia.
  - destruct (Z.leb_spec (- Z.of_nat (List.length l)) i) as [Hlo|Hlo]; simpl; [|reflexivity].
    destruct (Z.ltb_spec i 0); [|lia].
    apply nth_error_nth'. lia.
Qed.

Example extract_samples :
  extract_by_path (JDict [("a", JList [JDict [("b", JInt 1)]])]) "a.0.b" = Ok (JInt 1) /\
  extract_by_path (JDict [("a", JInt 1)]) "a.b" = Err (KeyErrorNavigate "b") /\
  extract_by_path (JDict [("choices", JList [JDict [("message", JDict [("content", JStr "ok")])]])])
    "choices.0.message.content" = Ok (JStr "ok") /\
  extract_by_path (JList [JInt 7]) "1" = Err (IndexError 1) /\
  extract_by_path (JList [JInt 7]) "x" = Err (ValueError "x") /\
  extract_by_path (JDict []) "k" = Err (KeyError "k").
Proof. repeat split. Qed.

(** C2, as stated, fails: the segment [-1] is no non-negative index, yet on
    a sequence it resolves, to the last element. *)
Lemma negative_index_resolves :
  Py.int "-1" = Some (-1)%Z /\
  extract_by_path (JList [JStr "first"; JStr "last"]) "-1" = Ok (JStr "last") /\
  ~ (exists e, extract_by_path (JList [JStr "first"; JStr "last"]) "-1" = Err e).
Proof.
  repeat split. intros [e He]. vm_compute in He. discriminate.
Qed.

(** C2 (amended). An empty path returns the data unchanged.  Any other path
    is split at the dots and walked segment by segment.  On a sequence the
    segment must parse as an integer, as [int] reads it (sign allowed): an
    index from 0 up to the length selects by position, a negative index down
    to minus the length selects from the end, and the walk fails when the
    segment does not parse or the index is outside these bounds.  On a
    mapping the segment is looked up as a key and the walk fails when it is
    absent.  On a scalar with a segment left the walk fails. *)
Theorem extract_by_path_walk (data : json) (path : string) :
  extract_by_path data "" = Ok data /\
  (path <> "" -> extract_by_path data path = walk data (Py.split "." path)) /\
  walk data [] = Ok data /\
  forall part rest,
    walk data (part :: rest) =
      match data with
      | JList items =>
          let len := Z.of_nat (List.length items) in
          match Py.int part with
          | None => Err (ValueError part)
          | Some idx =>
              if ((0 <=? idx) && (idx <? len))%Z
              then walk (nth (Z.to_nat idx) items JNull) rest
              else if ((- len <=? idx) && (idx <? 0))%Z
                   then walk (nth (Z.to_nat (len + idx)) items JNull) rest
                   else Err (IndexError idx)
          end
      | JDict fields =>
          match dict_get fields part with
          | Some value => walk value rest
          | None => Err (KeyError part)
          end
      | _ => Err (KeyErrorNavigate part)
      end.
Proof.
  split; [reflexivity|]. split; [|split; [reflexivity|]].
  - intros Hne. unfold extract_by_path. destruct path; [contradiction|reflexivity].
  - intros part rest. destruct data as [| | | | |items|fields]; try reflexivity.
    + simpl. destruct (Py.int part) as [idx|]; [|reflexivity]. simpl.
      rewrite (getitem_spec items idx JNull).
      destruct ((0 <=? idx) && (idx <? Z.of_nat (List.length items)))%Z; [reflexivity|].
      destruct ((- Z.of_nat (List.length items) <=? idx) && (idx <? 0))%Z; reflexivity.
    + simpl. destruct (dict_get fields part); reflexivity.
Qed.

(** A run of the amended rule with its hypothesis discharged. *)
Lemma extract_by_path_walk_witness :
  extract_by_path (JDict [("a", JList [JDict [("b", JInt 1)]])]) "a.0.b" =
    walk (JDict [("a", JList [JDict [("b", JInt 1)]])]) ["a"; "0"; "b"].
Proof.
  destruct (extract_by_path_walk (JDict [("a", JList [JDict [("b", JInt 1)]])]) "a.0.b")
    as [_ [H _]].
  apply H. discriminate.
Defined.

(** ** [_normalize_to_text] on a mapping *)

Lemma field_text_spec (norm : json -> string) (d : list (string * json)) (k : string) :
  field_text norm d k =
    if usable d k then Some (norm (dict_get_or_empty d k)) else None.
Proof.
  unfold usable, dict_get_or_empty.
  induction d as [|[k' v] d IH]; simpl; [reflexivity|].
  destruct (String.eqb k' k); [reflexivity | exact IH].
Qed.

Lemma first_text_spec (norm : json -> string) (d : list (string * json)) (keys : list string) :
  first_text norm d keys =
    match find (usable d) keys with
    | Some k => Some (norm (dict_get_or_empty d k))
    | None => None
    end.
Proof.
  induction keys as [|k keys IH]; simpl; [reflexivity|].
  rewrite field_text_spec. destruct (usable d k); [reflexivity | exact IH].
Qed.

Lemma json_dumps_dict (fields : list (string * json)) :
  json_dumps (JDict fields) =
    "{" ++ Py.join ", "
             (map (fun kv => json_string (fst kv) ++ ": " ++ json_dumps (snd kv)) fields) ++ "}".
Proof.
  simpl. do 3 f_equal.
  induction fields as [|[k v] fields IH]; simpl; [reflexivity|]. now rewrite IH.
Qed.

Example normalize_mapping_samples :
  _normalize_to_text true (JDict [("content", JStr "c"); ("final", JStr " f ")]) = "f" /\
  _normalize_to_text true (JDict [("final", JNull); ("answer", JStr ""); ("text", JStr "t")]) = "t" /\
  _normalize_to_text true (JDict [("message", JDict [("content", JStr "hi")])]) = "hi" /\
  _normalize_to_text true (JDict [("message", JNull); ("n", JInt 1)]) = json_dumps (JDict [("message", JNull); ("n", JInt 1)]) /\
  json_dumps (JDict [("message", JNull); ("n", JList [JInt 1; JBool true])]) =
    "{" ++ json_string "message" ++ ": null, " ++ json_string "n" ++ ": [1, true]}".
Proof. repeat split. Qed.

Lemma normalize_mapping_eq (strip_think : bool) (fields : list (string * json)) :
  _normalize_to_text strip_think (JDict fields) =
    match find (usable fields) ["final"; "answer"; "output_text"; "text"; "content"] with
    | Some k => _normalize_to_text strip_think (dict_get_or_empty fields k)
    | None =>
        if usable fields "message"
        then _normalize_to_text strip_think (dict_get_or_empty fields "message")
        else json_dumps (JDict fields)
    end.
Proof.
  change (_normalize_to_text strip_think (JDict fields)) with
    (match first_text (_normalize_to_text strip_think) fields answer_keys with
     | Some text => text
     | None =>
         match field_text (_normalize_to_text strip_think) fields "message" with
         | Some text => text
         | None => json_dumps (JDict fields)
         end
     end).
  rewrite first_text_spec, field_text_spec. unfold answer_keys.
  destruct (find (usable fields) _); [reflexivity|].
  destruct (usable fields "message"); reflexivity.
Qed.

(** C5, as stated, fails: a mapping does not always yield some text.  The
    field that wins is chosen before it is normalised, so a [final] that is
    blank wins over a [content] that holds the answer, and the text is
    empty. *)
Lemma blank_field_yields_no_text :
  _normalize_to_text true (JDict [("final", JStr " "); ("content", JStr "real answer")]) = "" /\
  _normalize_to_text false (JDict [("final", JStr " "); ("content", JStr "real answer")]) = "" /\
  _normalize_to_text true (JDict [("answer", JList []); ("content", JStr "real answer")]) = "" /\
  _normalize_to_text true (JDict [("content", JStr "real answer")]) = "real answer".
Proof. repeat split. Qed.

(** C5 (amended). On a mapping the fields [final], [answer], [output_text],
    [text], [content] are tried in this order and the first one that is
    present and neither null nor the empty string is normalised in turn;
    failing these, a present, non-null, non-empty [message] field is;
    failing that, the whole mapping is serialised by [json.dumps] on one
    line ([{"k": v, ...}], with [, ] between the items and [: ] after a key),
    which is never empty.  The text of a mapping is empty only when the
    field that wins normalises to the empty text. *)
Theorem normalize_mapping (strip_think : bool) (fields : list (string * json)) :
  _normalize_to_text strip_think (JDict fields) =
    match find (usable fields) ["final"; "answer"; "output_text"; "text"; "content"] with
    | Some k => _normalize_to_text strip_think (dict_get_or_empty fields k)
    | None =>
        if usable fields "message"
        then _normalize_to_text strip_think (dict_get_or_empty fields "message")
        else json_dumps (JDict fields)
    end /\
  json_dumps (JDict fields) =
    "{" ++ Py.join ", "
             (map (fun kv => json_string (fst kv) ++ ": " ++ json_dumps (snd kv)) fields) ++ "}" /\
  json_dumps (JDict fields) <> "" /\
  (_normalize_to_text strip_think (JDict fields) = "" ->
   exists k,
     Py.mem k ["final"; "answer"; "output_text"; "text"; "content"; "message"] = true /\
     usable fields k = true /\
     _normalize_to_text strip_think (dict_get_or_empty fields k) = "").
Proof.
  split; [apply normalize_mapping_eq|].
  split; [apply json_dumps_dict|].
  split; [rewrite json_dumps_dict; discriminate|].
  rewrite normalize_mapping_eq.
  destruct (find (usable fields) ["final"; "answer"; "output_text"; "text"; "content"])
    as [k|] eqn:Hfind.
  - intros E. exists k. apply find_some in Hfind as [Hin Hk].
    split; [|split; assumption].
    apply mem_In. simpl in Hin. simpl. tauto.
  - destruct (usable fields "message") eqn:Hm.
    + intros E. exists "message". repeat split; assumption.
    + rewrite json_dumps_dict. discriminate.
Qed.

(** ** [_normalize_to_text] on a sequence *)

Lemma add_chunk_block (strip_think : bool) (chunks : list string) (item : json) :
  add_chunk strip_think chunks item = (chunks ++ block_chunk strip_think item)%list.
Proof.
  unfold add_chunk, block_chunk, block_type, reasoning_types.
  destruct item as [| | | | | |d]; try reflexivity.
  destruct (strip_think && _); [now rewrite app_nil_r|].
  destruct (String.eqb _ "text").
  - destruct (truthy _); [reflexivity | now rewrite app_nil_r].
  - destruct (dict_get d "text"); [reflexivity|].
    destruct (dict_get d "content"); [reflexivity | now rewrite app_nil_r].
Qed.

Lemma fold_add_chunk (strip_think : bool) (items : list json) (chunks : list string) :
  fold_left (add_chunk strip_think) items chunks =
    (chunks ++ flat_map (block_chunk strip_think) items)%list.
Proof.
  revert chunks; induction items as [|item items IH]; intros chunks; simpl.
  - now rewrite app_nil_r.
  - now rewrite IH, add_chunk_block, <- app_assoc.
Qed.

(** C6, as stated, fails: a block of type [text] that carries only a
    [content] field contributes nothing, where the claimed rule falls back
    to its [content]. *)
Lemma text_block_ignores_content :
  _normalize_to_text true (JList [JDict [("type", JStr "text"); ("content", JStr "x")]]) = "" /\
  join_chunks (flat_map (block_chunk_claimed true)
                 [JDict [("type", JStr "text"); ("content", JStr "x")]]) = "x".
Proof. split; reflexivity. Qed.

(** C6 (amended). On a sequence each element contributes at most one chunk:
    a mapping whose [type], lower-cased, is [reasoning], [thought] or
    [thinking] contributes none when stripping is on; a mapping whose
    lower-cased [type] is [text] contributes its [text] field, stringified,
    when that is truthy, and nothing otherwise; any other mapping contributes
    its [text] field, else its [content] field, stringified; any other
    element is stringified.  The non-empty chunks are joined with a newline
    and the result is trimmed.  The reasoning block of the example is skipped
    and [keep] is returned. *)
Theorem normalize_sequence (strip_think : bool) (items : list json) :
  _normalize_to_text strip_think (JList items) =
    Py.strip (Py.join (String Py.newline "")
                (filter Py.nonempty (flat_map (block_chunk strip_think) items))) /\
  _normalize_to_text true
    (JList [ JDict [("type", JStr "reasoning"); ("text", JStr "skip")];
             JDict [("type", JStr "text"); ("text", JStr "keep")] ]) = "keep".
Proof.
  split; [|reflexivity].
  simpl. now rewrite fold_add_chunk.
Qed.

(** ** [_strip_think_blocks] *)

Lemma lead_skip_length (s : string) :
  String.length s = lead_nl s + String.length (skip_nl s).
Proof.
  induction s as [|c s IH]; [reflexivity|]. simpl.
  destruct (Re.is_newline c); simpl; lia.
Qed.

Lemma drop_lead (s : string) : drop (lead_nl s) s = skip_nl s.
Proof.
  induction s as [|c s IH]; [reflexivity|]. simpl.
  destruct (Re.is_newline c); [exact IH | reflexivity].
Qed.

Lemma lead_skip_nl (s : string) : lead_nl (skip_nl s) = 0.
Proof.
  induction s as [|c s IH]; [reflexivity|]. simpl.
  destruct (Re.is_newline c) eqn:E; [exact IH|]. simpl. now rewrite E.
Qed.

Lemma greedy_newlines (n : nat) (prev : option ascii) (s : string) :
  Re.greedy Re.is_newline n prev s (fun _ rest => Some rest) =
    if (n <=? lead_nl s)%nat then Some (skip_nl s) else None.
Proof.
  revert n prev; induction s as [|c s IH]; intros n prev.
  - destruct n; reflexivity.
  - simpl. destruct (Re.is_newline c) eqn:E.
    + rewrite IH. destruct n as [|n]; simpl.
      * reflexivity.
      * destruct (n <=? lead_nl s)%nat; reflexivity.
    + destruct n; reflexivity.
Qed.

Lemma match_at_blank_lines (prev : option ascii) (s : string) :
  Re.match_at false blank_lines prev s =
    if (3 <=? lead_nl s)%nat then Some (lead_nl s) else None.
Proof.
  unfold Re.match_at, blank_lines. cbn [Re.exec].
  rewrite greedy_newlines.
  destruct (3 <=? lead_nl s)%nat; [|reflexivity].
  f_equal. pose proof (lead_skip_length s). lia.
Qed.

(** The substitution of [\n{3,}] from a position inside a match is the
    substitution on what follows the match. *)
Lemma sub_from_blank_skip (n : nat) (s : string) (prev prev' : option ascii) :
  Re.sub_from false blank_lines two_newlines prev n s =
    Re.sub_from false blank_lines two_newlines prev' 0 (drop n s).
Proof.
  revert n prev prev'; induction s as [|c s IH]; intros n prev prev'.
  - destruct n; reflexivity.
  - destruct n as [|n].
    + cbn [drop Re.sub_from]. rewrite !match_at_blank_lines.
      destruct (3 <=? lead_nl (String c s))%nat; [destruct (lead_nl (String c s))|]; reflexivity.
    + cbn [drop Re.sub_from]. apply IH.
Qed.

Lemma sub_blank_cons (prev : option ascii) (c : ascii) (s : string) :
  Re.sub_from false blank_lines two_newlines prev 0 (String c s) =
    if (3 <=? lead_nl (String c s))%nat
    then two_newlines ++ Re.sub_from false blank_lines two_newlines None 0 (skip_nl (String c s))
    else String c (Re.sub_from false blank_lines two_newlines None 0 s).
Proof.
  cbn [Re.sub_from]. rewrite match_at_blank_lines.
  destruct (3 <=? lead_nl (String c s))%nat eqn:E.
  - destruct (lead_nl (String c s)) as [|n] eqn:El; [discriminate|].
    rewrite (sub_from_blank_skip n s (Some c) None). do 2 f_equal.
    rewrite <- drop_lead, El. reflexivity.
  - rewrite (sub_from_blank_skip 0 s (Some c) None). reflexivity.
Qed.

Lemma sub_blank_fixed (s : string) :
  no_blank_run s = true -> Re.sub false blank_lines two_newlines s = s.
Proof.
  unfold Re.sub. induction s as [|c s IH]; [reflexivity|].
  intros H. cbn [no_blank_run] in H. apply andb_true_iff in H as [Hlead Hrest].
  rewrite sub_blank_cons.
  apply Nat.ltb_lt in Hlead.
  destruct (Nat.leb_spec 3 (lead_nl (String c s))); [lia|].
  now rewrite (IH Hrest).
Qed.

(** After the substitution no run of three newlines is left, and the text
    starts with at most two. *)
Lemma sub_blank_no_run (fuel : nat) (s : string) :
  String.length s <= fuel ->
  no_blank_run (Re.sub false blank_lines two_newlines s) = true /\
  lead_nl (Re.sub false blank_lines two_newlines s) = Nat.min (lead_nl s) 2.
Proof.
  unfold Re.sub. revert s; induction fuel as [|fuel IH]; intros s Hlen.
  - destruct s; [split; reflexivity | simpl in Hlen; lia].
  - destruct s as [|c s]; [split; reflexivity|].
    rewrite sub_blank_cons.
    destruct (Nat.leb_spec 3 (lead_nl (String c s))) as [Hge|Hlt].
    + destruct (IH (skip_nl (String c s))) as [Hno Hlead].
      { pose proof (lead_skip_length (String c s)) as Hl.
        change (String.length (String c s)) with (S (String.length s)) in *. lia. }
      rewrite lead_skip_nl in Hlead. change (Nat.min 0 2) with 0 in Hlead.
      remember (Re.sub_from false blank_lines two_newlines None 0 (skip_nl (String c s))) as out.
      remember (lead_nl (String c s)) as m.
      change (two_newlines ++ out) with (String Py.newline (String Py.newline out)).
      cbn [no_blank_run lead_nl]. change (Re.is_newline Py.newline) with true.
      cbv iota. rewrite Hlead, Hno. split; [reflexivity | lia].
    + destruct (IH s) as [Hno Hlead]; [simpl in Hlen; lia|].
      remember (Re.sub_from false blank_lines two_newlines None 0 s) as out.
      cbn [no_blank_run lead_nl] in *. rewrite Hno, andb_true_r.
      destruct (Re.is_newline c); [|split; reflexivity].
      rewrite Hlead. split; [apply Nat.ltb_lt|]; lia.
Qed.

Lemma no_blank_run_lstrip (s : string) :
  no_blank_run s = true -> no_blank_run (Py.lstrip s) = true.
Proof.
  induction s as [|c s IH]; [reflexivity|]. intros H. simpl.
  destruct (Py.is_space c); [|exact H].
  apply IH. cbn [no_blank_run] in H. now apply andb_true_iff in H.
Qed.

Lemma lead_nl_rstrip (s : string) : lead_nl (Py.rstrip s) <= lead_nl s.
Proof.
  induction s as [|c s IH]; [reflexivity|].
  rewrite rstrip_cons.
  destruct (negb (Py.nonempty (Py.rstrip s)) && Py.is_space c); simpl; [lia|].
  destruct (Re.is_newline c); lia.
Qed.

Lemma no_blank_run_rstrip (s : string) :
  no_blank_run s = true -> no_blank_run (Py.rstrip s) = true.
Proof.
  induction s as [|c s IH]; [reflexivity|]. intros H.
  cbn [no_blank_run] in H. apply andb_true_iff in H as [Hlead Hrest].
  pose proof (lead_nl_rstrip (String c s)) as Hle.
  rewrite rstrip_cons in *.
  destruct (negb (Py.nonempty (Py.rstrip s)) && Py.is_space c); [reflexivity|].
  cbn [no_blank_run]. rewrite (IH Hrest), andb_true_r.
  apply Nat.ltb_lt in Hlead. apply Nat.ltb_lt. lia.
Qed.

(** The tidying up is idempotent. *)
Lemma collapse_blank_lines_idempotent (out : string) :
  collapse_blank_lines (collapse_blank_lines out) = collapse_blank_lines out.
Proof.
  unfold collapse_blank_lines. fold two_newlines.
  destruct (sub_blank_no_run (String.length out) out (le_n _)) as [Hno _].
  rewrite sub_blank_fixed.
  - apply strip_idempotent.
  - unfold Py.strip. now apply no_blank_run_lstrip, no_blank_run_rstrip.
Qed.

(** Deleting matches never lengthens a text, and shortens it unless there is
    no match. *)
Lemma sub_delete_length (ignorecase : bool) (r : Re.regex) (s : string) :
  forall prev skip,
    String.length (Re.sub_from ignorecase r "" prev skip s) <= String.length s.
Proof.
  induction s as [|c s IH]; intros prev skip; [reflexivity|].
  cbn [Re.sub_from]. destruct skip as [|n].
  - destruct (Re.match_at ignorecase r prev (String c s)) as [[|n]|].
    + cbn [String.length]. specialize (IH (Some c) 0). lia.
    + change ("" ++ ?x) with x. cbn [String.length]. specialize (IH (Some c) n). lia.
    + cbn [String.length]. specialize (IH (Some c) 0). lia.
  - cbn [String.length]. specialize (IH (Some c) n). lia.
Qed.

Lemma sub_delete_fixed_or_shorter (ignorecase : bool) (r : Re.regex) (s : string) :
  forall prev,
    Re.sub_from ignorecase r "" prev 0 s = s \/
    String.length (Re.sub_from ignorecase r "" prev 0 s) < String.length s.
Proof.
  induction s as [|c s IH]; intros prev; [now left|].
  cbn [Re.sub_from].
  destruct (Re.match_at ignorecase r prev (String c s)) as [[|n]|].
  - destruct (IH (Some c)) as [H|H]; [left; now rewrite H | right; cbn [String.length]; lia].
  - right. change ("" ++ ?x) with x. cbn [String.length].
    pose proof (sub_delete_length ignorecase r s (Some c) n). lia.
  - destruct (IH (Some c)) as [H|H]; [left; now rewrite H | right; cbn [String.length]; lia].
Qed.

Lemma sub_delete_shrinking (ignorecase : bool) (r : Re.regex) :
  shrinking (Re.sub ignorecase r "").
Proof. intros s. apply sub_delete_fixed_or_shorter. Qed.

Lemma shrinking_compose (f g : string -> string) :
  shrinking f -> shrinking g -> shrinking (fun s => g (f s)).
Proof.
  intros Hf Hg s. destruct (Hf s) as [Ef|Sf].
  - rewrite Ef. apply Hg.
  - right. destruct (Hg (f s)) as [Eg|Sg]; [rewrite Eg|]; lia.
Qed.

Lemma remove_think_shrinking : shrinking remove_think.
Proof.
  assert (H12 : shrinking (fun t => Re.sub true reasoning_span "" (Re.sub true think_span "" t)))
    by (apply shrinking_compose; apply sub_delete_shrinking).
  assert (H123 : shrinking (fun t => Re.sub true fenced_block ""
                              (Re.sub true reasoning_span "" (Re.sub true think_span "" t))))
    by (apply (shrinking_compose _ (Re.sub true fenced_block "") H12), sub_delete_shrinking).
  exact (shrinking_compose _ (Re.sub true reasoning_line "") H123
           (sub_delete_shrinking true reasoning_line)).
Qed.

Lemma lstrip_length (s : string) : String.length (Py.lstrip s) <= String.length s.
Proof.
  induction s as [|c s IH]; [reflexivity|]. simpl.
  destruct (Py.is_space c); simpl; lia.
Qed.

Lemma rstrip_length (s : string) : String.length (Py.rstrip s) <= String.length s.
Proof.
  induction s as [|c s IH]; [reflexivity|]. rewrite rstrip_cons.
  destruct (negb (Py.nonempty (Py.rstrip s)) && Py.is_space c); simpl; lia.
Qed.

Lemma sub_blank_length (fuel : nat) (s : string) :
  String.length s <= fuel ->
  String.length (Re.sub false blank_lines two_newlines s) <= String.length s.
Proof.
  unfold Re.sub. revert s; induction fuel as [|fuel IH]; intros s Hlen.
  - destruct s; [reflexivity | simpl in Hlen; lia].
  - destruct s as [|c s]; [reflexivity|].
    rewrite sub_blank_cons.
    pose proof (lead_skip_length (String c s)) as Hl.
    change (String.length (String c s)) with (S (String.length s)) in *.
    destruct (Nat.leb_spec 3 (lead_nl (String c s))) as [Hge|Hlt].
    + specialize (IH (skip_nl (String c s))).
      remember (Re.sub_from false blank_lines two_newlines None 0 (skip_nl (String c s))) as out.
      change (two_newlines ++ out) with (String Py.newline (String Py.newline out)).
      cbn [String.length]. lia.
    + specialize (IH s). cbn [String.length]. lia.
Qed.

Lemma collapse_blank_lines_length (out : string) :
  String.length (collapse_blank_lines out) <= String.length out.
Proof.
  unfold collapse_blank_lines, Py.strip. fold two_newlines.
  pose proof (sub_blank_length (String.length out) out (le_n _)).
  pose proof (rstrip_length (Re.sub false blank_lines two_newlines out)).
  pose proof (lstrip_length (Py.rstrip (Re.sub false blank_lines two_newlines out))).
  lia.
Qed.

(** *** The patterns match no empty text *)

Lemma greedy_reaches (p : ascii -> bool) (k : Re.cont) (out : string) (s : string) :
  forall n prev,
    Re.greedy p n prev s k = Some out -> exists m, n <= m /\ reaches k s m out.
Proof.
  induction s as [|a s IH]; intros n prev H.
  - destruct n; [|discriminate]. exists 0. split; [lia|]. now exists prev, "".
  - cbn [Re.greedy] in H.
    assert (Hstop : match n with 0 => k prev (String a s) | S _ => None end = Some out ->
                    exists m, n <= m /\ reaches k (String a s) m out).
    { destruct n; [|discriminate]. intros Hk. exists 0. split; [lia|].
      now exists prev, (String a s). }
    destruct (p a); [|now apply Hstop].
    destruct (Re.greedy p (Nat.pred n) (Some a) s k) as [out'|] eqn:Hg; [|now apply Hstop].
    simpl in H. rewrite H in Hg.
    destruct (IH _ _ Hg) as [m [Hm [prev' [s' [Hk Hlen]]]]].
    exists (S m). split; [lia|]. exists prev', s'. split; [exact Hk|]. simpl. lia.
Qed.

Lemma lazy_reaches (p : ascii -> bool) (k : Re.cont) (out : string) (s : string) :
  forall prev, Re.lazy p prev s k = Some out -> exists m, reaches k s m out.
Proof.
  induction s as [|a s IH]; intros prev H.
  - cbn [Re.lazy] in H. destruct (k prev "") eqn:Hk; [|discriminate].
    simpl in H. exists 0, prev, "". split; [congruence | reflexivity].
  - cbn [Re.lazy] in H. destruct (k prev (String a s)) eqn:Hk.
    + exists 0, prev, (String a s). split; [simpl in H; congruence | simpl; lia].
    + simpl in H. destruct (p a); [|discriminate].
      destruct (IH _ H) as [m [prev' [s' [Hk' Hlen]]]].
      exists (S m), prev', s'. split; [exact Hk'|]. simpl. lia.
Qed.

Lemma exec_reaches (ignorecase : bool) (r : Re.regex) :
  forall prev s k out,
    Re.exec ignorecase r prev s k = Some out ->
    exists n, (consumes r = true -> 1 <= n) /\ reaches k s n out.
Proof.
  induction r as [c|p|n p|p| | |r1 IH1 r2 IH2|r1 IH1 r2 IH2]; intros prev s k out H;
    cbn [Re.exec consumes] in *.
  - destruct s as [|a s]; [discriminate|].
    destruct (Re.chr_eq ignorecase c a); [|discriminate].
    exists 1. split; [lia|]. exists (Some a), s. split; [exact H | simpl; lia].
  - destruct s as [|a s]; [discriminate|].
    destruct (p a); [|discriminate].
    exists 1. split; [lia|]. exists (Some a), s. split; [exact H | simpl; lia].
  - destruct (greedy_reaches _ _ _ _ _ _ H) as [m [Hm Hr]].
    exists m. split; [|exact Hr]. destruct n; [discriminate | lia].
  - destruct (lazy_reaches _ _ _ _ _ H) as [m Hr].
    exists m. split; [discriminate | exact Hr].
  - exists 0. split; [discriminate|]. exists prev, s. split; [|lia].
    destruct prev as [a|]; [destruct (Ascii.eqb a Py.newline); [exact H | discriminate] | exact H].
  - exists 0. split; [discriminate|]. exists prev, s. split; [|lia].
    destruct s as [|a s]; [exact H | destruct (Ascii.eqb a Py.newline); [exact H | discriminate]].
  - destruct (IH1 _ _ _ _ H) as [n1 [Hn1 [p1 [s1 [Hk1 Hlen1]]]]].
    destruct (IH2 _ _ _ _ Hk1) as [n2 [Hn2 [p2 [s2 [Hk2 Hlen2]]]]].
    exists (n1 + n2). split.
    + intros Hc. apply orb_true_iff in Hc as [Hc|Hc]; [specialize (Hn1 Hc) | specialize (Hn2 Hc)]; lia.
    + exists p2, s2. split; [exact Hk2 | lia].
  - destruct (Re.exec ignorecase r1 prev s k) as [out'|] eqn:H1.
    + simpl in H. rewrite H in H1. destruct (IH1 _ _ _ _ H1) as [n1 [Hn1 Hr]].
      exists n1. split; [|exact Hr]. intros Hc. apply andb_true_iff in Hc as [Hc _]. auto.
    + simpl in H. destruct (IH2 _ _ _ _ H) as [n2 [Hn2 Hr]].
      exists n2. split; [|exact Hr]. intros Hc. apply andb_true_iff in Hc as [_ Hc]. auto.
Qed.

(** A consuming pattern has no empty match. *)
Lemma match_at_nonempty (ignorecase : bool) (r : Re.regex) (prev : option ascii) (s : string) :
  consumes r = true -> Re.match_at ignorecase r prev s <> Some 0.
Proof.
  intros Hc. unfold Re.match_at.
  destruct (Re.exec ignorecase r prev s (fun _ rest => Some rest)) as [rest|] eqn:H;
    [|discriminate].
  destruct (exec_reaches _ _ _ _ _ _ H) as [n [Hn [prev' [s' [Hk Hlen]]]]].
  specialize (Hn Hc). inversion Hk; subst. intros E. inversion E. lia.
Qed.

(** None of the five patterns of [_strip_think_blocks] matches the empty
    string, as [Re.sub] takes for granted. *)
Lemma patterns_consume :
  forallb consumes [think_span; reasoning_span; fenced_block; reasoning_line; blank_lines] = true.
Proof. reflexivity. Qed.

Example strip_think_samples :
  _strip_think_blocks "<think>x</think>Hello" = "Hello" /\
  _strip_think_blocks "<THINK>a</Think> b <reasoning>c</reasoning>" = "b" /\
  _strip_think_blocks "```thinking x``` kept ```python y```" = "kept ```python y```" /\
  _strip_think_blocks "  Thought: hm" = "".
Proof. repeat split. Qed.

(** C1, as stated, fails: removing a span can bring the two halves of
    another span together, and only a second application removes that
    one. *)
Lemma strip_think_blocks_not_idempotent :
  _strip_think_blocks "<thi<think>a</think>nk>b</think>c" = "<think>b</think>c" /\
  _strip_think_blocks (_strip_think_blocks "<thi<think>a</think>nk>b</think>c") = "c" /\
  _strip_think_blocks (_strip_think_blocks "<thi<think>a</think>nk>b</think>c") <>
    _strip_think_blocks "<thi<think>a</think>nk>b</think>c".
Proof. repeat split. vm_compute. discriminate. Qed.

(** C1 (amended). Each removal rule is applied in one pass, so a second
    application can remove what the first one uncovered.  The stripper is
    idempotent on a text exactly when its stripped form holds nothing for the
    removal rules to remove: [strip(strip(s)) = strip(s)] if and only if the
    removals leave [strip(s)] as it is. *)
Theorem strip_think_blocks_idempotent_iff_clean (s : string) :
  _strip_think_blocks (_strip_think_blocks s) = _strip_think_blocks s <->
  remove_think (_strip_think_blocks s) = _strip_think_blocks s.
Proof.
  split.
  - intros Hidem.
    destruct (remove_think_shrinking (_strip_think_blocks s)) as [E|S]; [exact E|].
    pose proof (collapse_blank_lines_length (remove_think (_strip_think_blocks s))) as Hle.
    fold (_strip_think_blocks (_strip_think_blocks s)) in Hle.
    rewrite Hidem in Hle. lia.
  - intros Hclean.
    unfold _strip_think_blocks at 1. rewrite Hclean.
    unfold _strip_think_blocks. apply collapse_blank_lines_idempotent.
Qed.

(** The text of the specification's example is stripped to [Hello], which
    the removal rules leave alone. *)
Lemma strip_think_blocks_idempotent_witness :
  _strip_think_blocks (_strip_think_blocks "<think>x</think>Hello") =
    _strip_think_blocks "<think>x</think>Hello".
Proof.
  apply (proj2 (strip_think_blocks_idempotent_iff_clean "<think>x</think>Hello")).
  reflexivity.
Defined.

(** ** [replace_placeholders] *)

Lemma replace_placeholders_list (items : list json) (mapping : list (string * string)) :
  replace_placeholders (JList items) mapping =
    JList (map (fun x => replace_placeholders x mapping) items).
Proof. reflexivity. Qed.

Lemma replace_placeholders_dict (fields : list (string * json)) (mapping : list (string * string)) :
  replace_placeholders (JDict fields) mapping =
    JDict (map (fun kv => (fst kv, replace_placeholders (snd kv) mapping)) fields).
Proof.
  simpl. f_equal. induction fields as [|[k v] fields IH]; simpl; [reflexivity|]. now rewrite IH.
Qed.

(** [str.replace] leaves a text without an occurrence as it is. *)
Lemma replace_from_absent (old new s : string) :
  Py.contains old s = false -> Py.replace_from old new 0 s = s.
Proof.
  induction s as [|c s IH]; [reflexivity|].
  rewrite contains_cons. intros H. apply orb_false_iff in H as [Hhere Hrest].
  cbn [Py.replace_from]. rewrite Hhere. now rewrite (IH Hrest).
Qed.

Lemma replace_absent (old new s : string) :
  Py.contains old s = false -> Py.replace old new s = s.
Proof.
  intros H. destruct old as [|a old].
  - destruct s; discriminate H.
  - now apply replace_from_absent.
Qed.

(** Inside an occurrence the scan passes over its remaining characters. *)
Lemma replace_from_skip (old new x rest : string) :
  Py.replace_from old new (String.length x) (x ++ rest) = Py.replace_from old new 0 rest.
Proof.
  induction x as [|c x IH]; simpl.
  - destruct rest; reflexivity.
  - exact IH.
Qed.

Lemma startswith_self_app (p s : string) : Py.startswith p (p ++ s) = true.
Proof. induction p as [|a p IH]; simpl; [reflexivity|]. now rewrite Ascii.eqb_refl. Qed.

(** The two equations of [str.replace] for a non-empty [old]: an occurrence
    at the front is replaced and the scan goes on after it; otherwise the
    first character is kept. *)
Lemma replace_at_occurrence (a : ascii) (old new rest : string) :
  Py.replace (String a old) new (String a old ++ rest) =
    new ++ Py.replace (String a old) new rest.
Proof.
  unfold Py.replace.
  change (String a old ++ rest) with (String a (old ++ rest)).
  cbn [Py.replace_from].
  change (String a (old ++ rest)) with (String a old ++ rest).
  rewrite startswith_self_app. f_equal.
  change (String.length (String a old) - 1) with (String.length old - 0).
  rewrite Nat.sub_0_r. apply replace_from_skip.
Qed.

Lemma replace_no_occurrence_here (a : ascii) (old new : string) (c : ascii) (s : string) :
  Py.startswith (String a old) (String c s) = false ->
  Py.replace (String a old) new (String c s) = String c (Py.replace (String a old) new s).
Proof.
  intros H. unfold Py.replace. cbn [Py.replace_from]. now rewrite H.
Qed.

Lemma replace_all_absent (mapping : list (string * string)) (s : string) :
  (forall k v, In (k, v) mapping -> Py.contains ("{{" ++ k ++ "}}") s = false) ->
  replace_all mapping s = s.
Proof.
  induction mapping as [|[k v] mapping IH]; intros H; cbn [replace_all]; [reflexivity|].
  rewrite replace_absent by (apply (H k v); now left).
  apply IH. intros k' v' Hin. apply (H k' v'). now right.
Qed.

(** ** [replace_placeholders] on the object store *)

Lemma all2_Forall2 {A B : Type} (R : A -> B -> Prop) (vs : list A) (js : list B) :
  Heap.all2 R vs js <-> Forall2 R vs js.
Proof.
  revert vs; induction js as [|j js IH]; intros [|v vs]; simpl.
  - split; [constructor | trivial].
  - split; [contradiction | intros H; inversion H].
  - split; [contradiction | intros H; inversion H].
  - rewrite IH. split.
    + intros [Hv Hrest]. now constructor.
    + intros H. inversion H; subst. now split.
Qed.

Lemma denotes_list (h : Heap.heap) (v : Heap.value) (js : list json) :
  Heap.denotes h v (JList js) <->
  exists l items,
    v = Heap.VRef l /\ nth_error h l = Some (Heap.OList items) /\
    Forall2 (Heap.denotes h) items js.
Proof.
  cbn [Heap.denotes]. split; intros [l [items [Hv [Hl H]]]]; exists l, items;
    (split; [exact Hv | split; [exact Hl | now apply all2_Forall2]]).
Qed.

Lemma denotes_dict (h : Heap.heap) (v : Heap.value) (jfs : list (string * json)) :
  Heap.denotes h v (JDict jfs) <->
  exists l fields,
    v = Heap.VRef l /\ nth_error h l = Some (Heap.ODict fields) /\
    Forall2 (field_denotes h) fields jfs.
Proof.
  cbn [Heap.denotes]. split; intros [l [fields [Hv [Hl H]]]]; exists l, fields;
    (split; [exact Hv | split; [exact Hl | now apply all2_Forall2]]).
Qed.

Lemma nth_error_grow {A : Type} (h new : list A) (l : nat) (o : A) :
  nth_error h l = Some o -> nth_error (h ++ new)%list l = Some o.
Proof.
  intros H. rewrite nth_error_app1; [exact H|].
  apply nth_error_Some. congruence.
Qed.

(** Allocation does not change what a value stands for. *)
Lemma denotes_grow (new : Heap.heap) (j : json) :
  forall h v, Heap.denotes h v j -> Heap.denotes (h ++ new)%list v j.
Proof.
  induction j as [| | | | |items IH|fields IH] using json_tree_ind; intros h v H;
    try exact H.
  - apply denotes_list in H as [l [vs [Hv [Hl Hall]]]].
    apply denotes_list. exists l, vs. split; [exact Hv|].
    split; [now apply nth_error_grow|].
    clear Hl Hv. induction Hall as [|x j vs js Hx Hall IHall]; constructor;
      inversion IH as [|j0 js0 Hj Hjs]; subst.
    + now apply Hj.
    + now apply IHall.
  - apply denotes_dict in H as [l [vs [Hv [Hl Hall]]]].
    apply denotes_dict. exists l, vs. split; [exact Hv|].
    split; [now apply nth_error_grow|].
    clear Hl Hv. induction Hall as [|x j vs js Hx Hall IHall]; constructor;
      inversion IH as [|j0 js0 Hj Hjs]; subst.
    + destruct Hx as [Hk Hd]. split; [exact Hk | now apply Hj].
    + now apply IHall.
Qed.

Lemma depth_list_items (js : list json) (n : nat) :
  Heap.depth (JList js) <= S n -> Forall (fun j => Heap.depth j <= n) js.
Proof.
  cbn [Heap.depth]. intros H. apply Nat.succ_le_mono in H.
  induction js as [|j js IH]; constructor.
  - eapply Nat.le_trans; [apply Nat.le_max_l | exact H].
  - apply IH. eapply Nat.le_trans; [apply Nat.le_max_r | exact H].
Qed.

Lemma depth_dict_fields (jfs : list (string * json)) (n : nat) :
  Heap.depth (JDict jfs) <= S n -> Forall (fun jf => Heap.depth (snd jf) <= n) jfs.
Proof.
  cbn [Heap.depth]. intros H. apply Nat.succ_le_mono in H.
  induction jfs as [|[k j] jfs IH]; constructor.
  - eapply Nat.le_trans; [apply Nat.le_max_l | exact H].
  - apply IH. eapply Nat.le_trans; [apply Nat.le_max_r | exact H].
Qed.

Lemma depth_positive (j : json) : 1 <= Heap.depth j.
Proof. destruct j; simpl; lia. Qed.

Lemma each_item_renders (r : Heap.heap -> Heap.value -> option (Heap.heap * Heap.value))
    (f : json -> json) (js : list json) :
  Forall (renders r f) js ->
  forall h items, Forall2 (Heap.denotes h) items js ->
    exists new items',
      Heap.each_item r h items = Some ((h ++ new)%list, items') /\
      Forall2 (Heap.denotes (h ++ new)%list) items' (map f js).
Proof.
  induction 1 as [|j js Hj Hjs IH]; intros h items Hall;
    inversion Hall as [|x j0 rest js0 Hx Hall']; subst.
  - exists [], []. rewrite app_nil_r. split; [reflexivity | constructor].
  - destruct (Hj h _ Hx) as [new1 [x' [Hr Hx']]].
    destruct (IH (h ++ new1)%list rest) as [new2 [rest' [Hrest Hrest']]].
    { eapply Forall2_impl; [|exact Hall']. intros a b. apply denotes_grow. }
    exists (new1 ++ new2)%list, (x' :: rest'). rewrite app_assoc.
    split.
    + simpl. now rewrite Hr, Hrest.
    + simpl. constructor; [now apply denotes_grow | exact Hrest'].
Qed.

Lemma each_field_renders (r : Heap.heap -> Heap.value -> option (Heap.heap * Heap.value))
    (f : json -> json) (jfs : list (string * json)) :
  Forall (fun jf => renders r f (snd jf)) jfs ->
  forall h fields, Forall2 (field_denotes h) fields jfs ->
    exists new fields',
      Heap.each_field r h fields = Some ((h ++ new)%list, fields') /\
      Forall2 (field_denotes (h ++ new)%list) fields' (map (fun jf => (fst jf, f (snd jf))) jfs).
Proof.
  induction 1 as [|[k j] jfs Hj Hjs IH]; intros h fields Hall;
    inversion Hall as [|[k' x] jf0 rest jfs0 [Hk Hd] Hall']; subst.
  - exists [], []. rewrite app_nil_r. split; [reflexivity | constructor].
  - simpl in Hk, Hd, Hj. subst k'.
    destruct (Hj h _ Hd) as [new1 [x' [Hr Hx']]].
    destruct (IH (h ++ new1)%list rest) as [new2 [rest' [Hrest Hrest']]].
    { eapply Forall2_impl; [|exact Hall']. intros a b [Hab Hd'].
      split; [exact Hab | now apply denotes_grow]. }
    exists (new1 ++ new2)%list, ((k, x') :: rest'). rewrite app_assoc.
    split.
    + simpl. now rewrite Hr, Hrest.
    + simpl. constructor; [|exact Hrest'].
      split; [reflexivity | now apply denotes_grow].
Qed.

Lemma nth_error_last {A : Type} (h : list A) (o : A) :
  nth_error (h ++ [o])%list (List.length h) = Some o.
Proof. rewrite nth_error_app2, Nat.sub_diag; [reflexivity | lia]. Qed.

(** Rendering on the store succeeds with enough fuel, only allocates, and
    yields a value that stands for the rendered tree. *)
Lemma heap_replace_placeholders_renders (mapping : list (string * string)) (j : json) :
  forall fuel, Heap.depth j <= fuel ->
    renders (Heap.replace_placeholders fuel mapping)
      (fun j => replace_placeholders j mapping) j.
Proof.
  induction j as [| | | | |js IH|jfs IH] using json_tree_ind;
    intros [|fuel] Hfuel h v Hd; try (simpl in Hfuel; lia);
    try (cbn [Heap.denotes] in Hd; subst v; exists []; eexists; rewrite app_nil_r;
         split; reflexivity).
  - apply denotes_list in Hd as [l [items [-> [Hl Hall]]]].
    destruct (each_item_renders (Heap.replace_placeholders fuel mapping)
                (fun j => replace_placeholders j mapping) js) with (h := h) (items := items)
      as [new [items' [Heach Hitems']]]; [|exact Hall|].
    { pose proof (depth_list_items js fuel Hfuel) as Hdepth.
      clear Hall Hl Hfuel. induction IH as [|j js Hj Hjs IHjs]; constructor;
        inversion Hdepth; subst; [now apply Hj | now apply IHjs]. }
    exists (new ++ [Heap.OList items'])%list, (Heap.VRef (List.length (h ++ new)%list)).
    rewrite app_assoc. split.
    + cbn [Heap.replace_placeholders]. rewrite Hl, Heach. reflexivity.
    + rewrite replace_placeholders_list. apply denotes_list.
      exists (List.length (h ++ new)%list), items'.
      split; [reflexivity|]. split; [apply nth_error_last|].
      eapply Forall2_impl; [|exact Hitems']. intros a b. apply denotes_grow.
  - apply denotes_dict in Hd as [l [fields [-> [Hl Hall]]]].
    destruct (each_field_renders (Heap.replace_placeholders fuel mapping)
                (fun j => replace_placeholders j mapping) jfs) with (h := h) (fields := fields)
      as [new [fields' [Heach Hfields']]]; [|exact Hall|].
    { pose proof (depth_dict_fields jfs fuel Hfuel) as Hdepth.
      clear Hall Hl Hfuel. induction IH as [|j js Hj Hjs IHjs]; constructor;
        inversion Hdepth; subst; [now apply Hj | now apply IHjs]. }
    exists (new ++ [Heap.ODict fields'])%list, (Heap.VRef (List.length (h ++ new)%list)).
    rewrite app_assoc. split.
    + cbn [Heap.replace_placeholders]. rewrite Hl, Heach. reflexivity.
    + rewrite replace_placeholders_dict. apply denotes_dict.
      exists (List.length (h ++ new)%list), fields'.
      split; [reflexivity|]. split; [apply nth_error_last|].
      eapply Forall2_impl; [|exact Hfields']. intros a b [Hab Hd'].
      split; [exact Hab | now apply denotes_grow].
Qed.

Lemma replace_all_fold (mapping : list (string * string)) (s : string) :
  replace_all mapping s =
    fold_left (fun out kv => Py.replace ("{{" ++ fst kv ++ "}}") (snd kv) out) mapping s.
Proof.
  revert s; induction mapping as [|[k v] mapping IH]; intros s; [reflexivity|].
  cbn [replace_all fold_left fst snd]. apply IH.
Qed.

Example replace_placeholders_samples :
  replace_placeholders
    (JDict [("a", JStr "{{x}}"); ("b", JList [JStr "{{y}}"; JInt 1])]) [("x", "1"); ("y", "2")] =
    JDict [("a", JStr "1"); ("b", JList [JStr "2"; JInt 1])] /\
  replace_placeholders
    (JDict [("a", JStr "{{x}}"); ("b", JList [JDict [("c", JStr "{{y}}")]])])
    [("x", "1"); ("y", "2")] =
    JDict [("a", JStr "1"); ("b", JList [JDict [("c", JStr "2")]])] /\
  replace_placeholders (JStr "{{x}} and {{z}}") [("x", "1")] = JStr "1 and {{z}}" /\
  substitute_claimed [("x", "1"); ("y", "2")] 0 "{{x}}-{{y}}-{{z}}" = "1-2-{{z}}".
Proof. repeat split. Qed.

(** C7, as stated, fails: the replacements are made binding after binding,
    on the text as rewritten so far.  With the bindings [x -> {{y}}] and
    [y -> 2], the placeholder [{{x}}] does not end up replaced by the value
    bound to [x]; and with the same bindings listed the other way round the
    result still holds the placeholder of the bound key [y]. *)
Lemma replace_placeholders_rewrites_values :
  replace_placeholders (JStr "{{x}}") [("x", "{{y}}"); ("y", "2")] = JStr "2" /\
  substitute_claimed [("x", "{{y}}"); ("y", "2")] 0 "{{x}}" = "{{y}}" /\
  replace_placeholders (JStr "{{x}}") [("y", "2"); ("x", "{{y}}")] = JStr "{{y}}".
Proof. repeat split. Qed.

(** C7 (amended). In a string the bindings are applied one after the other,
    in the order of the mapping: for each in turn, every occurrence of its
    placeholder in the text as rewritten so far is replaced by its value; a
    string in which no placeholder of a binding occurs is returned as it is.
    A sequence or mapping is rebuilt with each element or value rendered,
    keys kept; any other scalar is passed on.  On the object store, rendering
    a template succeeds, only allocates new objects, yields the rendered
    tree, and leaves the template standing for the same tree as before. *)
Theorem replace_placeholders_spec (mapping : list (string * string)) (obj : json) :
  (forall s,
     replace_placeholders (JStr s) mapping =
       JStr (fold_left (fun out kv => Py.replace ("{{" ++ fst kv ++ "}}") (snd kv) out)
               mapping s)) /\
  (forall s,
     (forall k v, In (k, v) mapping -> Py.contains ("{{" ++ k ++ "}}") s = false) ->
     replace_placeholders (JStr s) mapping = JStr s) /\
  (forall items,
     replace_placeholders (JList items) mapping =
       JList (map (fun x => replace_placeholders x mapping) items)) /\
  (forall fields,
     replace_placeholders (JDict fields) mapping =
       JDict (map (fun kv => (fst kv, replace_placeholders (snd kv) mapping)) fields)) /\
  (replace_placeholders JNull mapping = JNull /\
   (forall b, replace_placeholders (JBool b) mapping = JBool b) /\
   (forall z, replace_placeholders (JInt z) mapping = JInt z) /\
   (forall r, replace_placeholders (JFloat r) mapping = JFloat r)) /\
  (forall h v,
     Heap.denotes h v obj ->
     exists new v',
       Heap.replace_placeholders (Heap.depth obj) mapping h v = Some ((h ++ new)%list, v') /\
       Heap.denotes (h ++ new)%list v' (replace_placeholders obj mapping) /\
       Heap.denotes (h ++ new)%list v obj).
Proof.
  split; [intros s; simpl; now rewrite replace_all_fold|].
  split; [intros s H; simpl; now rewrite replace_all_absent|].
  split; [intros items; apply replace_placeholders_list|].
  split; [intros fields; apply replace_placeholders_dict|].
  split; [repeat split|].
  intros h v Hd.
  destruct (heap_replace_placeholders_renders mapping obj (Heap.depth obj) (le_n _) h v Hd)
    as [new [v' [Hr Hv']]].
  exists new, v'. split; [exact Hr|]. split; [exact Hv' | now apply denotes_grow].
Qed.

Lemma example_template_denoted : Heap.denotes example_store (Heap.VRef 1) example_template.
Proof.
  simpl. exists 1, [("a", Heap.VStr "{{x}}"); ("b", Heap.VRef 0)].
  repeat split. exists 0, [Heap.VStr "{{y}}"; Heap.VInt 1]. repeat split.
Qed.

Lemma replace_placeholders_spec_witness :
  exists new v',
    Heap.replace_placeholders 3 [("x", "1"); ("y", "2")] example_store (Heap.VRef 1) =
      Some ((example_store ++ new)%list, v') /\
    Heap.denotes (example_store ++ new)%list v'
      (JDict [("a", JStr "1"); ("b", JList [JStr "2"; JInt 1])]) /\
    Heap.denotes (example_store ++ new)%list (Heap.VRef 1) example_template.
Proof.
  destruct (replace_placeholders_spec [("x", "1"); ("y", "2")] example_template)
    as [_ [_ [_ [_ [_ H]]]]].
  exact (H example_store (Heap.VRef 1) example_template_denoted).
Defined.

(** ** Runs of [call_cloud_api] against a mocked exchange *)

Example call_cloud_api_custom_template :
  prepare mock_loads custom_env "hello" "world" = Ok (custom_request, true, "data.text") /\
  call_cloud_api mock_loads
    (mock_exchange (JDict [("data", JDict [("text", JStr "custom-ok")])]))
    custom_env "hello" "world" = Ok "custom-ok".
Proof. split; reflexivity. Qed.

Example call_cloud_api_default_openai :
  call_cloud_api mock_loads
    (mock_exchange
       (JDict [("choices",
                JList [JDict [("message", JDict [("content", JStr "# Daily Report - 2026-02-17")])]])]))
    openai_env "u" "s" = Ok "# Daily Report - 2026-02-17".
Proof. reflexivity. Qed.

Example call_cloud_api_failures :
  call_cloud_api mock_loads (mock_exchange (JDict [])) (env_of []) "u" "s" =
    Err (MissingEnv "REPORT_API_URL") /\
  call_cloud_api mock_loads (mock_exchange (JDict [("other", JInt 1)])) custom_env "u" "s" =
    Err (UnableToExtract
           [ "data.text"; "choices.0.message.final"; "choices.0.message.answer";
             "choices.0.message.content"; "choices.0.text"; "response.output_text";
             "output_text"; "text" ]
           (KeyError "text")) /\
  call_cloud_api (fun _ => None) (mock_exchange (JDict [])) custom_env "u" "s" =
    Err InvalidTemplate.
Proof. repeat split. Qed.

(** An answer that is nothing but a think block: every stage succeeds and
    the call still fails, as C4 says. *)
Lemma call_cloud_api_never_empty_witness :
  call_cloud_api mock_loads
    (mock_exchange (JDict [("data", JDict [("text", JStr "<think>x</think>")])]))
    custom_env "hello" "world" = Err EmptyContent.
Proof.
  destruct (call_cloud_api_never_empty mock_loads
              (mock_exchange (JDict [("data", JDict [("text", JStr "<think>x</think>")])]))
              custom_env "hello" "world") as [_ H].
  specialize (H custom_request true "data.text"
                (JDict [("data", JDict [("text", JStr "<think>x</think>")])])
                eq_refl eq_refl).
  simpl in H. destruct H as [_ H]. apply H. reflexivity.
Defined.

(** * Properties of the rest of the script *)

(** ** [getenv] *)

(** X1. A required setting is never handed back blank: [getenv] with
    [required] either fails, naming the variable, or returns a value that is
    not blank, whatever the default. *)
Theorem getenv_required_not_blank (env : environ) (name : string) (default : option string) :
  match getenv env name default true with
  | Ok v => Py.strip v <> ""
  | Err e => e = MissingEnv name
  end.
Proof.
  unfold getenv.
  set (value := match env name with
                | Some v => if negb (Py.nonempty v) || String.eqb (Py.strip v) "" then default
                            else Some v
                | None => default
                end).
  destruct value as [v|]; simpl; [|reflexivity].
  destruct (String.eqb (Py.strip v) "") eqn:E; [reflexivity|].
  now apply String.eqb_neq.
Qed.

(** X2. A value that is set but blank counts as unset, and a value that is
    not blank is returned as it stands, with its outer blanks. *)
Theorem getenv_blank_is_unset (env : environ) (name v : string)
    (default : option string) (required : bool) :
  env name = Some v ->
  (Py.strip v = "" ->
   getenv env name default required = getenv (fun _ => None) name default required) /\
  (Py.strip v <> "" -> getenv env name default required = Ok v).
Proof.
  intros Hv. unfold getenv. rewrite Hv. split; intros H.
  - rewrite H. simpl. now rewrite orb_true_r.
  - apply String.eqb_neq in H.
    destruct v as [|c v]; [discriminate H|].
    cbn [Py.nonempty negb orb]. rewrite H. cbv zeta. rewrite H.
    now rewrite andb_false_r.
Qed.

Lemma getenv_blank_is_unset_witness :
  getenv (env_of [("REPORT_API_KEY", "  ")]) "REPORT_API_KEY" (Some "d") false = Ok "d" /\
  getenv (env_of [("REPORT_API_KEY", " k ")]) "REPORT_API_KEY" (Some "d") false = Ok " k ".
Proof.
  split.
  - rewrite (proj1 (getenv_blank_is_unset (env_of [("REPORT_API_KEY", "  ")])
                      "REPORT_API_KEY" "  " (Some "d") false eq_refl) eq_refl).
    reflexivity.
  - apply (proj2 (getenv_blank_is_unset (env_of [("REPORT_API_KEY", " k ")])
                    "REPORT_API_KEY" " k " (Some "d") false eq_refl)).
    discriminate.
Defined.

(** ** [extract_by_path] and [_extract_first_available] *)

Lemma split_nonempty (sep : ascii) (s : string) : exists h t, Py.split sep s = h :: t.
Proof.
  induction s as [|c s [h [t IH]]]; simpl; [now exists "", []|].
  rewrite IH. destruct (Ascii.eqb c sep); eauto.
Qed.

Lemma split_app (sep : ascii) (p q : string) :
  Py.split sep (p ++ String sep q) = (Py.split sep p ++ Py.split sep q)%list.
Proof.
  induction p as [|c p IH].
  - destruct (split_nonempty sep q) as [h [t E]]. simpl. now rewrite E, Ascii.eqb_refl.
  - change (String c p ++ String sep q) with (String c (p ++ String sep q)).
    cbn [Py.split]. rewrite IH.
    destruct (split_nonempty sep p) as [h [t E]]. rewrite E. simpl.
    destruct (Ascii.eqb c sep); reflexivity.
Qed.

Lemma walk_app (data : json) (parts1 parts2 : list string) :
  walk data (parts1 ++ parts2) = (mid <- walk data parts1 ;; walk mid parts2).
Proof.
  revert data; induction parts1 as [|part parts1 IH]; intros data; [reflexivity|].
  simpl. destruct (navigate data part) as [cur|e]; simpl; [apply IH | reflexivity].
Qed.

(** X3. Paths compose: walking [p.q] is walking [p] and then, from the value
    reached, walking [q], failures included, for non-empty [p] and [q]. *)
Theorem extract_by_path_compose (data : json) (p q : string) :
  p <> "" -> q <> "" ->
  extract_by_path data (p ++ "." ++ q) =
    (mid <- extract_by_path data p ;; extract_by_path mid q).
Proof.
  intros Hp Hq. unfold extract_by_path.
  destruct p as [|a p]; [contradiction|]. destruct q as [|b q]; [contradiction|].
  change (String a p ++ "." ++ String b q) with (String a (p ++ String "." (String b q))).
  cbn [Py.nonempty negb].
  change (String a (p ++ String "." (String b q))) with (String a p ++ String "." (String b q)).
  rewrite split_app, walk_app.
  destruct (walk data (Py.split "." (String a p))); reflexivity.
Qed.

Lemma extract_by_path_compose_witness :
  extract_by_path (JDict [("a", JList [JDict [("b", JInt 1)]])]) ("a.0" ++ "." ++ "b") =
    (mid <- extract_by_path (JDict [("a", JList [JDict [("b", JInt 1)]])]) "a.0" ;;
     extract_by_path mid "b").
Proof.
  apply extract_by_path_compose; discriminate.
Defined.

Lemma candidate_paths_has_fallback (paths_csv p : string) :
  In p fallback_paths -> In p (candidate_paths paths_csv).
Proof.
  intros Hp. rewrite candidate_paths_eq. apply in_or_app.
  destruct (Py.mem p (configured_paths paths_csv)) eqn:E.
  - left. now apply mem_In.
  - right. apply filter_In. split; [exact Hp | now rewrite E].
Qed.

Lemma first_resolved_some (data : json) (paths : list string) (p : string) (v : json) :
  In p paths -> extract_by_path data p = Ok v -> exists v', first_resolved data paths = Some v'.
Proof.
  induction paths as [|q paths IH]; intros Hin Hp; [contradiction|]. simpl.
  destruct (extract_by_path data q) as [w|e] eqn:Hq; [eauto|].
  destruct Hin as [->|Hin]; [congruence | now apply IH].
Qed.

(** X4. The fallbacks cannot be configured away: when one of the eight
    built-in paths resolves on the response, extraction succeeds whatever
    paths are configured. *)
Theorem fallback_always_tried (data : json) (paths_csv p : string) (v : json) :
  In p fallback_paths -> extract_by_path data p = Ok v ->
  exists v', _extract_first_available data paths_csv = Ok v'.
Proof.
  intros Hin Hp.
  destruct (first_resolved_some data (candidate_paths paths_csv) p v) as [v' Hv'];
    [now apply candidate_paths_has_fallback | exact Hp |].
  pose proof (extract_first_available_spec data paths_csv) as H.
  rewrite Hv' in H. eauto.
Qed.

Lemma fallback_always_tried_witness :
  exists v', _extract_first_available (JDict [("text", JStr "t")]) "no.such.path" = Ok v'.
Proof.
  apply (fallback_always_tried (JDict [("text", JStr "t")]) "no.such.path" "text" (JStr "t")).
  - simpl. intuition.
  - reflexivity.
Defined.

(** X5. The usual chat-completion answer: when the response holds the string
    [c] at [choices.0.message.content] and the paths are left at their
    default, the text handed back is [c] trimmed (and stripped of think blocks
    when stripping is on), whatever else the response holds; if that text is
    empty the call fails. *)
Theorem openai_content_is_returned (strip_think : bool)
    (top first message : list (string * json)) (rest : list json) (c : string) :
  dict_get top "choices" = Some (JList (JDict first :: rest)) ->
  dict_get first "message" = Some (JDict message) ->
  dict_get message "content" = Some (JStr c) ->
  finish strip_think (JDict top) "choices.0.message.content" =
    (if Py.nonempty (if strip_think then _strip_think_blocks (Py.strip c) else Py.strip c)
     then Ok (if strip_think then _strip_think_blocks (Py.strip c) else Py.strip c)
     else Err EmptyContent).
Proof.
  intros Htop Hfirst Hmessage.
  assert (Hx : extract_by_path (JDict top) "choices.0.message.content" = Ok (JStr c)).
  { change (extract_by_path (JDict top) "choices.0.message.content")
      with (walk (JDict top) ["choices"; "0"; "message"; "content"]).
    cbn [walk navigate]. rewrite Htop. cbn [of_option bind walk navigate].
    change (Py.int "0") with (Some 0%Z). cbn [of_option bind].
    change (Py.getitem (JDict first :: rest) 0) with (Some (JDict first)).
    cbn [of_option bind walk navigate]. rewrite Hfirst. cbn [of_option bind walk navigate].
    rewrite Hmessage. reflexivity. }
  pose proof (finish_spec strip_think (JDict top) "choices.0.message.content") as H.
  change (candidate_paths "choices.0.message.content")
    with ("choices.0.message.content" ::
          [ "choices.0.message.final"; "choices.0.message.answer"; "choices.0.text";
            "response.output_text"; "output_text"; "data.text"; "text" ]) in H.
  cbn [first_resolved] in H. rewrite Hx in H. rewrite H.
  unfold final_text. cbn [_normalize_to_text py_str].
  destruct strip_think; reflexivity.
Qed.

Lemma openai_content_is_returned_witness :
  finish true
    (JDict [("id", JStr "r1");
            ("choices", JList [JDict [("index", JInt 0);
                                      ("message", JDict [("role", JStr "assistant");
                                                         ("content", JStr " ok ")])]])])
    "choices.0.message.content" = Ok "ok".
Proof.
  apply (openai_content_is_returned true
           [("id", JStr "r1");
            ("choices", JList [JDict [("index", JInt 0);
                                      ("message", JDict [("role", JStr "assistant");
                                                         ("content", JStr " ok ")])]])]
           [("index", JInt 0);
            ("message", JDict [("role", JStr "assistant"); ("content", JStr " ok ")])]
           [("role", JStr "assistant"); ("content", JStr " ok ")] [] " ok ");
    reflexivity.
Defined.

(** ** [_normalize_to_text] *)

Lemma rstrip_app_last (x : string) (c : ascii) :
  Py.is_space c = false -> Py.rstrip (x ++ String c "") = x ++ String c "".
Proof.
  intros Hc. induction x as [|a x IH].
  - simpl. now rewrite Hc.
  - change (String a x ++ String c "") with (String a (x ++ String c "")).
    rewrite rstrip_cons, IH. destruct x; reflexivity.
Qed.

Lemma json_dumps_dict_trimmed (fields : list (string * json)) :
  Py.strip (json_dumps (JDict fields)) = json_dumps (JDict fields).
Proof.
  rewrite json_dumps_dict.
  set (body := Py.join ", " _).
  unfold Py.strip.
  change ("{" ++ body ++ "}") with (String "{" body ++ String "}" "").
  rewrite rstrip_app_last by reflexivity. reflexivity.
Qed.

Lemma dict_get_In (d : list (string * json)) (k : string) (v : json) :
  dict_get d k = Some v -> In (k, v) d.
Proof.
  induction d as [|[k' v'] d IH]; simpl; [discriminate|].
  destruct (String.eqb k' k) eqn:E.
  - apply String.eqb_eq in E. intros H. inversion H. subst. now left.
  - intros H. right. now apply IH.
Qed.

Lemma usable_field (P : json -> Prop) (fields : list (string * json)) (k : string) :
  Forall (fun kv => P (snd kv)) fields -> usable fields k = true ->
  P (dict_get_or_empty fields k).
Proof.
  intros Hall Hk. unfold usable, dict_get_or_empty in *.
  destruct (dict_get fields k) as [v|] eqn:E; [|discriminate].
  apply dict_get_In in E. rewrite Forall_forall in Hall. exact (Hall (k, v) E).
Qed.

Lemma normalize_to_text_strip (strip_think : bool) (value : json) :
  Py.strip (_normalize_to_text strip_think value) = _normalize_to_text strip_think value.
Proof.
  induction value as [| | | | |items IH|fields IH] using json_tree_ind;
    try (cbn [_normalize_to_text]; apply strip_idempotent).
  change (_normalize_to_text strip_think (JDict fields)) with
    (match first_text (_normalize_to_text strip_think) fields answer_keys with
     | Some text => text
     | None =>
         match field_text (_normalize_to_text strip_think) fields "message" with
         | Some text => text
         | None => json_dumps (JDict fields)
         end
     end).
  rewrite first_text_spec, field_text_spec.
  pose (P := fun v => Py.strip (_normalize_to_text strip_think v) =
                      _normalize_to_text strip_think v).
  destruct (find (usable fields) answer_keys) as [k|] eqn:Hfind.
  - apply find_some in Hfind as [_ Hk].
    exact (usable_field P fields k IH Hk).
  - destruct (usable fields "message") eqn:Hm.
    + exact (usable_field P fields "message" IH Hm).
    + apply json_dumps_dict_trimmed.
Qed.

(** X6. Normalised text is trimmed: whatever the value and the flag, the
    text [_normalize_to_text] returns has no blank at either end; so
    normalising it once more, as a string, gives it back. *)
Theorem normalize_is_trimmed (strip_think : bool) (value : json) :
  Py.strip (_normalize_to_text strip_think value) = _normalize_to_text strip_think value /\
  _normalize_to_text strip_think (JStr (_normalize_to_text strip_think value)) =
    _normalize_to_text strip_think value.
Proof.
  split; [apply normalize_to_text_strip|].
  cbn [_normalize_to_text py_str]. apply normalize_to_text_strip.
Qed.

(** ** [_strip_think_blocks] *)

Lemma shrinking_le (f : string -> string) (s : string) :
  shrinking f -> String.length (f s) <= String.length s.
Proof. intros H. destruct (H s) as [E|L]; [rewrite E|]; lia. Qed.

(** X7. Stripped text is tidy, and stripping never adds anything: the
    result holds no run of three newlines, has no blank at either end, and is
    at most as long as the text given. *)
Theorem strip_think_blocks_tidy (text : string) :
  no_blank_run (_strip_think_blocks text) = true /\
  Py.strip (_strip_think_blocks text) = _strip_think_blocks text /\
  String.length (_strip_think_blocks text) <= String.length text.
Proof.
  unfold _strip_think_blocks, collapse_blank_lines. fold two_newlines.
  set (out := remove_think text).
  destruct (sub_blank_no_run (String.length out) out (le_n _)) as [Hno _].
  split; [|split].
  - unfold Py.strip. now apply no_blank_run_lstrip, no_blank_run_rstrip.
  - apply strip_idempotent.
  - pose proof (collapse_blank_lines_length out) as H1.
    unfold collapse_blank_lines in H1. fold two_newlines in H1.
    pose proof (shrinking_le remove_think text remove_think_shrinking) as H2.
    fold out in H2. lia.
Qed.

Lemma finish_trimmed (strip_think : bool) (response : json) (paths_csv text : string) :
  finish strip_think response paths_csv = Ok text -> Py.strip text = text.
Proof.
  pose proof (finish_spec strip_think response paths_csv) as H.
  destruct (first_resolved response (candidate_paths paths_csv)) as [value|].
  - rewrite H. destruct (Py.nonempty (final_text strip_think value)); [|discriminate].
    intros E. inversion E. unfold final_text. destruct strip_think.
    + unfold _strip_think_blocks, collapse_blank_lines. apply strip_idempotent.
    + apply normalize_to_text_strip.
  - destruct H as [e [-> _]]. discriminate.
Qed.

(** X8. [call_cloud_api] hands back trimmed text only: a returned string has
    no blank at either end, whether stripping is on or off. *)
Theorem call_cloud_api_text_is_trimmed
    (json_loads : string -> option json) (exchange : request -> result error json)
    (env : environ) (user_prompt system_prompt : string) :
  forall text,
    call_cloud_api json_loads exchange env user_prompt system_prompt = Ok text ->
    Py.strip text = text.
Proof.
  intros text. unfold call_cloud_api.
  destruct (prepare json_loads env user_prompt system_prompt) as [[[req st] csv]|e];
    simpl; [|discriminate].
  destruct (exchange req) as [response|e]; simpl; [|discriminate].
  apply finish_trimmed.
Qed.

(** An answer with blanks around it: the text comes back without them. *)
Lemma call_cloud_api_text_is_trimmed_witness :
  call_cloud_api mock_loads
    (mock_exchange (JDict [("data", JDict [("text", JStr "  custom-ok  ")])]))
    custom_env "hello" "world" = Ok "custom-ok" /\
  Py.strip "custom-ok" = "custom-ok".
Proof.
  split; [reflexivity|].
  apply (call_cloud_api_text_is_trimmed mock_loads
           (mock_exchange (JDict [("data", JDict [("text", JStr "  custom-ok  ")])]))
           custom_env "hello" "world").
  reflexivity.
Defined.

(** *** Texts without the characters a pattern needs *)

Lemma has_char_cons (c a : ascii) (s : string) :
  has_char c (String a s) = false -> Ascii.eqb a c = false /\ has_char c s = false.
Proof. simpl. intros H. now apply orb_false_iff in H. Qed.

Lemma greedy_dead (c : ascii) (p : ascii -> bool) (k : Re.cont) (s : string) :
  dead_without c k -> has_char c s = false ->
  forall n prev, Re.greedy p n prev s k = None.
Proof.
  intros Hk. induction s as [|a s IH]; intros Hs n prev.
  - simpl. destruct n; [now apply Hk | reflexivity].
  - cbn [Re.greedy].
    assert (Hstop : match n with 0 => k prev (String a s) | S _ => None end = None)
      by (destruct n; [now apply Hk | reflexivity]).
    rewrite Hstop. destruct (p a); [|reflexivity].
    apply has_char_cons in Hs as [_ Hs]. now rewrite (IH Hs).
Qed.

Lemma lazy_dead (c : ascii) (p : ascii -> bool) (k : Re.cont) (s : string) :
  dead_without c k -> has_char c s = false ->
  forall prev, Re.lazy p prev s k = None.
Proof.
  intros Hk. induction s as [|a s IH]; intros Hs prev; cbn [Re.lazy];
    rewrite (Hk _ _ Hs); simpl; [reflexivity|].
  destruct (p a); [|reflexivity].
  apply has_char_cons in Hs as [_ Hs]. now apply IH.
Qed.

(** A pattern calls its continuation on the rest of the text only, so it
    cannot succeed where the continuation cannot. *)
Lemma exec_dead (ignorecase : bool) (c : ascii) (r : Re.regex) :
  forall k prev s,
    dead_without c k -> has_char c s = false -> Re.exec ignorecase r prev s k = None.
Proof.
  induction r as [a|p|n p|p| | |r1 IH1 r2 IH2|r1 IH1 r2 IH2]; intros k prev s Hk Hs;
    cbn [Re.exec].
  - destruct s as [|x s]; [reflexivity|]. apply has_char_cons in Hs as [_ Hs].
    destruct (Re.chr_eq ignorecase a x); [now apply Hk | reflexivity].
  - destruct s as [|x s]; [reflexivity|]. apply has_char_cons in Hs as [_ Hs].
    destruct (p x); [now apply Hk | reflexivity].
  - now apply (greedy_dead c).
  - now apply (lazy_dead c).
  - destruct prev as [x|]; [destruct (Ascii.eqb x Py.newline)|]; try reflexivity; now apply Hk.
  - destruct s as [|x s]; [now apply Hk|].
    destruct (Ascii.eqb x Py.newline); [now apply Hk | reflexivity].
  - apply IH1; [|exact Hs]. intros prev' s' Hs'. now apply IH2.
  - rewrite IH1, IH2 by assumption. reflexivity.
Qed.

Lemma exec_needs (ignorecase : bool) (c : ascii) (r : Re.regex) :
  uncased c -> needs c r = true ->
  forall k prev s, has_char c s = false -> Re.exec ignorecase r prev s k = None.
Proof.
  intros Hc.
  induction r as [a|p|n p|p| | |r1 IH1 r2 IH2|r1 IH1 r2 IH2]; intros Hr k prev s Hs;
    cbn [needs] in Hr; try discriminate; cbn [Re.exec].
  - apply Ascii.eqb_eq in Hr. subst a.
    destruct s as [|x s]; [reflexivity|]. apply has_char_cons in Hs as [Hx _].
    destruct (Re.chr_eq ignorecase c x) eqn:E; [|reflexivity].
    unfold Re.chr_eq in E. destruct ignorecase.
    + apply Ascii.eqb_eq, Hc in E. subst x. now rewrite Ascii.eqb_refl in Hx.
    + congruence.
  - apply orb_true_iff in Hr as [Hr|Hr].
    + now apply IH1.
    + apply exec_dead with (c := c); [|exact Hs].
      intros prev' s' Hs'. now apply IH2.
  - apply andb_true_iff in Hr as [Hr1 Hr2]. now rewrite IH1, IH2.
Qed.

(** Where the character a pattern needs is absent, [re.sub] changes nothing. *)
Lemma sub_absent (ignorecase : bool) (c : ascii) (r : Re.regex) (repl s : string) :
  uncased c -> needs c r = true -> has_char c s = false ->
  Re.sub ignorecase r repl s = s.
Proof.
  intros Hc Hr. unfold Re.sub. generalize (@None ascii).
  induction s as [|a s IH]; intros prev Hs; [reflexivity|].
  cbn [Re.sub_from]. unfold Re.match_at.
  rewrite (exec_needs ignorecase c r Hc Hr _ _ _ Hs).
  apply has_char_cons in Hs as [_ Hs]. now rewrite (IH _ Hs).
Qed.

Lemma uncased_angle : uncased "<".
Proof.
  intros x. destruct x as [[] [] [] [] [] [] [] []]; vm_compute; intros H;
    first [reflexivity | discriminate H].
Qed.

Lemma uncased_backtick : uncased "`".
Proof.
  intros x. destruct x as [[] [] [] [] [] [] [] []]; vm_compute; intros H;
    first [reflexivity | discriminate H].
Qed.

Lemma uncased_colon : uncased ":".
Proof.
  intros x. destruct x as [[] [] [] [] [] [] [] []]; vm_compute; intros H;
    first [reflexivity | discriminate H].
Qed.

Lemma remove_think_plain (text : string) :
  has_char "<" text = false -> has_char "`" text = false -> has_char ":" text = false ->
  remove_think text = text.
Proof.
  intros Ha Hb Hc. unfold remove_think, patterns. cbn [fold_left].
  rewrite (sub_absent true "<" think_span "" text uncased_angle eq_refl Ha).
  rewrite (sub_absent true "<" reasoning_span "" text uncased_angle eq_refl Ha).
  rewrite (sub_absent true "`" fenced_block "" text uncased_backtick eq_refl Hb).
  exact (sub_absent true ":" reasoning_line "" text uncased_colon eq_refl Hc).
Qed.

(** X9. Text without markers is left alone: a text that holds no [<], no
    backtick and no colon goes through the removal rules unchanged, so it is
    only tidied; and if it is tidy already (no run of three newlines, no
    blank at either end) [_strip_think_blocks] returns it as it is. *)
Theorem strip_think_blocks_plain_text (text : string) :
  has_char "<" text = false -> has_char "`" text = false -> has_char ":" text = false ->
  _strip_think_blocks text = collapse_blank_lines text /\
  (no_blank_run text = true -> Py.strip text = text -> _strip_think_blocks text = text).
Proof.
  intros Ha Hb Hc. unfold _strip_think_blocks.
  rewrite (remove_think_plain text Ha Hb Hc). split; [reflexivity|].
  intros Hno Htrim. unfold collapse_blank_lines. fold two_newlines.
  now rewrite (sub_blank_fixed text Hno).
Qed.

Lemma strip_think_blocks_plain_text_witness :
  _strip_think_blocks "## Metrics" = "## Metrics".
Proof.
  destruct (strip_think_blocks_plain_text "## Metrics" eq_refl eq_refl eq_refl) as [_ H].
  apply H; reflexivity.
Defined.

(** ** [replace_placeholders] *)

Lemma startswith_prefix (a b s : string) :
  Py.startswith (a ++ b) s = true -> Py.startswith a s = true.
Proof.
  revert s. induction a as [|x a IH]; intros s H; [reflexivity|].
  destruct s as [|y s]; simpl in *; [discriminate|].
  apply andb_true_iff in H as [Hxy H]. now rewrite Hxy, (IH _ H).
Qed.

Lemma contains_prefix (a b s : string) :
  Py.contains (a ++ b) s = true -> Py.contains a s = true.
Proof.
  induction s as [|c s IH]; intros H.
  - destruct a; [reflexivity | discriminate H].
  - rewrite contains_cons in *. apply orb_true_iff in H as [H|H]; apply orb_true_iff.
    + left. exact (startswith_prefix a b _ H).
    + right. exact (IH H).
Qed.

Lemma replace_all_no_opening (mapping : list (string * string)) (s : string) :
  Py.contains "{{" s = false -> replace_all mapping s = s.
Proof.
  intros H. apply replace_all_absent. intros k v _.
  destruct (Py.contains ("{{" ++ k ++ "}}") s) eqn:E; [|reflexivity].
  apply contains_prefix in E. congruence.
Qed.

Lemma no_placeholder_list (items : list json) :
  no_placeholder (JList items) = forallb no_placeholder items.
Proof. reflexivity. Qed.

Lemma no_placeholder_dict (fields : list (string * json)) :
  no_placeholder (JDict fields) = forallb (fun kv => no_placeholder (snd kv)) fields.
Proof.
  simpl. induction fields as [|[k v] fields IH]; simpl; [reflexivity|]. now rewrite IH.
Qed.

(** X10. A template without placeholders is sent as it is: when no string
    of the template holds the opening [{{], [replace_placeholders] returns
    the template unchanged, whatever the mapping binds. *)
Theorem replace_placeholders_no_placeholder (obj : json) (mapping : list (string * string)) :
  no_placeholder obj = true -> replace_placeholders obj mapping = obj.
Proof.
  induction obj as [ | b | z | r | s | items IH | fields IH ] using json_tree_ind;
    intros H; try reflexivity.
  - cbn [replace_placeholders]. f_equal. apply replace_all_no_opening.
    simpl in H. now apply negb_true_iff in H.
  - rewrite replace_placeholders_list. f_equal.
    rewrite no_placeholder_list in H.
    induction IH as [|x items Hx _ IHitems]; [reflexivity|].
    simpl in H. apply andb_true_iff in H as [H1 H2].
    simpl. now rewrite (Hx H1), (IHitems H2).
  - rewrite replace_placeholders_dict. f_equal.
    rewrite no_placeholder_dict in H.
    induction IH as [|[k v] fields Hv _ IHfields]; [reflexivity|].
    simpl in H. apply andb_true_iff in H as [H1 H2].
    simpl in *. now rewrite (Hv H1), (IHfields H2).
Qed.

Lemma replace_placeholders_no_placeholder_witness :
  replace_placeholders
    (JDict [("model", JStr "demo"); ("stop", JList [JStr "}}"; JNull]); ("n", JInt 1)])
    [("model", "m1"); ("user_prompt", "{{model}}")] =
  JDict [("model", JStr "demo"); ("stop", JList [JStr "}}"; JNull]); ("n", JInt 1)].
Proof. apply replace_placeholders_no_placeholder. reflexivity. Defined.

Lemma shape_list (items : list json) : shape (JList items) = JList (map shape items).
Proof. reflexivity. Qed.

Lemma shape_dict (fields : list (string * json)) :
  shape (JDict fields) = JDict (map (fun kv => (fst kv, shape (snd kv))) fields).
Proof.
  simpl. f_equal. induction fields as [|[k v] fields IH]; simpl; [reflexivity|]. now rewrite IH.
Qed.

(** X11. Substitution touches string values only: the result of
    [replace_placeholders] has the shape of the template, that is the same
    lists and dicts with the same keys in the same order and the same numbers,
    booleans and nulls; a key is never rewritten, even when it spells a
    placeholder.  With an empty mapping the template itself comes back. *)
Theorem replace_placeholders_keeps_shape (obj : json) (mapping : list (string * string)) :
  shape (replace_placeholders obj mapping) = shape obj /\
  replace_placeholders obj [] = obj.
Proof.
  split.
  - induction obj as [ | b | z | r | s | items IH | fields IH ] using json_tree_ind;
      try reflexivity.
    + rewrite replace_placeholders_list, !shape_list. f_equal.
      induction IH as [|x items Hx _ IHitems]; [reflexivity|].
      simpl. now rewrite Hx, IHitems.
    + rewrite replace_placeholders_dict, !shape_dict. f_equal.
      induction IH as [|[k v] fields Hv _ IHfields]; [reflexivity|].
      simpl in *. now rewrite Hv, IHfields.
  - induction obj as [ | b | z | r | s | items IH | fields IH ] using json_tree_ind;
      try reflexivity.
    + rewrite replace_placeholders_list. f_equal.
      induction IH as [|x items Hx _ IHitems]; [reflexivity|].
      simpl. now rewrite Hx, IHitems.
    + rewrite replace_placeholders_dict. f_equal.
      induction IH as [|[k v] fields Hv _ IHfields]; [reflexivity|].
      simpl in *. now rewrite Hv, IHfields.
Qed.

(** ** [ensure_minimum_sections] and [build_user_prompt] *)

Lemma startswith_refl (s : string) : Py.startswith s s = true.
Proof. induction s as [|c s IH]; simpl; [reflexivity|]. now rewrite Ascii.eqb_refl. Qed.

Lemma contains_refl (s : string) : Py.contains s s = true.
Proof. destruct s; simpl; [reflexivity|]. now rewrite Ascii.eqb_refl, startswith_refl. Qed.

Lemma endswith_app (p s : string) : Py.endswith p (s ++ p) = true.
Proof.
  induction s as [|c s IH].
  - change ("" ++ p) with p. destruct p; cbn [Py.endswith]; now rewrite String.eqb_refl.
  - change (String c s ++ p) with (String c (s ++ p)). cbn [Py.endswith].
    rewrite IH. apply orb_true_r.
Qed.

Lemma endswith_refl (s : string) : Py.endswith s s = true.
Proof. destruct s; cbn [Py.endswith]; now rewrite String.eqb_refl. Qed.

Lemma endswith_app_r (p s t : string) :
  Py.endswith p s = true -> Py.endswith p (t ++ s) = true.
Proof.
  intros H. induction t as [|c t IH]; [exact H|].
  change (String c t ++ s) with (String c (t ++ s)). cbn [Py.endswith].
  rewrite IH. apply orb_true_r.
Qed.

Lemma startswith_app_app (a b s : string) :
  Py.startswith b s = true -> Py.startswith (a ++ b) (a ++ s) = true.
Proof.
  intros H. induction a as [|c a IH]; [exact H|]. simpl. now rewrite Ascii.eqb_refl.
Qed.

(** X12. The model's text is never lost: whatever [ensure_minimum_sections]
    returns holds the text it was given; and when a section is missing the
    result opens with the title line of the date and closes with the text
    and a newline. *)
Theorem ensure_minimum_sections_keeps_text (text date_str : string) :
  Py.contains text (ensure_minimum_sections text date_str) = true /\
  (has_all_sections text = false ->
   Py.startswith ("# Daily Report - " ++ date_str ++ String Py.newline "")
     (ensure_minimum_sections text date_str) = true /\
   Py.endswith (text ++ String Py.newline "") (ensure_minimum_sections text date_str) = true).
Proof.
  unfold ensure_minimum_sections, has_all_sections.
  destruct (forallb (fun sec => Py.contains sec text) required) eqn:E.
  - split; [apply contains_refl | discriminate].
  - split.
    + apply contains_app_r, contains_app_r, contains_app_r, contains_app_l, contains_refl.
    + intros _. split.
      * unfold skeleton_head. apply startswith_app_app, startswith_app_app. reflexivity.
      * apply endswith_app_r, endswith_app_r, endswith_app_r, endswith_refl.
Qed.

Lemma contains_here (p s : string) : Py.startswith p s = true -> Py.contains p s = true.
Proof. intros H. destruct s; simpl in *; now rewrite H. Qed.

Lemma contains_skip (p : string) (c : ascii) (s : string) :
  Py.contains p s = true -> Py.contains p (String c s) = true.
Proof. intros H. rewrite contains_cons, H. apply orb_true_r. Qed.

(** X13. The user prompt carries the notes verbatim: the prompt opens with
    the date line, names the source as [type:id], and holds the raw notes
    unchanged between the line [Raw notes:] and the instructions. *)
Theorem build_user_prompt_carries_notes (raw_notes source_type source_id date_str : string) :
  let prompt := build_user_prompt raw_notes source_type source_id date_str in
  Py.startswith ("Date: " ++ date_str ++ String Py.newline "Source: "
                 ++ source_type ++ ":" ++ source_id ++ String Py.newline "") prompt = true /\
  Py.contains ("Raw notes:" ++ String Py.newline raw_notes) prompt = true /\
  Py.contains ("'# Daily Report - " ++ date_str ++ "'.") prompt = true /\
  Py.endswith (String Py.newline "") prompt = true.
Proof.
  cbv zeta. unfold build_user_prompt. repeat split.
  - apply (startswith_app_app "Date: "), startswith_app_app.
    apply (startswith_app_app (String Py.newline "Source: ")), startswith_app_app.
    apply (startswith_app_app ":"), startswith_app_app. reflexivity.
  - apply (contains_app_r _ _ "Date: "), contains_app_r.
    apply (contains_app_r _ _ (String Py.newline "Source: ")), contains_app_r.
    apply (contains_app_r _ _ ":"), contains_app_r.
    apply (contains_app_r _ _ (String Py.newline (String Py.newline ""))).
    apply (contains_app_l _ ("Raw notes:" ++ String Py.newline raw_notes)).
    apply contains_refl.
  - apply (contains_app_r _ _ "Date: "), contains_app_r.
    apply (contains_app_r _ _ (String Py.newline "Source: ")), contains_app_r.
    apply (contains_app_r _ _ ":"), contains_app_r, contains_app_r, contains_app_r.
    cbn [append].
    repeat first
      [ solve [ apply contains_here;
                repeat first [ apply startswith_self_app
                             | apply (startswith_app_app (String _ _)) ];
                reflexivity ]
      | apply contains_skip ].
  - do 10 apply endswith_app_r. reflexivity.
Qed.

(** ** The settings of [call_cloud_api] and the request headers *)

Lemma getenv_required_eq (env : environ) (name : string) :
  getenv env name None true =
    if String.eqb (Py.strip (setting env name "")) "" then Err (MissingEnv name)
    else Ok (setting env name "").
Proof.
  unfold getenv, setting.
  destruct (env name) as [v|]; [|reflexivity].
  destruct (String.eqb (Py.strip v) "") eqn:E.
  - rewrite orb_true_r. reflexivity.
  - destruct v; [discriminate E|]. cbn [Py.nonempty negb orb]. rewrite E. reflexivity.
Qed.

(** [prepare] in terms of the settings: three things can fail, in this
    order: the URL, the time-out and the template. *)
Lemma prepare_eq (json_loads : string -> option json) (env : environ)
    (user_prompt system_prompt : string) :
  prepare json_loads env user_prompt system_prompt =
    (api_url <- getenv env "REPORT_API_URL" None true ;;
     timeout <- of_option (Py.int (setting env "REPORT_API_TIMEOUT" "120"))
                  (Uncaught (ValueError (setting env "REPORT_API_TIMEOUT" "120"))) ;;
     payload <- build_payload json_loads (setting env "REPORT_API_REQUEST_TEMPLATE_JSON" "")
                  (setting env "REPORT_API_MODEL" "") system_prompt user_prompt ;;
     Ok (request_of env api_url timeout payload, strip_think_setting env,
         selected_paths_csv env)).
Proof.
  unfold prepare, strip_think_flag.
  rewrite response_paths_eq, !getenv_optional.
  destruct (getenv env "REPORT_API_URL" None true) as [api_url|e]; [|reflexivity].
  cbn [bind].
  destruct (of_option _ _) as [timeout|e]; [|reflexivity].
  cbn [bind].
  destruct (build_payload _ _ _ _ _) as [payload|e]; reflexivity.
Qed.

Lemma prepare_ok (json_loads : string -> option json) (env : environ)
    (user_prompt system_prompt : string) (req : request) (st : bool) (csv : string) :
  prepare json_loads env user_prompt system_prompt = Ok (req, st, csv) ->
  exists timeout payload,
    Py.strip (setting env "REPORT_API_URL" "") <> "" /\
    Py.int (setting env "REPORT_API_TIMEOUT" "120") = Some timeout /\
    build_payload json_loads (setting env "REPORT_API_REQUEST_TEMPLATE_JSON" "")
      (setting env "REPORT_API_MODEL" "") system_prompt user_prompt = Ok payload /\
    req = request_of env (setting env "REPORT_API_URL" "") timeout payload /\
    st = strip_think_setting env /\ csv = selected_paths_csv env.
Proof.
  rewrite prepare_eq, getenv_required_eq.
  destruct (String.eqb (Py.strip (setting env "REPORT_API_URL" "")) "") eqn:Eurl;
    [discriminate|].
  cbn [bind].
  destruct (Py.int (setting env "REPORT_API_TIMEOUT" "120")) as [timeout|]; [|discriminate].
  cbn [of_option bind].
  destruct (build_payload _ _ _ _ _) as [payload|e]; [|discriminate].
  cbn [bind]. intros H. injection H as <- <- <-.
  exists timeout, payload. apply String.eqb_neq in Eurl. repeat split; assumption.
Qed.

Lemma setting_empty_or_not_blank (env : environ) (name : string) :
  setting env name "" = "" \/ Py.strip (setting env name "") <> "".
Proof.
  unfold setting. destruct (env name) as [v|]; [|now left].
  destruct (String.eqb (Py.strip v) "") eqn:E; [now left|].
  right. now apply String.eqb_neq.
Qed.

Lemma lstrip_empty_rstrip (s : string) : Py.lstrip s = "" -> Py.rstrip s = "".
Proof.
  induction s as [|c s IH]; [reflexivity|]. simpl Py.lstrip.
  destruct (Py.is_space c) eqn:Hc; [|discriminate].
  intros H. rewrite rstrip_cons, (IH H), Hc. reflexivity.
Qed.

Lemma strip_not_blank (s : string) :
  Py.strip s <> "" -> Py.lstrip s <> "" /\ Py.rstrip s <> "".
Proof.
  unfold Py.strip. intros H. split; intros E.
  - apply lstrip_empty_rstrip in E. rewrite E in H. now apply H.
  - rewrite E in H. now apply H.
Qed.

Lemma rstrip_app_not_blank (a b : string) :
  Py.rstrip b <> "" -> Py.rstrip (a ++ b) = a ++ Py.rstrip b.
Proof.
  intros Hb. induction a as [|c a IH]; [reflexivity|].
  change (String c a ++ b) with (String c (a ++ b)).
  rewrite rstrip_cons, IH.
  change (String c a ++ Py.rstrip b) with (String c (a ++ Py.rstrip b)).
  destruct (a ++ Py.rstrip b) eqn:E; [|reflexivity].
  destruct a; simpl in E; [contradiction | discriminate].
Qed.

Lemma lstrip_app_not_blank (a b : string) :
  Py.lstrip a <> "" -> Py.lstrip (a ++ b) = Py.lstrip a ++ b.
Proof.
  induction a as [|c a IH]; intros Ha; [now contradiction Ha|].
  simpl in *. destruct (Py.is_space c); [now apply IH | reflexivity].
Qed.

Lemma append_length (a b : string) :
  String.length (a ++ b) = String.length a + String.length b.
Proof. induction a as [|c a IH]; simpl; [reflexivity|]. now rewrite IH. Qed.

(** With a scheme in front, the token is longer than the key. *)
Lemma token_longer (scheme key : string) :
  Py.strip scheme <> "" -> Py.strip key <> "" ->
  String.length (Py.strip key) < String.length (Py.strip (scheme ++ " " ++ key)).
Proof.
  intros Hs Hk.
  apply strip_not_blank in Hs as [Hs _]. apply strip_not_blank in Hk as [_ Hk].
  unfold Py.strip at 2.
  rewrite (rstrip_app_not_blank scheme (" " ++ key)).
  - rewrite (rstrip_app_not_blank " " key Hk).
    rewrite (lstrip_app_not_blank _ _ Hs), !append_length.
    unfold Py.strip. pose proof (lstrip_length (Py.rstrip key)).
    destruct (Py.lstrip scheme); [contradiction|]. simpl. lia.
  - rewrite (rstrip_app_not_blank " " key Hk). discriminate.
Qed.

Lemma headers_get_dict_set (d : list (string * string)) (k v : string) :
  headers_get (dict_set d k v) k = Some v.
Proof.
  induction d as [|[k' v'] d IH]; simpl.
  - now rewrite String.eqb_refl.
  - destruct (String.eqb k' k) eqn:E; simpl; rewrite E; [reflexivity | exact IH].
Qed.

(** X14. The key is never sent bare.  When [call_cloud_api] has made its
    request ready, the URL, the name of the authorisation header and the
    scheme are not blank (an empty [REPORT_API_AUTH_SCHEME] counts as unset
    and gives [Bearer]).  Without a key the headers are the content type
    alone; with a key the authorisation header is the trimmed text
    [scheme key], which is never the key itself. *)
Theorem authorization_always_has_scheme
    (json_loads : string -> option json) (env : environ)
    (user_prompt system_prompt : string) (req : request) (st : bool) (csv : string) :
  prepare json_loads env user_prompt system_prompt = Ok (req, st, csv) ->
  let headers :=
    request_headers (req_api_key req) (req_auth_header req) (req_auth_scheme req) in
  Py.strip (req_url req) <> "" /\
  Py.strip (req_auth_header req) <> "" /\
  Py.strip (req_auth_scheme req) <> "" /\
  (req_api_key req = "" -> headers = [("Content-Type", "application/json")]) /\
  (req_api_key req <> "" ->
   headers_get headers (req_auth_header req) =
     Some (Py.strip (req_auth_scheme req ++ " " ++ req_api_key req)) /\
   Py.strip (req_auth_scheme req ++ " " ++ req_api_key req) <> req_api_key req).
Proof.
  intros H. apply prepare_ok in H as (timeout & payload & Hurl & _ & _ & -> & _ & _).
  cbv zeta. cbn [request_of req_url req_api_key req_auth_header req_auth_scheme].
  assert (Hh : Py.strip (setting env "REPORT_API_AUTH_HEADER" "Authorization") <> "")
    by (apply setting_not_blank; discriminate).
  assert (Hs : Py.strip (setting env "REPORT_API_AUTH_SCHEME" "Bearer") <> "")
    by (apply setting_not_blank; discriminate).
  repeat split; try assumption.
  - intros ->. reflexivity.
  - unfold request_headers.
    destruct (setting env "REPORT_API_KEY" "") as [|c key]; [contradiction|].
    destruct (setting env "REPORT_API_AUTH_SCHEME" "Bearer") as [|x scheme];
      [now contradiction Hs|].
    cbn [Py.nonempty]. apply headers_get_dict_set.
  - intros E.
    destruct (setting_empty_or_not_blank env "REPORT_API_KEY") as [Hk|Hk]; [contradiction|].
    pose proof (token_longer _ _ Hs Hk) as Hlen.
    rewrite E in Hlen.
    pose proof (strip_idempotent
                  (setting env "REPORT_API_AUTH_SCHEME" "Bearer" ++ " "
                   ++ setting env "REPORT_API_KEY" "")) as Hid.
    rewrite E in Hid. rewrite Hid in Hlen. lia.
Qed.

(** The second setting of the repository's tests, where the scheme is set
    to the empty text: the header is still [Bearer k]. *)
Lemma authorization_always_has_scheme_witness :
  headers_get (request_headers "k" "Authorization" "Bearer") "Authorization" = Some "Bearer k".
Proof.
  destruct (authorization_always_has_scheme mock_loads custom_env "hello" "world"
              custom_request true "data.text" eq_refl) as (_ & _ & _ & _ & H).
  destruct H as [H _]; [discriminate | exact H].
Defined.

(** X15. A wrong setting stops the call before anything is sent: whatever
    the remote end would answer, a missing or blank [REPORT_API_URL] gives
    the missing-variable error; otherwise a [REPORT_API_TIMEOUT] that is no
    integer gives the [ValueError] of [int]; otherwise a request template
    that is set and is no JSON gives the invalid-template error. *)
Theorem call_cloud_api_checks_settings_first
    (json_loads : string -> option json) (exchange : request -> result error json)
    (env : environ) (user_prompt system_prompt : string) :
  (Py.strip (setting env "REPORT_API_URL" "") = "" ->
   call_cloud_api json_loads exchange env user_prompt system_prompt =
     Err (MissingEnv "REPORT_API_URL")) /\
  (Py.strip (setting env "REPORT_API_URL" "") <> "" ->
   Py.int (setting env "REPORT_API_TIMEOUT" "120") = None ->
   call_cloud_api json_loads exchange env user_prompt system_prompt =
     Err (Uncaught (ValueError (setting env "REPORT_API_TIMEOUT" "120")))) /\
  (Py.strip (setting env "REPORT_API_URL" "") <> "" ->
   Py.int (setting env "REPORT_API_TIMEOUT" "120") <> None ->
   setting env "REPORT_API_REQUEST_TEMPLATE_JSON" "" <> "" ->
   json_loads (setting env "REPORT_API_REQUEST_TEMPLATE_JSON" "") = None ->
   call_cloud_api json_loads exchange env user_prompt system_prompt = Err InvalidTemplate).
Proof.
  unfold call_cloud_api. rewrite prepare_eq, getenv_required_eq.
  split; [|split].
  - intros ->. reflexivity.
  - intros Hurl Hint. apply String.eqb_neq in Hurl. rewrite Hurl, Hint. reflexivity.
  - intros Hurl Hint Htpl Hloads. apply String.eqb_neq in Hurl. rewrite Hurl.
    destruct (Py.int (setting env "REPORT_API_TIMEOUT" "120")) as [timeout|];
      [|contradiction].
    cbn [of_option bind]. unfold build_payload.
    destruct (setting_empty_or_not_blank env "REPORT_API_REQUEST_TEMPLATE_JSON") as [E|E];
      [contradiction|].
    destruct (Py.strip (setting env "REPORT_API_REQUEST_TEMPLATE_JSON" "")); [contradiction|].
    cbn [Py.nonempty]. rewrite Hloads. reflexivity.
Qed.

(** ** [main] *)

Lemma ensure_minimum_sections_complete (text date_str : string) :
  has_all_sections (ensure_minimum_sections text date_str) = true.
Proof.
  unfold ensure_minimum_sections.
  destruct (forallb (fun sec => Py.contains sec text) required) eqn:E; [exact E|].
  apply skeleton_has_all_sections.
Qed.

Lemma has_all_sections_app (text tail : string) :
  has_all_sections text = true -> has_all_sections (text ++ tail) = true.
Proof.
  unfold has_all_sections. rewrite !forallb_forall.
  intros H sec Hsec. apply contains_app_l, H, Hsec.
Qed.

Lemma append_empty_r (s : string) : s ++ "" = s.
Proof. induction s as [|c s IH]; simpl; [reflexivity|]. now rewrite IH. Qed.

(** The text [main] writes for a report ends in a newline. *)
Lemma body_ends_with_newline (text : string) :
  Py.endswith (String Py.newline "")
    (text ++ (if negb (Py.endswith (String Py.newline "") text)
              then String Py.newline "" else "")) = true.
Proof.
  destruct (Py.endswith (String Py.newline "") text) eqn:E; cbn [negb].
  - now rewrite append_empty_r.
  - apply endswith_app.
Qed.

(** The text [main] writes for a report ends in a newline. *)
Lemma with_final_newline_ends (text : string) :
  Py.endswith (String Py.newline "") (with_final_newline text) = true.
Proof. apply body_ends_with_newline. Qed.

Lemma main_eq {world : Type} (os : Os world)
    (json_loads : string -> option json) (exchange : request -> result error json)
    (env : environ) (w : world) (a : args) :
  main os json_loads exchange env w a =
    match path_exists os w (arg_input a) with
    | Err e => Raised (OsFailure e) w
    | Ok false => Returned 2 w ("Input not found: " ++ arg_input a)
    | Ok true =>
        match read_text os w (arg_input a) with
        | Err e => Raised (OsFailure e) w
        | Ok raw_notes =>
            match call_cloud_api json_loads exchange env
                    (build_user_prompt raw_notes (arg_source_type a) (arg_source_id a)
                       (arg_date a))
                    (setting env "REPORT_SYSTEM_PROMPT" DEFAULT_SYSTEM_PROMPT) with
            | Err e => Raised (ApiFailure e) w
            | Ok text =>
                match mkdir_parent os w (arg_output a) with
                | (w1, Some e) => Raised (OsFailure e) w1
                | (w1, None) =>
                    match write_text os w1 (arg_output a) (report_of text (arg_date a)) with
                    | (w2, Some e) => Raised (OsFailure e) w2
                    | (w2, None) => Returned 0 w2 ("Wrote report: " ++ arg_output a)
                    end
                end
            end
        end
    end.
Proof. unfold main. now rewrite getenv_optional. Qed.

Lemma report_of_complete (text date_str : string) :
  has_all_sections (report_of text date_str) = true /\
  Py.contains text (report_of text date_str) = true /\
  Py.endswith (String Py.newline "") (report_of text date_str) = true.
Proof.
  unfold report_of. split; [|split].
  - apply has_all_sections_app, ensure_minimum_sections_complete.
  - apply contains_app_l. unfold ensure_minimum_sections.
    destruct (forallb _ required); [apply contains_refl|].
    apply contains_app_r, contains_app_r, contains_app_r, contains_app_l, contains_refl.
  - apply with_final_newline_ends.
Qed.


(** X17. The report [main] writes is complete.  When [main] returns 0, the
    notes were read, [call_cloud_api] returned a text for the prompt built
    from them, and the write of the output succeeded with a text that has
    the seven sections, holds the text [call_cloud_api] returned and ends in
    a newline; on a file system where a successful write can be read back,
    the output file holds that text. *)
Theorem main_report_complete {world : Type} (os : Os world)
    (json_loads : string -> option json) (exchange : request -> result error json)
    (env : environ) (w : world) (a : args) (w' : world) (printed : string) :
  main os json_loads exchange env w a = Returned 0 w' printed ->
  exists raw_notes text body,
    read_text os w (arg_input a) = Ok raw_notes /\
    call_cloud_api json_loads exchange env
      (build_user_prompt raw_notes (arg_source_type a) (arg_source_id a) (arg_date a))
      (setting env "REPORT_SYSTEM_PROMPT" DEFAULT_SYSTEM_PROMPT) = Ok text /\
    write_text os (fst (mkdir_parent os w (arg_output a))) (arg_output a) body = (w', None) /\
    (reads_back os -> read_text os w' (arg_output a) = Ok body) /\
    has_all_sections body = true /\
    Py.contains text body = true /\
    Py.endswith (String Py.newline "") body = true.
Proof.
  rewrite main_eq.
  destruct (path_exists os w (arg_input a)) as [[|]|e]; [|discriminate|discriminate].
  destruct (read_text os w (arg_input a)) as [raw_notes|e]; [|discriminate].
  destruct (call_cloud_api _ _ _ _ _) as [text|e] eqn:E; [|discriminate].
  destruct (mkdir_parent os w (arg_output a)) as [w1 [e|]] eqn:Emk; [discriminate|].
  destruct (write_text os w1 (arg_output a) (report_of text (arg_date a)))
    as [w2 [e|]] eqn:Ewr; [discriminate|].
  intros H. injection H as <- _.
  exists raw_notes, text, (report_of text (arg_date a)).
  split; [reflexivity|]. split; [exact E|]. split; [exact Ewr|].
  split; [intros Hback; exact (Hback _ _ _ _ Ewr)|].
  apply report_of_complete.
Qed.

(** A run against the mocks: the answer lacks the sections, so the file
    holds the skeleton around it. *)
Lemma main_report_complete_witness :
  exists raw_notes text body,
    read_text files_os example_files (arg_input example_args) = Ok raw_notes /\
    call_cloud_api mock_loads (mock_exchange example_response) openai_env
      (build_user_prompt raw_notes (arg_source_type example_args)
         (arg_source_id example_args) (arg_date example_args))
      (setting openai_env "REPORT_SYSTEM_PROMPT" DEFAULT_SYSTEM_PROMPT) = Ok text /\
    write_text files_os
      (fst (mkdir_parent files_os example_files (arg_output example_args)))
      (arg_output example_args) body =
      (put example_files (arg_output example_args)
         (File (report_of "- parser fixed" "2026-02-17")), None) /\
    (reads_back files_os ->
     read_text files_os
       (put example_files (arg_output example_args)
          (File (report_of "- parser fixed" "2026-02-17")))
       (arg_output example_args) = Ok body) /\
    has_all_sections body = true /\
    Py.contains text body = true /\
    Py.endswith (String Py.newline "") body = true.
Proof.
  apply (main_report_complete files_os mock_loads (mock_exchange example_response)
           openai_env example_files example_args
           (put example_files (arg_output example_args)
              (File (report_of "- parser fixed" "2026-02-17")))
           "Wrote report: reports/2026-02-17.md").
  vm_compute. reflexivity.
Defined.

(** The mocked file system reads back what it wrote. *)
Lemma files_os_reads_back : reads_back files_os.
Proof.
  intros fs p text fs'. cbn [write_text read_text files_os].
  destruct (fs p) as [[t|]|]; intros H; inversion H; subst;
    unfold put; now rewrite String.eqb_refl.
Qed.

(** The other endings of [main], on the mocked file system: an input that
    is missing, an input that is a directory, an output that is a
    directory, and an answer that cannot be used. *)
Example main_endings :
  main files_os mock_loads (mock_exchange example_response) openai_env example_files
    {| arg_input := "notes/none.txt"; arg_output := "out.md"; arg_date := "2026-02-17";
       arg_source_type := "manual"; arg_source_id := "local" |} =
    Returned 2 example_files "Input not found: notes/none.txt" /\
  main files_os mock_loads (mock_exchange example_response) openai_env example_files
    {| arg_input := "notes"; arg_output := "out.md"; arg_date := "2026-02-17";
       arg_source_type := "manual"; arg_source_id := "local" |} =
    Raised (OsFailure (OsError "IsADirectoryError")) example_files /\
  main files_os mock_loads (mock_exchange example_response) openai_env example_files
    {| arg_input := "notes/today.txt"; arg_output := "notes"; arg_date := "2026-02-17";
       arg_source_type := "manual"; arg_source_id := "local" |} =
    Raised (OsFailure (OsError "IsADirectoryError")) example_files /\
  main files_os mock_loads (mock_exchange (JDict [])) openai_env example_files example_args =
    Raised (ApiFailure
              (UnableToExtract
                 [ "choices.0.message.content"; "choices.0.message.final";
                   "choices.0.message.answer"; "choices.0.text"; "response.output_text";
                   "output_text"; "data.text"; "text" ]
                 (KeyError "text"))) example_files.
Proof. repeat split. Qed.

(** ** [slugify] *)

Lemma greedy_run (p : ascii -> bool) (n : nat) (prev : option ascii) (s : string) :
  Re.greedy p n prev s (fun _ rest => Some rest) =
    if (n <=? lead p s)%nat then Some (skip_run p s) else None.
Proof.
  revert n prev; induction s as [|c s IH]; intros n prev.
  - destruct n; reflexivity.
  - simpl. destruct (p c) eqn:E.
    + rewrite IH. destruct n as [|n]; simpl.
      * reflexivity.
      * destruct (n <=? lead p s)%nat; reflexivity.
    + destruct n; reflexivity.
Qed.

Lemma lead_skip_run_length (p : ascii -> bool) (s : string) :
  String.length (skip_run p s) + lead p s = String.length s.
Proof.
  induction s as [|c s IH]; [reflexivity|]. simpl.
  destruct (p c); simpl; lia.
Qed.

Lemma drop_lead_run (p : ascii -> bool) (s : string) : drop (lead p s) s = skip_run p s.
Proof.
  induction s as [|c s IH]; [reflexivity|]. simpl.
  destruct (p c); [exact IH | reflexivity].
Qed.

Lemma lead_skip_run (p : ascii -> bool) (s : string) : lead p (skip_run p s) = 0.
Proof.
  induction s as [|c s IH]; [reflexivity|]. simpl.
  destruct (p c) eqn:E; [exact IH|]. simpl. now rewrite E.
Qed.

Lemma match_at_run (ignorecase : bool) (n : nat) (p : ascii -> bool)
    (prev : option ascii) (s : string) :
  Re.match_at ignorecase (Re.AtLeast n p) prev s =
    if (n <=? lead p s)%nat then Some (lead p s) else None.
Proof.
  unfold Re.match_at. cbn [Re.exec]. rewrite greedy_run.
  destruct (n <=? lead p s)%nat; [|reflexivity].
  f_equal. pose proof (lead_skip_run_length p s). lia.
Qed.

(** The substitution of a run from a position inside a match is the
    substitution on what follows the match. *)
Lemma sub_from_run_skip (ignorecase : bool) (n : nat) (p : ascii -> bool) (repl : string)
    (m : nat) (s : string) (prev prev' : option ascii) :
  Re.sub_from ignorecase (Re.AtLeast n p) repl prev m s =
    Re.sub_from ignorecase (Re.AtLeast n p) repl prev' 0 (drop m s).
Proof.
  revert m prev prev'; induction s as [|c s IH]; intros m prev prev'.
  - destruct m; reflexivity.
  - destruct m as [|m].
    + cbn [drop Re.sub_from]. rewrite !match_at_run. reflexivity.
    + cbn [drop Re.sub_from]. apply IH.
Qed.

Lemma sub_run_cons (ignorecase : bool) (n : nat) (p : ascii -> bool) (repl : string)
    (prev : option ascii) (c : ascii) (s : string) :
  1 <= n ->
  Re.sub_from ignorecase (Re.AtLeast n p) repl prev 0 (String c s) =
    if (n <=? lead p (String c s))%nat
    then repl ++ Re.sub_from ignorecase (Re.AtLeast n p) repl None 0 (skip_run p (String c s))
    else String c (Re.sub_from ignorecase (Re.AtLeast n p) repl None 0 s).
Proof.
  intros Hn. cbn [Re.sub_from]. rewrite match_at_run.
  destruct (Nat.leb_spec n (lead p (String c s))) as [Hge|Hlt].
  - destruct (lead p (String c s)) as [|m] eqn:El; [lia|].
    rewrite (sub_from_run_skip ignorecase n p repl m s (Some c) None). do 2 f_equal.
    rewrite <- drop_lead_run, El. reflexivity.
  - rewrite (sub_from_run_skip ignorecase n p repl 0 s (Some c) None). reflexivity.
Qed.

Lemma sub_run_fixed (ignorecase : bool) (n : nat) (p : ascii -> bool) (repl s : string) :
  1 <= n -> no_run p n s = true -> Re.sub ignorecase (Re.AtLeast n p) repl s = s.
Proof.
  intros Hn. unfold Re.sub. induction s as [|c s IH]; [reflexivity|].
  intros H. cbn [no_run] in H. apply andb_true_iff in H as [Hlead Hrest].
  rewrite (sub_run_cons _ _ _ _ _ _ _ Hn).
  apply Nat.ltb_lt in Hlead.
  destruct (Nat.leb_spec n (lead p (String c s))); [lia|].
  now rewrite (IH Hrest).
Qed.

Lemma all_chars_app (q : ascii -> bool) (a b : string) :
  all_chars q (a ++ b) = all_chars q a && all_chars q b.
Proof. induction a as [|c a IH]; simpl; [reflexivity|]. now rewrite IH, andb_assoc. Qed.

(** [re.sub] makes its result of characters of the text and of the
    replacement. *)
Lemma sub_all_chars (q : ascii -> bool) (ignorecase : bool) (r : Re.regex) (repl s : string) :
  all_chars q repl = true -> all_chars q s = true ->
  forall prev skip, all_chars q (Re.sub_from ignorecase r repl prev skip s) = true.
Proof.
  intros Hrepl. induction s as [|c s IH]; intros Hs prev skip; [reflexivity|].
  cbn [all_chars] in Hs. apply andb_true_iff in Hs as [Hc Hs].
  cbn [Re.sub_from]. destruct skip as [|m]; [|now apply IH].
  destruct (Re.match_at ignorecase r prev (String c s)) as [[|m]|].
  - cbn [all_chars]. now rewrite Hc, IH.
  - now rewrite all_chars_app, Hrepl, IH.
  - cbn [all_chars]. now rewrite Hc, IH.
Qed.

(** The first substitution of [slugify] leaves slug characters only. *)
Lemma sub_not_slug_all (s : string) :
  forall prev skip,
    all_chars slug_char (Re.sub_from false not_slug_run "-" prev skip s) = true.
Proof.
  induction s as [|c s IH]; intros prev skip; [reflexivity|].
  cbn [Re.sub_from]. destruct skip as [|m]; [|apply IH].
  unfold not_slug_run at 1. rewrite match_at_run. fold not_slug_run.
  cbn [lead]. destruct (slug_char c) eqn:Hc; cbn [negb].
  - change (1 <=? 0)%nat with false. cbv iota. cbn [all_chars]. now rewrite Hc, IH.
  - change (1 <=? S ?x)%nat with true. cbv iota.
    rewrite all_chars_app, IH. reflexivity.
Qed.

(** After the second substitution no two dashes are left in a row. *)
Lemma sub_dash_no_run (fuel : nat) (s : string) :
  String.length s <= fuel ->
  no_run is_dash 2 (Re.sub false dash_run "-" s) = true /\
  lead is_dash (Re.sub false dash_run "-" s) = Nat.min (lead is_dash s) 1.
Proof.
  unfold Re.sub, dash_run. revert s; induction fuel as [|fuel IH]; intros s Hlen.
  - destruct s; [split; reflexivity | simpl in Hlen; lia].
  - destruct s as [|c s]; [split; reflexivity|].
    rewrite sub_run_cons by lia.
    destruct (Nat.leb_spec 2 (lead is_dash (String c s))) as [Hge|Hlt].
    + destruct (IH (skip_run is_dash (String c s))) as [Hno Hlead].
      { pose proof (lead_skip_run_length is_dash (String c s)) as Hl.
        change (String.length (String c s)) with (S (String.length s)) in *. lia. }
      rewrite lead_skip_run in Hlead. change (Nat.min 0 1) with 0 in Hlead.
      remember (Re.sub_from false (Re.AtLeast 2 is_dash) "-" None 0
                  (skip_run is_dash (String c s))) as out.
      remember (lead is_dash (String c s)) as m.
      change ("-" ++ out) with (String "-" out).
      cbn [no_run lead]. change (is_dash "-") with true.
      cbv iota. rewrite Hlead, Hno. split; [reflexivity | lia].
    + destruct (IH s) as [Hno Hlead]; [simpl in Hlen; lia|].
      remember (Re.sub_from false (Re.AtLeast 2 is_dash) "-" None 0 s) as out.
      cbn [no_run lead] in *. rewrite Hno, andb_true_r.
      destruct (is_dash c); [|split; reflexivity].
      rewrite Hlead. split; [apply Nat.ltb_lt|]; lia.
Qed.

(** [str.strip(chars)] keeps what the text is made of. *)
Lemma lstrip_chars_all (q : ascii -> bool) (chars s : string) :
  all_chars q s = true -> all_chars q (Py.lstrip_chars chars s) = true.
Proof.
  induction s as [|c s IH]; [reflexivity|]. intros H. simpl.
  destruct (Py.has chars c); [|exact H].
  apply IH. cbn [all_chars] in H. now apply andb_true_iff in H.
Qed.

Lemma rstrip_chars_cons (chars : string) (c : ascii) (s : string) :
  Py.rstrip_chars chars (String c s) =
    if negb (Py.nonempty (Py.rstrip_chars chars s)) && Py.has chars c then ""
    else String c (Py.rstrip_chars chars s).
Proof.
  simpl. destruct (Py.rstrip_chars chars s); simpl; [destruct (Py.has chars c)|]; reflexivity.
Qed.

Lemma rstrip_chars_all (q : ascii -> bool) (chars s : string) :
  all_chars q s = true -> all_chars q (Py.rstrip_chars chars s) = true.
Proof.
  induction s as [|c s IH]; [reflexivity|]. intros H.
  cbn [all_chars] in H. apply andb_true_iff in H as [Hc Hs].
  rewrite rstrip_chars_cons.
  destruct (negb (Py.nonempty (Py.rstrip_chars chars s)) && Py.has chars c); [reflexivity|].
  cbn [all_chars]. now rewrite Hc, IH.
Qed.

Lemma no_run_lstrip_chars (p : ascii -> bool) (n : nat) (chars s : string) :
  no_run p n s = true -> no_run p n (Py.lstrip_chars chars s) = true.
Proof.
  induction s as [|c s IH]; [reflexivity|]. intros H. simpl.
  destruct (Py.has chars c); [|exact H].
  apply IH. cbn [no_run] in H. now apply andb_true_iff in H.
Qed.

Lemma lead_rstrip_chars (p : ascii -> bool) (chars s : string) :
  lead p (Py.rstrip_chars chars s) <= lead p s.
Proof.
  induction s as [|c s IH]; [reflexivity|].
  rewrite rstrip_chars_cons.
  destruct (negb (Py.nonempty (Py.rstrip_chars chars s)) && Py.has chars c); simpl; [lia|].
  destruct (p c); lia.
Qed.

Lemma no_run_rstrip_chars (p : ascii -> bool) (n : nat) (chars s : string) :
  no_run p n s = true -> no_run p n (Py.rstrip_chars chars s) = true.
Proof.
  induction s as [|c s IH]; [reflexivity|]. intros H.
  cbn [no_run] in H. apply andb_true_iff in H as [Hlead Hrest].
  pose proof (lead_rstrip_chars p chars (String c s)) as Hle.
  rewrite rstrip_chars_cons in *.
  destruct (negb (Py.nonempty (Py.rstrip_chars chars s)) && Py.has chars c); [reflexivity|].
  cbn [no_run]. rewrite (IH Hrest), andb_true_r.
  apply Nat.ltb_lt in Hlead. apply Nat.ltb_lt. lia.
Qed.

Lemma has_dash (c : ascii) : Py.has "-" c = Ascii.eqb "-" c.
Proof. simpl. apply orb_false_r. Qed.

Lemma startswith_dash (c : ascii) (s : string) :
  Py.startswith "-" (String c s) = Ascii.eqb "-" c.
Proof. simpl. apply andb_true_r. Qed.

Lemma lstrip_dash_no_lead (s : string) :
  Py.startswith "-" (Py.lstrip_chars "-" s) = false.
Proof.
  induction s as [|c s IH]; [reflexivity|]. cbn [Py.lstrip_chars].
  destruct (Py.has "-" c) eqn:E; [exact IH|].
  now rewrite startswith_dash, <- has_dash.
Qed.

Lemma endswith_cons (p : string) (c : ascii) (s : string) :
  Py.endswith p (String c s) = String.eqb p (String c s) || Py.endswith p s.
Proof. reflexivity. Qed.

Lemma rstrip_dash_no_trail (s : string) :
  Py.endswith "-" (Py.rstrip_chars "-" s) = false.
Proof.
  induction s as [|c s IH]; [reflexivity|].
  rewrite rstrip_chars_cons.
  destruct (Py.rstrip_chars "-" s) as [|x r] eqn:E; cbn [Py.nonempty negb andb].
  - destruct (Py.has "-" c) eqn:Hc; [reflexivity|].
    rewrite has_dash in Hc. rewrite endswith_cons.
    cbn [String.eqb Py.endswith]. rewrite Hc. reflexivity.
  - rewrite endswith_cons, IH, orb_false_r. cbn [String.eqb].
    destruct (Ascii.eqb "-" c); reflexivity.
Qed.

Lemma lstrip_chars_no_trail (p chars s : string) :
  Py.endswith p s = false -> Py.endswith p (Py.lstrip_chars chars s) = false.
Proof.
  induction s as [|c s IH]; intros H; [exact H|]. cbn [Py.lstrip_chars].
  destruct (Py.has chars c); [|exact H].
  apply IH. rewrite endswith_cons in H. now apply orb_false_iff in H.
Qed.

Lemma slugify_is_slug (s : string) : is_slug (slugify s) = true.
Proof.
  unfold slugify.
  set (s1 := Re.sub false not_slug_run "-" (Py.strip (Py.lower s))).
  set (s2 := Re.sub false dash_run "-" s1).
  assert (H1 : all_chars slug_char s1 = true) by apply sub_not_slug_all.
  assert (H2 : all_chars slug_char s2 = true)
    by (apply sub_all_chars; [reflexivity | exact H1]).
  destruct (sub_dash_no_run (String.length s1) s1 (le_n _)) as [Hno _]. fold s2 in Hno.
  destruct (Py.strip_chars "-" s2) as [|c r] eqn:E; [reflexivity|].
  cbn [Py.nonempty]. rewrite <- E. unfold is_slug, Py.strip_chars.
  rewrite lstrip_chars_all by (now apply rstrip_chars_all).
  rewrite no_run_lstrip_chars by (now apply no_run_rstrip_chars).
  rewrite lstrip_dash_no_lead.
  rewrite lstrip_chars_no_trail by apply rstrip_dash_no_trail.
  unfold Py.strip_chars in E. rewrite E. reflexivity.
Qed.

Lemma slug_char_plain (c : ascii) :
  slug_char c = true -> Py.chr_lower c = c /\ Py.is_space c = false.
Proof.
  destruct c as [[] [] [] [] [] [] [] []]; vm_compute; intros H;
    first [discriminate H | split; reflexivity].
Qed.

Lemma lower_slug (r : string) : all_chars slug_char r = true -> Py.lower r = r.
Proof.
  induction r as [|c r IH]; [reflexivity|]. intros H.
  cbn [all_chars] in H. apply andb_true_iff in H as [Hc Hr].
  cbn [Py.lower]. destruct (slug_char_plain c Hc) as [-> _]. now rewrite IH.
Qed.

Lemma strip_slug (r : string) : all_chars slug_char r = true -> Py.strip r = r.
Proof.
  intros H. unfold Py.strip.
  assert (Hr : Py.rstrip r = r).
  { induction r as [|c r IH]; [reflexivity|].
    cbn [all_chars] in H. apply andb_true_iff in H as [Hc Hr].
    rewrite rstrip_cons, (IH Hr). destruct (slug_char_plain c Hc) as [_ ->].
    now rewrite andb_false_r. }
  rewrite Hr. destruct r as [|c r]; [reflexivity|].
  cbn [all_chars] in H. apply andb_true_iff in H as [Hc _].
  simpl. now destruct (slug_char_plain c Hc) as [_ ->].
Qed.

Lemma no_run_slug (r : string) :
  all_chars slug_char r = true -> no_run (fun c => negb (slug_char c)) 1 r = true.
Proof.
  induction r as [|c r IH]; [reflexivity|]. intros H.
  cbn [all_chars] in H. apply andb_true_iff in H as [Hc Hr].
  cbn [no_run lead]. rewrite Hc, (IH Hr). reflexivity.
Qed.

Lemma lstrip_dash_fixed (r : string) :
  Py.startswith "-" r = false -> Py.lstrip_chars "-" r = r.
Proof.
  destruct r as [|c r]; [reflexivity|]. rewrite startswith_dash. intros H.
  cbn [Py.lstrip_chars]. now rewrite has_dash, H.
Qed.

Lemma rstrip_dash_fixed (r : string) :
  Py.endswith "-" r = false -> Py.rstrip_chars "-" r = r.
Proof.
  induction r as [|c r IH]; [reflexivity|]. rewrite endswith_cons. intros H.
  apply orb_false_iff in H as [Hc Hr].
  rewrite rstrip_chars_cons, (IH Hr), has_dash.
  destruct r as [|x r]; [|reflexivity].
  cbn [String.eqb] in Hc. cbn [Py.nonempty negb andb].
  destruct (Ascii.eqb "-" c); [discriminate Hc | reflexivity].
Qed.

Lemma slug_is_fixed (r : string) : is_slug r = true -> slugify r = r.
Proof.
  unfold is_slug. intros H.
  apply andb_true_iff in H as [H Hend]. apply andb_true_iff in H as [H Hstart].
  apply andb_true_iff in H as [H Hno]. apply andb_true_iff in H as [Hne Hall].
  apply negb_true_iff in Hend, Hstart.
  unfold slugify. rewrite (lower_slug r Hall), (strip_slug r Hall).
  unfold not_slug_run, dash_run.
  rewrite (sub_run_fixed false 1 _ "-" r (le_n 1) (no_run_slug r Hall)).
  rewrite (sub_run_fixed false 2 is_dash "-" r (le_S _ _ (le_n 1)) Hno).
  unfold Py.strip_chars.
  rewrite (rstrip_dash_fixed r Hend), (lstrip_dash_fixed r Hstart), Hne. reflexivity.
Qed.

Lemma no_run_no_double_dash (s : string) :
  no_run is_dash 2 s = true -> Py.contains "--" s = false.
Proof.
  induction s as [|c s IH]; [reflexivity|]. intros H.
  cbn [no_run] in H. apply andb_true_iff in H as [Hlead Hrest].
  rewrite contains_cons, (IH Hrest), orb_false_r.
  apply Nat.ltb_lt in Hlead. cbn [lead] in Hlead. unfold is_dash in Hlead.
  destruct (Py.startswith "--" (String c s)) eqn:E; [|reflexivity].
  change (Py.startswith "--" (String c s))
    with (Ascii.eqb "-" c && Py.startswith "-" s) in E.
  apply andb_true_iff in E as [Ec E].
  apply Ascii.eqb_eq in Ec. subst c. rewrite Ascii.eqb_refl in Hlead.
  destruct s as [|x s]; [discriminate E|].
  rewrite startswith_dash in E. apply Ascii.eqb_eq in E. subst x.
  cbn [lead] in Hlead. rewrite Ascii.eqb_refl in Hlead. lia.
Qed.

(** X18. What [slugify] returns is a slug: it is never empty, it is made of
    lower-case letters, digits, [-] and [_] only, it never holds two dashes
    in a row, and it neither starts nor ends with a dash. *)
Theorem slugify_yields_slug (s : string) :
  slugify s <> "" /\
  all_chars slug_char (slugify s) = true /\
  Py.contains "--" (slugify s) = false /\
  Py.startswith "-" (slugify s) = false /\
  Py.endswith "-" (slugify s) = false.
Proof.
  pose proof (slugify_is_slug s) as H. unfold is_slug in H.
  apply andb_true_iff in H as [H Hend]. apply andb_true_iff in H as [H Hstart].
  apply andb_true_iff in H as [H Hno]. apply andb_true_iff in H as [Hne Hall].
  apply negb_true_iff in Hend, Hstart.
  repeat split; try assumption.
  - intros E. rewrite E in Hne. discriminate Hne.
  - now apply no_run_no_double_dash.
Qed.

(** X19. [slugify] is idempotent, and the texts it leaves alone are exactly
    the slugs. *)
Theorem slugify_idempotent (s : string) :
  slugify (slugify s) = slugify s /\
  (slugify s = s <-> is_slug s = true).
Proof.
  split; [apply slug_is_fixed, slugify_is_slug|].
  split; [|apply slug_is_fixed].
  intros E. rewrite <- E. apply slugify_is_slug.
Qed.

Example slugify_samples :
  slugify "  Fix: the Parser -- again! " = "fix-the-parser-again" /\
  slugify "__init__.py" = "__init__-py" /\
  slugify "!!!" = "note" /\
  slugify "" = "note".
Proof. repeat split. Qed.

(** ** [build_default_payload] and [extract_by_path] *)

(** X20. The default body carries the two prompts verbatim, and a path
    reads them back: [messages.0.content] is the system prompt,
    [messages.1.content] the user prompt, whatever they hold (a [{{model}}]
    in a prompt is not a placeholder here); [model] resolves to the model
    when one is set and raises [KeyError] otherwise. *)
Theorem default_payload_round_trip (model system_prompt user_prompt : string) :
  let payload := build_default_payload model system_prompt user_prompt in
  extract_by_path payload "messages.0.content" = Ok (JStr system_prompt) /\
  extract_by_path payload "messages.1.content" = Ok (JStr user_prompt) /\
  extract_by_path payload "messages.0.role" = Ok (JStr "system") /\
  extract_by_path payload "messages.1.role" = Ok (JStr "user") /\
  extract_by_path payload "model" =
    (if Py.nonempty model then Ok (JStr model) else Err (KeyError "model")).
Proof.
  destruct model as [|c model]; repeat split.
Qed.
